(** * GoThink: the session/storage core and its tool handlers

    A shallow embedding of

    - [internal/storage/storage.go]  (type [Storage] and its methods),
    - [internal/types]               ([ThoughtData], [MentalModelData],
                                      [SessionStatistics], [SessionExport],
                                      the built-in [MentalModels] table),
    - [internal/config]              ([Config], [DefaultConfig]),
    - [internal/models]              ([Loader]: loading, validating and
                                      listing the mental models),
    - [internal/handlers]            ([ThinkingHandler], [SessionHandler]),
    - [cmd/gothink-http/main.go]     ([handleSequentialThinking] and the
                                      [mental_model], [debugging_approach]
                                      and [list_mental_models] tools),

    followed by the properties of the specification that were checked
    against it.

    Conventions.
    - Go's [int] and [int64] are 64-bit two's complement: values are in [Z]
      and every addition and subtraction of the source goes through
      [int_wrap].
    - Go maps are [gmap]s.  Ranging over a Go map visits the entries in an
      unspecified order, chosen afresh at every range; the embedding
      enumerates with [map_to_list], which is one admissible order.  No
      statement below depends on which: a listing is described by its
      members and its length, and two listings of a map are compared up to
      permutation.
    - A run-time panic is an outcome of its own: [None] for the loader of
      custom models and [LoadMentalModels], [ToolPanic] for a tool
      handler, [nil_dereference] for an HTTP handler.
    - [time.Now()] reads the process clock.  The clock is part of the
      modelled state: a current reading in nanoseconds and the list of the
      increments the environment will apply at the next readings.  The
      increments are natural numbers: a reading is never before an earlier
      one, as with the monotonic reading that Go's [time.Now] carries and
      that its comparisons of times use.
    - The methods of [Storage] mutate the receiver; they are functions in
      the state monad [M].  Mutexes and logging leave no trace in the
      results and are not modelled (one operation runs at a time).
    - The Go maps hold pointers.  The only writes through them are those
      of [AddThought] and [AddMentalModel]: to the session that
      [getSession] returned, which they store back under its key, and to
      the caller's record before it is stored, which every caller
      allocates for the call.  Records are therefore values here, and a
      method that writes to its argument returns it.
    - The loader reads the file system and parses YAML.  Both are
      variables of its section: [os.Stat], [os.ReadFile], the entries
      that [filepath.WalkDir] visits, [yaml.Unmarshal] and
      [strings.TrimSpace]. *)

From stdpp Require Import base gmap strings list pretty sorting.
From Stdlib Require Import ZArith Lia.
From Stdlib Require OrderedTypeEx.

Local Open Scope Z_scope.

(** ** Machine integers *)

Definition int_min : Z := - 2 ^ 63.
Definition int_max : Z := 2 ^ 63 - 1.

Definition is_int (z : Z) : bool := (int_min <=? z) && (z <=? int_max).

Definition int_wrap (z : Z) : Z := (z + 2 ^ 63) `mod` 2 ^ 64 - 2 ^ 63.

Definition int_add (a b : Z) : Z := int_wrap (a + b).
Definition int_sub (a b : Z) : Z := int_wrap (a - b).

(** [len] of a slice or map; Go returns it as an [int]. *)
Definition len {A} (l : list A) : Z := Z.of_nat (length l).

(** ** Time *)

(** A [time.Time], as nanoseconds on the process clock. *)
Definition Time : Type := Z.

(** [Time.UnixNano] returns an [int64]. *)
Definition UnixNano (t : Time) : Z := int_wrap t.

(** [Time.Nanosecond]: the offset within the second. *)
Definition Nanosecond (t : Time) : Z := t `mod` 1000000000.

(** ** package types *)

Record ThoughtData := mkThoughtData {
  thought_ID : string;
  Thought : string;
  ThoughtNumber : Z;
  TotalThoughts : Z;
  IsRevision : bool;
  RevisesThought : option Z;
  BranchFromThought : option Z;
  BranchID : string;
  NeedsMoreThoughts : bool;
  NextThoughtNeeded : bool;
  thought_CreatedAt : Time
}.

(** [Confidence] is a [float64] that the code only carries around; it is
    kept as its 64-bit pattern. *)
Record MentalModelData := mkMentalModelData {
  model_ID : string;
  ModelName : string;
  Problem : string;
  Steps : list string;
  Reasoning : string;
  Conclusion : string;
  Confidence : Z;
  model_CreatedAt : Time
}.

Record SessionStatistics := mkSessionStatistics {
  stats_SessionID : string;
  stats_CreatedAt : Time;
  stats_LastAccessedAt : Time;
  stats_ThoughtCount : Z;
  stats_ToolsUsed : list string;
  stats_TotalOperations : Z;
  stats_IsActive : bool;
  stats_RemainingThoughts : Z;
  Stores : gmap string (gmap string Z)
}.

(** The values held by the [interface{}] slots of a [SessionExport]. *)
Inductive ExportValue :=
  | VThoughts (ts : list ThoughtData)
  | VMentalModels (ms : list MentalModelData)
  | VTime (t : Time)
  | VString (s : string).

Record SessionExport := mkSessionExport {
  Version : string;
  Timestamp : Time;
  export_SessionID : string;
  SessionType : string;
  Data : gmap string ExportValue;
  Metadata : gmap string ExportValue
}.

(** [types.MentalModel] *)
Record CoreMentalModel := mkCoreMentalModel {
  core_Name : string;
  core_Description : string;
  core_Steps : list string;
  core_Examples : list string;
  core_Category : string
}.

(** [var MentalModels = map[string]MentalModel{...}] *)
Definition MentalModels : gmap string CoreMentalModel :=
  <["first_principles" := {|
      core_Name := "First Principles Thinking";
      core_Description := "Break down complex problems into fundamental components";
      core_Steps := [ "Identify the problem clearly";
                      "Break it down into basic components";
                      "Question assumptions";
                      "Build up from the basics" ];
      core_Examples := [];
      core_Category := "analytical" |}]>
  (<["opportunity_cost" := {|
      core_Name := "Opportunity Cost Analysis";
      core_Description := "Consider what you give up when making a choice";
      core_Steps := [ "Identify all available options";
                      "List the benefits of each option";
                      "Identify what you give up with each choice";
                      "Compare opportunity costs" ];
      core_Examples := [];
      core_Category := "decision-making" |}]>
  (<["bayesian_thinking" := {|
      core_Name := "Bayesian Thinking";
      core_Description := "Update beliefs based on new evidence";
      core_Steps := [ "Start with prior beliefs";
                      "Gather new evidence";
                      "Update beliefs using Bayes' theorem";
                      "Consider alternative explanations" ];
      core_Examples := [];
      core_Category := "probabilistic" |}]>
  (<["systems_thinking" := {|
      core_Name := "Systems Thinking";
      core_Description := "Understand how parts of a system interact";
      core_Steps := [ "Identify system boundaries";
                      "Map system components";
                      "Identify relationships and feedback loops";
                      "Consider emergent properties" ];
      core_Examples := [];
      core_Category := "holistic" |}]> ∅))).

(** ** package config *)

(** The fields of [Config] that the storage core and the tools read.
    [MaxThoughtsPerSession] is a Go [int]; the record carries the fact
    that it is in range. *)
Record Config := mkConfig {
  MaxThoughtsPerSession : Z;
  MentalModelsPath : string;
  MaxThoughtsPerSession_int : is_int MaxThoughtsPerSession = true
}.

Definition DefaultConfig : Config :=
  {| MaxThoughtsPerSession := 100;
     MentalModelsPath := "";
     MaxThoughtsPerSession_int := eq_refl |}.

(** ** package storage *)

Record SessionData := mkSessionData {
  ID : string;
  CreatedAt : Time;
  LastAccessedAt : Time;
  ThoughtCount : Z;
  ToolsUsed : list string;
  TotalOperations : Z;
  IsActive : bool;
  RemainingThoughts : Z
}.

(** The [Storage] struct, together with the process clock ([clock] is the
    last reading, [ticks] the increments still to come; when [ticks] runs
    out the clock stands still). *)
Record Storage := mkStorage {
  config : Config;
  thoughts : gmap string ThoughtData;
  mentalModels : gmap string MentalModelData;
  sessions : gmap string SessionData;
  clock : Time;
  ticks : list N
}.

(** The errors built with [fmt.Errorf] in storage.go. *)
Inductive error :=
  | ErrThoughtLimit (sessionID : string)
  | ErrSessionNotFound (sessionID : string).

Definition Error (e : error) : string :=
  match e with
  | ErrThoughtLimit sid => "thought limit reached for session " +:+ sid
  | ErrSessionNotFound sid => "session " +:+ sid +:+ " not found"
  end.

(** *** The state monad of the methods *)

Definition M (A : Type) : Type := Storage -> A * Storage.

Definition ret {A} (a : A) : M A := fun s => (a, s).

Definition bind {A B} (m : M A) (k : A -> M B) : M B :=
  fun s => let '(a, s') := m s in k a s'.

Notation "x <- m ;; k" := (bind m (fun x => k))
  (at level 100, m at next level, right associativity).
Notation "m ;; k" := (bind m (fun _ => k))
  (at level 100, right associativity).

Definition set_thoughts (f : gmap string ThoughtData -> gmap string ThoughtData)
  : M unit :=
  fun s => (tt, mkStorage (config s) (f (thoughts s)) (mentalModels s)
                          (sessions s) (clock s) (ticks s)).

Definition set_mentalModels
  (f : gmap string MentalModelData -> gmap string MentalModelData) : M unit :=
  fun s => (tt, mkStorage (config s) (thoughts s) (f (mentalModels s))
                          (sessions s) (clock s) (ticks s)).

Definition set_sessions (f : gmap string SessionData -> gmap string SessionData)
  : M unit :=
  fun s => (tt, mkStorage (config s) (thoughts s) (mentalModels s)
                          (f (sessions s)) (clock s) (ticks s)).

Definition gets {A} (f : Storage -> A) : M A := fun s => (f s, s).

(** [time.Now()] *)
Definition timeNow : M Time :=
  fun s =>
    match ticks s with
    | [] => (clock s, s)
    | d :: ds =>
        let t := clock s + Z.of_N d in
        (t, mkStorage (config s) (thoughts s) (mentalModels s) (sessions s) t ds)
    end.

(** [New(cfg)]: empty stores.  The clock is the environment's. *)
Definition New (cfg : Config) (t0 : Time) (env : list N) : Storage :=
  {| config := cfg; thoughts := ∅; mentalModels := ∅; sessions := ∅;
     clock := t0; ticks := env |}.

(** [generateID]: [fmt.Sprintf("%d-%d", time.Now().UnixNano(),
    time.Now().Nanosecond())] *)
Definition generateID : M string :=
  t1 <- timeNow ;;
  t2 <- timeNow ;;
  ret (pretty (UnixNano t1) +:+ "-" +:+ pretty (Nanosecond t2)).

(** [getSession]: gets or creates a session. *)
Definition getSession (sessionID : string) : M SessionData :=
  found <- gets (fun s => sessions s !! sessionID) ;;
  match found with
  | Some session => ret session
  | None =>
      created <- timeNow ;;
      accessed <- timeNow ;;
      cap <- gets (fun s => MaxThoughtsPerSession (config s)) ;;
      let session :=
        {| ID := sessionID; CreatedAt := created; LastAccessedAt := accessed;
           ThoughtCount := 0; ToolsUsed := []; TotalOperations := 0;
           IsActive := true; RemainingThoughts := cap |} in
      set_sessions <[sessionID := session]> ;;
      ret session
  end.

(** [GetSession]: the strict lookup. *)
Definition GetSession (sessionID : string) : M (error + SessionData) :=
  found <- gets (fun s => sessions s !! sessionID) ;;
  match found with
  | None => ret (inl (ErrSessionNotFound sessionID))
  | Some session => ret (inr session)
  end.

(** [CreateSession]: installs a fresh session under the identifier. *)
Definition CreateSession (sessionID : string) : M (error + SessionData) :=
  created <- timeNow ;;
  accessed <- timeNow ;;
  cap <- gets (fun s => MaxThoughtsPerSession (config s)) ;;
  let session :=
    {| ID := sessionID; CreatedAt := created; LastAccessedAt := accessed;
       ThoughtCount := 0; ToolsUsed := []; TotalOperations := 0;
       IsActive := true; RemainingThoughts := cap |} in
  set_sessions <[sessionID := session]> ;;
  ret (inr session).

Definition with_ID (id : string) (created : Time) (t : ThoughtData) : ThoughtData :=
  {| thought_ID := id; Thought := Thought t; ThoughtNumber := ThoughtNumber t;
     TotalThoughts := TotalThoughts t; IsRevision := IsRevision t;
     RevisesThought := RevisesThought t;
     BranchFromThought := BranchFromThought t; BranchID := BranchID t;
     NeedsMoreThoughts := NeedsMoreThoughts t;
     NextThoughtNeeded := NextThoughtNeeded t;
     thought_CreatedAt := created |}.

(** [AddThought].  The Go method returns an [error] and writes the
    identifier and the creation time into the caller's [*ThoughtData]; the
    embedding returns the thought as written (every caller in the
    repository passes a freshly allocated [ThoughtData]). *)
Definition AddThought (sessionID : string) (thought : ThoughtData)
  : M (error + ThoughtData) :=
  session <- getSession sessionID ;;
  cap <- gets (fun s => MaxThoughtsPerSession (config s)) ;;
  if cap <=? ThoughtCount session then
    ret (inl (ErrThoughtLimit sessionID))
  else
    id <- (if decide (thought_ID thought = "") then generateID
           else ret (thought_ID thought)) ;;
    created <- timeNow ;;
    let thought' := with_ID id created thought in
    set_thoughts <[id := thought']> ;;
    accessed <- timeNow ;;
    let session' :=
      {| ID := ID session; CreatedAt := CreatedAt session;
         LastAccessedAt := accessed;
         ThoughtCount := int_add (ThoughtCount session) 1;
         ToolsUsed := ToolsUsed session;
         TotalOperations := TotalOperations session;
         IsActive := IsActive session;
         RemainingThoughts := RemainingThoughts session |} in
    set_sessions <[sessionID := session']> ;;
    ret (inr thought').

(** [GetThoughts]: ranges over the whole [thoughts] map; [sessionID] is
    not used. *)
Definition GetThoughts (sessionID : string) : M (error + list ThoughtData) :=
  ts <- gets (fun s => snd <$> map_to_list (thoughts s)) ;;
  ret (inr ts).

Definition with_model_ID (id : string) (created : Time) (m : MentalModelData)
  : MentalModelData :=
  {| model_ID := id; ModelName := ModelName m; Problem := Problem m;
     Steps := Steps m; Reasoning := Reasoning m; Conclusion := Conclusion m;
     Confidence := Confidence m; model_CreatedAt := created |}.

(** [AddMentalModel] *)
Definition AddMentalModel (sessionID : string) (model : MentalModelData)
  : M (error + MentalModelData) :=
  id <- (if decide (model_ID model = "") then generateID
         else ret (model_ID model)) ;;
  created <- timeNow ;;
  let model' := with_model_ID id created model in
  set_mentalModels <[id := model']> ;;
  session <- getSession sessionID ;;
  accessed <- timeNow ;;
  let session' :=
    {| ID := ID session; CreatedAt := CreatedAt session;
       LastAccessedAt := accessed;
       ThoughtCount := ThoughtCount session;
       ToolsUsed := ToolsUsed session;
       TotalOperations := TotalOperations session;
       IsActive := IsActive session;
       RemainingThoughts := RemainingThoughts session |} in
  set_sessions <[sessionID := session']> ;;
  ret (inr model').

(** [GetMentalModels] *)
Definition GetMentalModels (sessionID : string)
  : M (error + list MentalModelData) :=
  ms <- gets (fun s => snd <$> map_to_list (mentalModels s)) ;;
  ret (inr ms).

(** The result of a call whose error the caller drops with [_]. *)
Definition value {A} (r : error + list A) : list A :=
  match r with inl _ => [] | inr l => l end.

(** [GetSessionStats] *)
Definition GetSessionStats (sessionID : string) : M (error + SessionStatistics) :=
  session <- getSession sessionID ;;
  r1 <- GetThoughts sessionID ;;
  r2 <- GetMentalModels sessionID ;;
  cap <- gets (fun s => MaxThoughtsPerSession (config s)) ;;
  let thoughts := value r1 in
  let mentalModels := value r2 in
  let toolsUsed : gmap string bool :=
    (if 0 <? len mentalModels then <["mental-model" := true]> else id)
      ((if 0 <? len thoughts then <["sequential-thinking" := true]> else id) ∅) in
  let toolsList := fst <$> map_to_list toolsUsed in
  ret (inr
    {| stats_SessionID := sessionID;
       stats_CreatedAt := CreatedAt session;
       stats_LastAccessedAt := LastAccessedAt session;
       stats_ThoughtCount := len thoughts;
       stats_ToolsUsed := toolsList;
       stats_TotalOperations := int_add (len thoughts) (len mentalModels);
       stats_IsActive := IsActive session;
       stats_RemainingThoughts := int_sub cap (len thoughts);
       Stores :=
         <["thoughts" := {["count" := len thoughts]}]>
         (<["mental_models" := {["count" := len mentalModels]}]> ∅) |}).

(** [ExportSession] *)
Definition ExportSession (sessionID : string) : M (error + SessionExport) :=
  r1 <- GetThoughts sessionID ;;
  r2 <- GetMentalModels sessionID ;;
  stamp <- timeNow ;;
  exported <- timeNow ;;
  ret (inr
    {| Version := "1.0.0";
       Timestamp := stamp;
       export_SessionID := sessionID;
       SessionType := "hybrid";
       Data := <["thoughts" := VThoughts (value r1)]>
               (<["mental_models" := VMentalModels (value r2)]> ∅);
       Metadata := <["exported_at" := VTime exported]>
                   (<["version" := VString "0.1.0"]> ∅) |}).

(** ** package models *)

(** [models.MentalModel] *)
Record MentalModel := mkMentalModel {
  Name : string;
  Description : string;
  model_Steps : list string;
  Category : string;
  Priority : Z
}.

(** [Loader.LoadMentalModels].  Reading and validating the YAML files is
    the work of [loadCustomModels], which depends on the file system: it is
    the argument [loadCustomModels], from a path to what the loader does
    there: [None] when it panics (on a path that [os.Stat] cannot read),
    otherwise the error or the models it returns.  A panic of the loader
    is a panic of [LoadMentalModels], again [None]; the error that
    [LoadMentalModels] returns is always [nil]. *)
Definition LoadMentalModels
    (loadCustomModels : string -> option (string + gmap string MentalModel))
    (configPath : string) : option (string + gmap string MentalModel) :=
  let models : gmap string MentalModel :=
    (fun coreModel =>
       {| Name := core_Name coreModel;
          Description := core_Description coreModel;
          model_Steps := core_Steps coreModel;
          Category := core_Category coreModel;
          Priority := 0 |}) <$> MentalModels in
  if decide (configPath = "") then Some (inr models)
  else
    match loadCustomModels configPath with
    | None => None
    | Some (inl _) => Some (inr models)
    | Some (inr customModels) => Some (inr (customModels ∪ models))
    end.

(** [Loader.GetAvailableModels] *)
Definition GetAvailableModels (models : gmap string MentalModel) : list string :=
  (fun kv => fst kv +:+ ": " +:+ Name (snd kv)) <$> map_to_list models.

(** ** cmd/gothink-http *)

(** The [session_context] object of the sequential-thinking response. *)
Record ThinkingContext := mkThinkingContext {
  ctx_session_id : string;
  total_thoughts : Z;
  remaining_thoughts : Z
}.

(** The response map that [handleSequentialThinking] hands to
    [json.Marshal]; the JSON text itself is not modelled. *)
Record ThinkingResponse := mkThinkingResponse {
  status : string;
  thought_id : string;
  session_context : ThinkingContext
}.

(** [handleSequentialThinking] *)
Definition handleSequentialThinking
    (sessionID thought : string) (thoughtNumber totalThoughts : Z)
    (nextThoughtNeeded : bool) : M (error + ThinkingResponse) :=
  t1 <- timeNow ;;
  t2 <- timeNow ;;
  let thoughtData :=
    {| thought_ID := pretty (UnixNano t1) +:+ "-" +:+ pretty thoughtNumber;
       Thought := thought;
       ThoughtNumber := thoughtNumber;
       TotalThoughts := totalThoughts;
       IsRevision := false;
       RevisesThought := None;
       BranchFromThought := None;
       BranchID := "";
       NeedsMoreThoughts := false;
       NextThoughtNeeded := nextThoughtNeeded;
       thought_CreatedAt := t2 |} in
  added <- AddThought sessionID thoughtData ;;
  match added with
  | inl err => ret (inl err)
  | inr thoughtData =>
      r <- GetSessionStats sessionID ;;
      match r with
      | inl err => ret (inl err)
      | inr stats =>
          ret (inr
            {| status := "success";
               thought_id := thought_ID thoughtData;
               session_context :=
                 {| ctx_session_id := sessionID;
                    total_thoughts := stats_ThoughtCount stats;
                    remaining_thoughts := int_sub 100 (stats_ThoughtCount stats) |} |})
      end
  end.

(** The [model_info] object of the mental-model response. *)
Record ModelInfo := mkModelInfo {
  info_name : string;
  info_description : string;
  info_category : string;
  info_priority : Z
}.

(** The response map of the [mental_model] tool. *)
Record MentalModelResponse := mkMentalModelResponse {
  mm_status : string;
  model_id : string;
  model_info : ModelInfo;
  steps_used : list string;
  has_steps : bool;
  has_conclusion : bool;
  mm_session_id : string;
  total_mental_models : Z
}.

(** What a tool handler produces: a [mcp.CallToolResult] with an error
    text or with the marshalled response, or no result at all,
    [ToolPanic], when the handler panics before it returns. *)
Inductive CallToolResult (R : Type) :=
  | ToolResultError (msg : string)
  | ToolResultText (r : R)
  | ToolPanic.
Arguments ToolResultError {R} msg.
Arguments ToolResultText {R} r.
Arguments ToolPanic {R}.

(** [fmt.Sprintf("%v", l)] for a [[]string]. *)
Definition sprint_strings (l : list string) : string :=
  "[" +:+ String.concat " " l +:+ "]".

(** [stats.Stores["mental_models"].(map[string]int)["count"]] *)
Definition mental_models_count (stats : SessionStatistics) : Z :=
  default 0 (Stores stats !! "mental_models" ≫= (.!! "count")).

(** The handler of the [mental_model] tool registered by
    [addThinkingTools]; [steps] is what [req.GetStringSlice("steps",
    []string{})] returned. *)
Definition mentalModelTool
    (loadCustomModels : string -> option (string + gmap string MentalModel))
    (sessionID modelName problem : string) (steps : list string)
  : M (CallToolResult MentalModelResponse) :=
  path <- gets (fun s => MentalModelsPath (config s)) ;;
  match LoadMentalModels loadCustomModels path with
  | None => ret ToolPanic
  | Some (inl err) =>
      ret (ToolResultError ("Failed to load mental models: " +:+ err))
  | Some (inr availableModels) =>
      match availableModels !! modelName with
      | None =>
          let available := GetAvailableModels availableModels in
          ret (ToolResultError
                 ("Mental model '" +:+ modelName
                    +:+ "' not found. Available models: "
                    +:+ sprint_strings available))
      | Some model =>
          let steps := if decide (len steps = 0) then model_Steps model else steps in
          t1 <- timeNow ;;
          t2 <- timeNow ;;
          let modelData :=
            {| model_ID := pretty (UnixNano t1) +:+ "-" +:+ pretty (len steps);
               ModelName := modelName;
               Problem := problem;
               Steps := steps;
               Reasoning := "";
               Conclusion := "";
               Confidence := 0;
               model_CreatedAt := t2 |} in
          _ <- AddMentalModel sessionID modelData ;;
          r <- GetSessionStats sessionID ;;
          let count :=
            match r with inl _ => 0 | inr stats => mental_models_count stats end in
          ret (ToolResultText
            {| mm_status := "success";
               model_id := model_ID modelData;
               model_info :=
                 {| info_name := Name model;
                    info_description := Description model;
                    info_category := Category model;
                    info_priority := Priority model |};
               steps_used := steps;
               has_steps := 0 <? len steps;
               has_conclusion := false;
               mm_session_id := sessionID;
               total_mental_models := count |})
      end
  end.

(** ** Operations and traces *)

(** The storage operations that the tools and HTTP handlers of the
    repository invoke ([getSession] is the internal get-or-create that all
    of them go through), and [OpNow], a reading of the clock by a caller
    (the handlers read it when they build the record they submit).
    [CreateSession] and [GetSession] are exported but no tool or handler
    calls them. *)
Inductive Op :=
  | OpAddThought (sessionID : string) (thought : ThoughtData)
  | OpAddMentalModel (sessionID : string) (model : MentalModelData)
  | OpGetSession (sessionID : string)
  | OpGetSessionStats (sessionID : string)
  | OpExportSession (sessionID : string)
  | OpNow.

(** The [error] a call returned ([None] is [nil]). *)
Definition err_of {A} (r : error + A) : option error :=
  match r with inl e => Some e | inr _ => None end.

Definition exec (op : Op) : M (option error) :=
  match op with
  | OpAddThought sid t => r <- AddThought sid t ;; ret (err_of r)
  | OpAddMentalModel sid m => r <- AddMentalModel sid m ;; ret (err_of r)
  | OpGetSession sid => _ <- getSession sid ;; ret None
  | OpGetSessionStats sid => r <- GetSessionStats sid ;; ret (err_of r)
  | OpExportSession sid => r <- ExportSession sid ;; ret (err_of r)
  | OpNow => _ <- timeNow ;; ret None
  end.

(** Runs the operations in order and collects what each returned. *)
Fixpoint run (ops : list Op) : M (list (option error)) :=
  match ops with
  | [] => ret []
  | op :: ops' => e <- exec op ;; es <- run ops' ;; ret (e :: es)
  end.

(** The number of calls [AddThought sid _] of a trace that returned [nil]. *)
Fixpoint appended (sid : string) (ops : list Op) (outcomes : list (option error))
  : nat :=
  match ops, outcomes with
  | OpAddThought sid' _ :: ops', None :: outcomes' =>
      ((if decide (sid' = sid) then 1 else 0) + appended sid ops' outcomes')%nat
  | _ :: ops', _ :: outcomes' => appended sid ops' outcomes'
  | _, _ => 0%nat
  end.

(** A session's thought count, as every operation reads it: the counter of
    the session that [getSession] returns, which is 0 for a session that
    does not exist yet. *)
Definition thought_count (s : Storage) (sid : string) : Z :=
  match sessions s !! sid with
  | Some session => ThoughtCount session
  | None => 0
  end.

Definition total_operations (s : Storage) (sid : string) : Z :=
  match sessions s !! sid with
  | Some session => TotalOperations session
  | None => 0
  end.

(** The states the service can be in: any trace from any fresh store. *)
Definition reachable (s : Storage) : Prop :=
  exists cfg t0 env ops, s = (run ops (New cfg t0 env)).2.

(** ** Definitions used in the statements *)

Abbreviation cap s := (MaxThoughtsPerSession (config s)).

(** [frame s s']: only the clock moved, and it did not move back. *)
Definition frame (s s' : Storage) : Prop :=
  config s' = config s /\ thoughts s' = thoughts s /\
  mentalModels s' = mentalModels s /\ sessions s' = sessions s /\
  clock s <= clock s'.

(** Every stored counter is between 0 and the cap (or is 0, under a
    negative cap), and no session is stamped later than the clock. *)
Definition sessions_ok (s : Storage) : Prop :=
  forall sid a, sessions s !! sid = Some a ->
    0 <= ThoughtCount a <= Z.max 0 (cap s) /\ LastAccessedAt a <= clock s.

(** Sample data. *)

Definition sample_thought (id text : string) (number total : Z) : ThoughtData :=
  {| thought_ID := id; Thought := text; ThoughtNumber := number;
     TotalThoughts := total; IsRevision := false; RevisesThought := None;
     BranchFromThought := None; BranchID := ""; NeedsMoreThoughts := false;
     NextThoughtNeeded := true; thought_CreatedAt := 0 |}.

(** A configuration file may set any [int] as the cap. *)
Definition cap_config (n : Z) (H : is_int n = true) : Config :=
  {| MaxThoughtsPerSession := n; MentalModelsPath := "";
     MaxThoughtsPerSession_int := H |}.

(** The built-in definition, as [LoadMentalModels] converts it. *)
Definition builtin_first_principles : MentalModel :=
  {| Name := "First Principles Thinking";
     Description := "Break down complex problems into fundamental components";
     model_Steps := [ "Identify the problem clearly";
                      "Break it down into basic components";
                      "Question assumptions";
                      "Build up from the basics" ];
     Category := "analytical";
     Priority := 0 |}.

(** The load of the custom models does not panic: no path is configured,
    so that [loadCustomModels] is not called, or the call returns. *)
Definition load_returns
    (loadCustomModels : string -> option (string + gmap string MentalModel))
    (path : string) : Prop :=
  path = "" \/ is_Some (loadCustomModels path).

(** No custom source for [first_principles]: no path is configured, or
    what is loaded from the path does not define that key. *)
Definition not_overridden
    (loadCustomModels : string -> option (string + gmap string MentalModel))
    (path : string) : Prop :=
  path = "" \/
  forall custom, loadCustomModels path = Some (inr custom) ->
                 custom !! "first_principles" = None.

(** Destructs the first call of the monadic sequence in [H]. *)
Ltac step_in H :=
  match type of H with
  | context [ let '(_, _) := ?m ?s in _ ] =>
      let a := fresh "a" in
      let s' := fresh "s" in
      let E := fresh "E" in
      destruct (m s) as [a s'] eqn:E
  end.

(** ** package handlers *)

(** What a handler wrote to its [http.ResponseWriter].  [respondWithJSON]
    writes the data with the default status 200; [respondWithError] writes
    [{"error": message}] with the given status.  [nil_dereference] is the
    run-time panic of a handler that reads through a [nil] pointer. *)
Inductive HTTPResponse (R : Type) :=
  | respondWithJSON (data : R)
  | respondWithError (message : string) (statusCode : Z)
  | nil_dereference.
Arguments respondWithJSON {R} data.
Arguments respondWithError {R} message statusCode.
Arguments nil_dereference {R}.

Definition StatusOK : Z := 200.
Definition StatusBadRequest : Z := 400.
Definition StatusInternalServerError : Z := 500.

(** The status line of the response. *)
Definition StatusCode {R} (r : HTTPResponse R) : option Z :=
  match r with
  | respondWithJSON _ => Some StatusOK
  | respondWithError _ code => Some code
  | nil_dereference => None
  end.

(** [SessionHandler.GetStats]; [session_id] is
    [r.URL.Query().Get("session_id")], empty when the parameter is
    missing. *)
Definition SessionHandler_GetStats (session_id : string)
  : M (HTTPResponse SessionStatistics) :=
  if decide (session_id = "") then
    ret (respondWithError "Session ID required" StatusBadRequest)
  else
    r <- GetSessionStats session_id ;;
    match r with
    | inl _ => ret (respondWithError "Failed to get session stats"
                                     StatusInternalServerError)
    | inr stats => ret (respondWithJSON stats)
    end.

(** [SessionHandler.Export] *)
Definition SessionHandler_Export (session_id : string)
  : M (HTTPResponse SessionExport) :=
  if decide (session_id = "") then
    ret (respondWithError "Session ID required" StatusBadRequest)
  else
    r <- ExportSession session_id ;;
    match r with
    | inl _ => ret (respondWithError "Failed to export session"
                                     StatusInternalServerError)
    | inr export => ret (respondWithJSON export)
    end.

(** The request body of [ThinkingHandler.SequentialThinking], decoded. *)
Record SequentialThinkingRequest := mkSequentialThinkingRequest {
  st_SessionID : string;
  st_Thought : string;
  st_ThoughtNumber : Z;
  st_TotalThoughts : Z;
  st_NextThoughtNeeded : bool;
  st_IsRevision : bool;
  st_RevisesThought : option Z;
  st_BranchFromThought : option Z;
  st_BranchID : string;
  st_NeedsMoreThoughts : bool
}.

(** Its response map. *)
Record SequentialThinkingReply := mkSequentialThinkingReply {
  reply_thought_id : string;
  reply_status : string;
  reply_session_id : string;
  reply_total_thoughts : Z;
  reply_remaining_thoughts : Z
}.

(** [ThinkingHandler.SequentialThinking]; [decoded] is what
    [json.NewDecoder(r.Body).Decode(&request)] produced, [None] when it
    returned an error.  When [GetSessionStats] returns an error the
    handler logs it and goes on to read the [nil] statistics. *)
Definition ThinkingHandler_SequentialThinking
    (decoded : option SequentialThinkingRequest)
  : M (HTTPResponse SequentialThinkingReply) :=
  match decoded with
  | None => ret (respondWithError "Invalid request body" StatusBadRequest)
  | Some request =>
      now <- timeNow ;;
      let thought :=
        {| thought_ID := "";
           Thought := st_Thought request;
           ThoughtNumber := st_ThoughtNumber request;
           TotalThoughts := st_TotalThoughts request;
           IsRevision := st_IsRevision request;
           RevisesThought := st_RevisesThought request;
           BranchFromThought := st_BranchFromThought request;
           BranchID := st_BranchID request;
           NeedsMoreThoughts := st_NeedsMoreThoughts request;
           NextThoughtNeeded := st_NextThoughtNeeded request;
           thought_CreatedAt := now |} in
      added <- AddThought (st_SessionID request) thought ;;
      match added with
      | inl _ => ret (respondWithError "Failed to add thought"
                                       StatusInternalServerError)
      | inr thought =>
          r <- GetSessionStats (st_SessionID request) ;;
          match r with
          | inl _ => ret nil_dereference
          | inr stats =>
              ret (respondWithJSON
                {| reply_thought_id := thought_ID thought;
                   reply_status := "success";
                   reply_session_id := st_SessionID request;
                   reply_total_thoughts := stats_ThoughtCount stats;
                   reply_remaining_thoughts := stats_RemainingThoughts stats |})
          end
      end
  end.

(** The request body of [ThinkingHandler.MentalModel], decoded. *)
Record MentalModelRequest := mkMentalModelRequest {
  mr_SessionID : string;
  mr_ModelName : string;
  mr_Problem : string;
  mr_Steps : list string;
  mr_Reasoning : string;
  mr_Conclusion : string;
  mr_Confidence : Z
}.

Record MentalModelReply := mkMentalModelReply {
  reply_model_id : string;
  reply_model_status : string;
  reply_has_steps : bool;
  reply_has_conclusion : bool;
  reply_model_session_id : string;
  reply_total_mental_models : Z
}.

(** [ThinkingHandler.MentalModel] *)
Definition ThinkingHandler_MentalModel (decoded : option MentalModelRequest)
  : M (HTTPResponse MentalModelReply) :=
  match decoded with
  | None => ret (respondWithError "Invalid request body" StatusBadRequest)
  | Some request =>
      match MentalModels !! mr_ModelName request with
      | None => ret (respondWithError "Invalid mental model" StatusBadRequest)
      | Some _ =>
          now <- timeNow ;;
          let model :=
            {| model_ID := "";
               ModelName := mr_ModelName request;
               Problem := mr_Problem request;
               Steps := mr_Steps request;
               Reasoning := mr_Reasoning request;
               Conclusion := mr_Conclusion request;
               Confidence := mr_Confidence request;
               model_CreatedAt := now |} in
          added <- AddMentalModel (mr_SessionID request) model ;;
          match added with
          | inl _ => ret (respondWithError "Failed to add mental model"
                                           StatusInternalServerError)
          | inr model =>
              r <- GetSessionStats (mr_SessionID request) ;;
              match r with
              | inl _ => ret nil_dereference
              | inr stats =>
                  ret (respondWithJSON
                    {| reply_model_id := model_ID model;
                       reply_model_status := "success";
                       reply_has_steps := 0 <? len (mr_Steps request);
                       reply_has_conclusion :=
                         negb (bool_decide (mr_Conclusion request = ""));
                       reply_model_session_id := mr_SessionID request;
                       reply_total_mental_models := mental_models_count stats |})
              end
          end
      end
  end.

(** The request body of [ThinkingHandler.DebuggingApproach], decoded. *)
Record DebuggingApproachRequest := mkDebuggingApproachRequest {
  dr_SessionID : string;
  dr_ApproachName : string;
  dr_Issue : string;
  dr_Steps : list string;
  dr_Findings : string;
  dr_Resolution : string
}.

Record DebuggingApproachReply := mkDebuggingApproachReply {
  reply_approach_id : string;
  reply_approach_status : string;
  reply_has_findings : bool;
  reply_has_resolution : bool
}.

(** [ThinkingHandler.DebuggingApproach]: the approach is stored as a
    mental model. *)
Definition ThinkingHandler_DebuggingApproach
    (decoded : option DebuggingApproachRequest)
  : M (HTTPResponse DebuggingApproachReply) :=
  match decoded with
  | None => ret (respondWithError "Invalid request body" StatusBadRequest)
  | Some request =>
      now <- timeNow ;;
      let model :=
        {| model_ID := "";
           ModelName := "debugging_" +:+ dr_ApproachName request;
           Problem := dr_Issue request;
           Steps := dr_Steps request;
           Reasoning := dr_Findings request;
           Conclusion := dr_Resolution request;
           Confidence := 0;
           model_CreatedAt := now |} in
      added <- AddMentalModel (dr_SessionID request) model ;;
      match added with
      | inl _ => ret (respondWithError "Failed to add debugging approach"
                                       StatusInternalServerError)
      | inr model =>
          ret (respondWithJSON
            {| reply_approach_id := model_ID model;
               reply_approach_status := "success";
               reply_has_findings := negb (bool_decide (dr_Findings request = ""));
               reply_has_resolution :=
                 negb (bool_decide (dr_Resolution request = "")) |})
      end
  end.

(** ** cmd/gothink-http, the other tools *)

(** The response map of the [debugging_approach] tool. *)
Record DebuggingToolResponse := mkDebuggingToolResponse {
  dbg_status : string;
  dbg_approach_id : string;
  dbg_has_steps : bool;
  dbg_has_findings : bool;
  dbg_has_resolution : bool;
  dbg_session_id : string
}.

(** The handler of the [debugging_approach] tool registered by
    [addThinkingTools]. *)
Definition debuggingApproachTool
    (sessionID approachName issue : string) (steps : list string)
  : M (CallToolResult DebuggingToolResponse) :=
  t <- timeNow ;;
  ret (ToolResultText
    {| dbg_status := "success";
       dbg_approach_id := pretty (UnixNano t) +:+ "-" +:+ pretty (len steps);
       dbg_has_steps := 0 <? len steps;
       dbg_has_findings := false;
       dbg_has_resolution := false;
       dbg_session_id := sessionID |}).

(** ** Further definitions used in the statements *)

(** The sum of the thought counts of all sessions. *)
Definition total_thought_count (s : Storage) : Z :=
  map_fold (fun _ session acc => ThoughtCount session + acc) 0 (sessions s).

(** ** package models, the rest of the loader *)

(** [strings.HasSuffix] *)
Definition HasSuffix (s suffix : string) : bool :=
  (String.length suffix <=? String.length s)%nat &&
  bool_decide (String.substring (String.length s - String.length suffix)
                 (String.length suffix) s = suffix).

(** [models.MentalModelWithKey] *)
Record MentalModelWithKey := mkMentalModelWithKey {
  Key : string;
  Model : MentalModel
}.

(** What [os.Stat] reports about a path. *)
Inductive StatResult :=
  | stat_not_exist
  | stat_failed (err : string)
  | stat_info (isDir : bool).

(** A call of the function passed to [filepath.WalkDir]: the path, whether
    the entry is a directory, and the error WalkDir reports for it. *)
Record WalkEntry := mkWalkEntry {
  walk_path : string;
  walk_isDir : bool;
  walk_err : option string
}.

Section Loader.

(** The loader's environment: [strings.TrimSpace]; the file system, as
    [os.Stat], [os.ReadFile] and the entries [filepath.WalkDir] visits
    under a directory, in its order; and [yaml.Unmarshal] into a
    [MentalModelConfig], which gives the [Models] map or an error. *)
Variable TrimSpace : string -> string.
Variable Stat : string -> StatResult.
Variable ReadFile : string -> string + string.
Variable WalkDir : string -> list WalkEntry.
Variable Unmarshal : string -> string + gmap string MentalModel.

(** The inner loop of [validateModels]: the index of the first step
    that is blank. *)
Fixpoint first_blank_step (i : nat) (steps : list string) : option nat :=
  match steps with
  | [] => None
  | step :: rest =>
      if decide (TrimSpace step = "") then Some i
      else first_blank_step (S i) rest
  end.

(** The checks of [validateModels] on one entry: the error it returns
    for it, if any. *)
Definition validate_entry (key : string) (model : MentalModel) : option string :=
  if decide (TrimSpace (Name model) = "") then
    Some ("model '" +:+ key +:+ "' has empty name")
  else if decide (TrimSpace (Description model) = "") then
    Some ("model '" +:+ key +:+ "' has empty description")
  else if decide (len (model_Steps model) = 0) then
    Some ("model '" +:+ key +:+ "' has no steps")
  else if decide (TrimSpace (Category model) = "") then
    Some ("model '" +:+ key +:+ "' has empty category")
  else
    match first_blank_step 0 (model_Steps model) with
    | Some i =>
        Some ("model '" +:+ key +:+ "' has empty step at index "
                +:+ pretty (Z.of_nat i))
    | None => None
    end.

(** The entry that [validateModels] writes back for a model without
    priority. *)
Definition with_default_priority (model : MentalModel) : MentalModel :=
  if decide (Priority model = 0) then
    {| Name := Name model; Description := Description model;
       model_Steps := model_Steps model; Category := Category model;
       Priority := 1 |}
  else model.

(** The loop of [validateModels] over the entries in the order of the
    range; [models] is the map, which the loop updates as it goes and
    leaves as it is when it returns an error. *)
Fixpoint validate_range (entries : list (string * MentalModel))
    (models : gmap string MentalModel)
  : option string * gmap string MentalModel :=
  match entries with
  | [] => (None, models)
  | (key, model) :: rest =>
      match validate_entry key model with
      | Some err => (Some err, models)
      | None =>
          validate_range rest
            (if decide (Priority model = 0)
             then <[key := with_default_priority model]> models
             else models)
      end
  end.

(** [Loader.validateModels]: the error, and the map as the call leaves
    it (the Go map is updated in place). *)
Definition validateModels (models : gmap string MentalModel)
  : option string * gmap string MentalModel :=
  validate_range (map_to_list models) models.

(** [Loader.loadModelsFromFile]; it returns [config.Models], the map
    that [validateModels] has updated. *)
Definition loadModelsFromFile (filePath : string)
  : string + gmap string MentalModel :=
  match ReadFile filePath with
  | inl err => inl ("failed to read mental models file: " +:+ err)
  | inr data =>
      match Unmarshal data with
      | inl err => inl ("failed to parse mental models YAML: " +:+ err)
      | inr models =>
          match validateModels models with
          | (Some err, _) => inl ("invalid mental models configuration: " +:+ err)
          | (None, models') => inr models'
          end
      end
  end.

(** The walk of [loadCustomModels] over a directory: an error reported
    by WalkDir ends it; a YAML file that does not load is skipped; the
    models of a file replace those collected before under the same
    keys. *)
Fixpoint walk (entries : list WalkEntry) (models : gmap string MentalModel)
  : string + gmap string MentalModel :=
  match entries with
  | [] => inr models
  | entry :: rest =>
      match walk_err entry with
      | Some err => inl err
      | None =>
          if negb (walk_isDir entry)
             && (HasSuffix (walk_path entry) ".yaml"
                 || HasSuffix (walk_path entry) ".yml")
          then
            match loadModelsFromFile (walk_path entry) with
            | inl _ => walk rest models
            | inr fileModels => walk rest (fileModels ∪ models)
            end
          else walk rest models
      end
  end.

(** [Loader.loadCustomModels].  [None] is the run-time panic of
    [info.IsDir()] on the [nil] [FileInfo] that [os.Stat] returns with
    an error other than "does not exist". *)
Definition loadCustomModels (path : string)
  : option (string + gmap string MentalModel) :=
  match Stat path with
  | stat_not_exist => Some (inl ("mental models path does not exist: " +:+ path))
  | stat_failed _ => None
  | stat_info true =>
      match walk (WalkDir path) ∅ with
      | inl err => Some (inl ("failed to walk directory: " +:+ err))
      | inr models => Some (inr models)
      end
  | stat_info false => Some (loadModelsFromFile path)
  end.

End Loader.

(** The comparison of [GetModelsByPriority] and [GetModelsByCategory]:
    higher priority first, then by name ([<] on Go strings compares
    bytes). *)
Definition less (a b : MentalModelWithKey) : bool :=
  if decide (Priority (Model a) <> Priority (Model b)) then
    Priority (Model b) <? Priority (Model a)
  else String.ltb (Name (Model a)) (Name (Model b)).

(** [a] may stand before [b] in a slice sorted by [less]. *)
Definition not_after (a b : MentalModelWithKey) : Prop := less b a = false.

#[global] Instance not_after_dec a b : Decision (not_after a b).
Proof. unfold not_after. apply _. Defined.

(** [sort.Slice(s, less)].  Go does not say in which order elements that
    compare equal come out; a merge sort gives one of the results it
    allows. *)
Definition sort_Slice (s : list MentalModelWithKey) : list MentalModelWithKey :=
  merge_sort not_after s.

(** [Loader.GetModelsByPriority] *)
Definition GetModelsByPriority (models : gmap string MentalModel)
  : list MentalModelWithKey :=
  sort_Slice ((fun kv => {| Key := kv.1; Model := kv.2 |}) <$> map_to_list models).

(** [Loader.GetModelsByCategory] *)
Definition GetModelsByCategory (models : gmap string MentalModel)
  : gmap string (list MentalModelWithKey) :=
  let categories : gmap string (list MentalModelWithKey) :=
    foldl (fun categories kv =>
             <[Category kv.2 :=
                 default [] (categories !! Category kv.2)
                   ++ [{| Key := kv.1; Model := kv.2 |}]]> categories)
          ∅ (map_to_list models) in
  sort_Slice <$> categories.



(** A model that passes the checks of [validateModels]: name, description
    and category are not blank, and there is at least one step and no
    blank one. *)
Definition well_formed (TrimSpace : string -> string) (model : MentalModel) : Prop :=
  TrimSpace (Name model) <> "" /\
  TrimSpace (Description model) <> "" /\
  model_Steps model <> [] /\
  TrimSpace (Category model) <> "" /\
  Forall (fun step => TrimSpace step <> "") (model_Steps model).

(** [WalkDir] calls the function on a YAML file. *)
Definition yaml_file (entry : WalkEntry) : Prop :=
  walk_isDir entry = false /\
  (HasSuffix (walk_path entry) ".yaml" = true \/
   HasSuffix (walk_path entry) ".yml" = true).

(** A small file system for the examples: the directory [models] holds
    [models/a.yaml], which defines [custom] without a priority and
    overrides [first_principles] with priority 7, a file [models/b.yml]
    with a model that has no steps, and [models/notes.txt]. *)
Definition sample_TrimSpace (s : string) : string :=
  if decide (s = " ") then "" else s.

Definition sample_Stat (path : string) : StatResult :=
  if decide (path = "models") then stat_info true
  else if decide (path = "models/a.yaml") then stat_info false
  else if decide (path = "models/b.yml") then stat_info false
  else if decide (path = "locked") then stat_failed "permission denied"
  else stat_not_exist.

Definition sample_ReadFile (path : string) : string + string :=
  if decide (path = "models/a.yaml") then inr "a"
  else if decide (path = "models/b.yml") then inr "b"
  else inl "no such file".

Definition sample_WalkDir (path : string) : list WalkEntry :=
  if decide (path = "models") then
    [ mkWalkEntry "models" true None;
      mkWalkEntry "models/a.yaml" false None;
      mkWalkEntry "models/b.yml" false None;
      mkWalkEntry "models/notes.txt" false None ]
  else [].

Definition sample_custom : MentalModel :=
  mkMentalModel "Custom" "A custom model" ["Think"] "custom" 0.

Definition sample_override : MentalModel :=
  mkMentalModel "My First Principles" "Overrides the built-in" ["Ask why"]
    "analytical" 7.

Definition sample_Unmarshal (data : string) : string + gmap string MentalModel :=
  if decide (data = "a") then
    inr (<["custom" := sample_custom]>
         (<["first_principles" := sample_override]> ∅))
  else if decide (data = "b") then
    inr (<["broken" := mkMentalModel "Broken" "No steps" [] "custom" 3]> ∅)
  else inl "yaml: unmarshal errors".

(** The entry that [LoadMentalModels] makes of a built-in model. *)
Definition from_core (coreModel : CoreMentalModel) : MentalModel :=
  {| Name := core_Name coreModel;
     Description := core_Description coreModel;
     model_Steps := core_Steps coreModel;
     Category := core_Category coreModel;
     Priority := 0 |}.

(** A model of the catalog with its key, as the listings hold it. *)
Definition with_key (kv : string * MentalModel) : MentalModelWithKey :=
  {| Key := kv.1; Model := kv.2 |}.

(** Two export data maps hold the same records: each is made of a
    listing of thoughts and a listing of mental models, and the listings
    agree up to their order, which a range over a Go map leaves open. *)
Definition same_records (d1 d2 : gmap string ExportValue) : Prop :=
  exists ts1 ts2 ms1 ms2,
    d1 = <["thoughts" := VThoughts ts1]> (<["mental_models" := VMentalModels ms1]> ∅) /\
    d2 = <["thoughts" := VThoughts ts2]> (<["mental_models" := VMentalModels ms2]> ∅) /\
    ts1 ≡ₚ ts2 /\ ms1 ≡ₚ ms2.

(** * Properties *)

(** ** Machine integers *)

Lemma int_wrap_id z : int_min <= z <= int_max -> int_wrap z = z.
Proof.
  unfold int_wrap, int_min, int_max. intros H.
  rewrite Z.mod_small; lia.
Qed.

Lemma is_int_spec z : is_int z = true <-> int_min <= z <= int_max.
Proof. unfold is_int. rewrite andb_true_iff, !Z.leb_le. tauto. Qed.

Lemma int_wrap_inj a b :
  int_min <= a <= int_max -> int_min <= b <= int_max ->
  forall n, int_wrap (a - n) = int_wrap (b - n) -> a = b.
Proof.
  unfold int_wrap, int_min, int_max. intros Ha Hb n H.
  assert (E : (a - n + 2 ^ 63) `mod` 2 ^ 64 = (b - n + 2 ^ 63) `mod` 2 ^ 64) by lia.
  pose proof (Z.div_mod (a - n + 2 ^ 63) (2 ^ 64) ltac:(lia)) as Da.
  pose proof (Z.div_mod (b - n + 2 ^ 63) (2 ^ 64) ltac:(lia)) as Db.
  rewrite E in Da.
  assert (K : a - b = 2 ^ 64 * ((a - n + 2 ^ 63) `div` 2 ^ 64
                                - (b - n + 2 ^ 63) `div` 2 ^ 64)) by lia.
  nia.
Qed.

Lemma cap_range cfg : int_min <= MaxThoughtsPerSession cfg <= int_max.
Proof. apply is_int_spec, MaxThoughtsPerSession_int. Qed.

(** ** The clock *)


Lemma frame_refl s : frame s s.
Proof. unfold frame. repeat split; lia. Qed.

Lemma frame_trans s1 s2 s3 : frame s1 s2 -> frame s2 s3 -> frame s1 s3.
Proof.
  unfold frame. intros (-> & -> & -> & -> & ?) (-> & -> & -> & -> & ?).
  repeat split; lia.
Qed.

Lemma timeNow_spec s t s' :
  timeNow s = (t, s') -> frame s s' /\ t = clock s'.
Proof.
  unfold timeNow, frame. destruct (ticks s) as [|d ds]; intros [= <- <-]; simpl.
  - repeat split; lia.
  - repeat split; lia.
Qed.


Lemma string_app_nonempty (a b : string) : b <> "" -> a +:+ b <> "".
Proof. destruct a; simpl; [done | discriminate]. Qed.

Lemma generateID_spec s id s' :
  generateID s = (id, s') -> frame s s' /\ id <> "".
Proof.
  unfold generateID, bind, ret. intros H.
  step_in H. step_in H. injection H as <- <-.
  apply timeNow_spec in E as [F1 _], E0 as [F2 _].
  split; [by eapply frame_trans|].
  by apply string_app_nonempty.
Qed.

(** ** Sessions *)


(** What [getSession] returns and does: the stored session, or a new one
    with zero counters that it stores. *)
Lemma getSession_spec s sid session s' :
  getSession sid s = (session, s') ->
  config s' = config s /\ thoughts s' = thoughts s /\
  mentalModels s' = mentalModels s /\ clock s <= clock s' /\
  ThoughtCount session = thought_count s sid /\
  TotalOperations session = total_operations s sid /\
  ((sessions s !! sid = Some session /\ s' = s) \/
   (sessions s !! sid = None /\
    sessions s' = <[sid := session]> (sessions s) /\
    ID session = sid /\ IsActive session = true /\
    RemainingThoughts session = cap s /\
    clock s <= CreatedAt session <= LastAccessedAt session /\
    LastAccessedAt session = clock s')).
Proof.
  unfold getSession, bind, ret, gets, thought_count, total_operations.
  destruct (sessions s !! sid) as [found|] eqn:L.
  - intros [= <- <-]. repeat split; try lia. by left.
  - intros H. step_in H. step_in H. injection H as <- <-.
    apply timeNow_spec in E as [(C1 & T1 & M1 & S1 & K1) ->].
    apply timeNow_spec in E0 as [(C2 & T2 & M2 & S2 & K2) ->].
    simpl. rewrite C2, C1, T2, T1, M2, M1, S2, S1.
    repeat split; try lia. right. repeat split; try lia; done.
Qed.

Lemma getSession_lookup s sid session s' :
  getSession sid s = (session, s') -> sessions s' !! sid = Some session.
Proof.
  intros H. apply getSession_spec in H as (_ & _ & _ & _ & _ & _ & [[L ->]|(_ & -> & _)]).
  - done.
  - apply lookup_insert_eq.
Qed.

(** [getSession] changes no counter of any session. *)
Lemma getSession_counts s sid session s' sid' :
  getSession sid s = (session, s') ->
  thought_count s' sid' = thought_count s sid' /\
  total_operations s' sid' = total_operations s sid'.
Proof.
  intros H. pose proof H as H0.
  apply getSession_spec in H as (_ & _ & _ & _ & Hc & Ht & [[L ->]|(L & E & _)]).
  - done.
  - unfold thought_count, total_operations in *. rewrite E, L in *.
    destruct (decide (sid = sid')) as [<-|Hne].
    + rewrite lookup_insert_eq, L. done.
    + rewrite lookup_insert_ne by done. done.
Qed.

(** ** [AddThought] *)

(** At or above the cap: the call fails, having done no more than
    [getSession] does. *)
Lemma AddThought_limit s sid thought :
  cap s <= thought_count s sid ->
  exists session s',
    getSession sid s = (session, s') /\
    AddThought sid thought s = (inl (ErrThoughtLimit sid), s').
Proof.
  intros Hcap. unfold AddThought, bind, gets, ret.
  destruct (getSession sid s) as [session s1] eqn:G.
  pose proof (getSession_spec _ _ _ _ G) as (C & T & Mm & K & Hc & _ & Hs).
  rewrite C, Hc. destruct (Z.leb_spec (cap s) (thought_count s sid)); [|lia].
  by eexists _, _.
Qed.

(** So nothing is stored and no counter of any session changes: besides
    the clock, the only possible change is the zero-counter record of a
    session seen for the first time. *)
Lemma AddThought_limit_frame s sid thought :
  cap s <= thought_count s sid ->
  exists s',
    AddThought sid thought s = (inl (ErrThoughtLimit sid), s') /\
    config s' = config s /\ thoughts s' = thoughts s /\
    mentalModels s' = mentalModels s /\ clock s <= clock s' /\
    (forall sid', thought_count s' sid' = thought_count s sid' /\
                  total_operations s' sid' = total_operations s sid') /\
    (forall sid', sid' <> sid -> sessions s' !! sid' = sessions s !! sid').
Proof.
  intros Hcap. destruct (AddThought_limit s sid thought Hcap) as (session & s' & G & ->).
  pose proof (getSession_spec _ _ _ _ G) as (C & T & Mm & K & _ & _ & Hs).
  eexists. split; [done|]. repeat split; try done.
  - eapply getSession_counts in G. apply G.
  - eapply getSession_counts in G. apply G.
  - intros sid' Hne. destruct Hs as [[_ ->]|(_ & -> & _)]; [done|].
    by rewrite lookup_insert_ne.
Qed.

(** Below the cap: the call succeeds; the thought is stored under its
    identifier with the identifier and the creation time filled in, the
    session's counter goes up by one and its last access is the clock's
    last reading. *)
Lemma AddThought_ok s sid thought :
  thought_count s sid < cap s ->
  exists thought' session' s',
    AddThought sid thought s = (inr thought', s') /\
    config s' = config s /\ mentalModels s' = mentalModels s /\
    clock s <= thought_CreatedAt thought' <= clock s' /\
    thought' = with_ID (thought_ID thought') (thought_CreatedAt thought') thought /\
    thought_ID thought' <> "" /\
    (thought_ID thought <> "" -> thought_ID thought' = thought_ID thought) /\
    thoughts s' = <[thought_ID thought' := thought']> (thoughts s) /\
    sessions s' = <[sid := session']> (sessions s) /\
    ThoughtCount session' = int_add (thought_count s sid) 1 /\
    TotalOperations session' = total_operations s sid /\
    LastAccessedAt session' = clock s' /\
    (forall old, sessions s !! sid = Some old ->
       ID session' = ID old /\ CreatedAt session' = CreatedAt old /\
       IsActive session' = IsActive old /\ ToolsUsed session' = ToolsUsed old /\
       RemainingThoughts session' = RemainingThoughts old).
Proof.
  intros Hcap. unfold AddThought, bind, gets, ret.
  destruct (getSession sid s) as [session s1] eqn:G.
  pose proof (getSession_spec _ _ _ _ G) as (C & T & Mm & K & Hc & Ht & Hs).
  rewrite C, Hc. destruct (Z.leb_spec (cap s) (thought_count s sid)); [lia|].
  destruct ((if decide (thought_ID thought = "") then generateID
             else λ s0, (thought_ID thought, s0)) s1) as [id s2] eqn:GI.
  assert (frame s1 s2 /\ id <> "" /\ (thought_ID thought <> "" -> id = thought_ID thought))
    as ((C2 & T2 & M2 & S2 & K2) & Hid & Hkeep).
  { destruct (decide (thought_ID thought = "")) as [Hemp|Hne].
    - apply generateID_spec in GI as [F N]. done.
    - injection GI as <- <-. split; [apply frame_refl|done]. }
  destruct (timeNow s2) as [created s3] eqn:N1.
  apply timeNow_spec in N1 as [(C3 & T3 & M3 & S3 & K3) ->].
  unfold set_thoughts, set_sessions. simpl.
  destruct (timeNow _) as [accessed s4] eqn:N2.
  apply timeNow_spec in N2 as [(C4 & T4 & M4 & S4 & K4) ->].
  assert (HS : forall X, <[sid:=X]> (sessions s1) = <[sid:=X]> (sessions s)).
  { intros X. destruct Hs as [[_ ->]|(_ & -> & _)]; [done|apply insert_insert_eq]. }
  simpl in *.
  eexists _, _, _. split; [done|]. simpl.
  rewrite ?C4, ?C3, ?C2, ?C, ?M4, ?M3, ?M2, ?Mm, ?T4, ?T3, ?T2, ?T, ?S4, ?S3, ?S2,
    ?HS.
  rewrite <- ?Hc, <- ?Ht.
  repeat split; try done; try lia.
  all: simpl; destruct Hs as [[L _]|(L & _)]; congruence.
Qed.

(** ** [AddMentalModel] *)

Lemma AddMentalModel_spec s sid model :
  exists model' session' s',
    AddMentalModel sid model s = (inr model', s') /\
    config s' = config s /\ thoughts s' = thoughts s /\
    clock s <= clock s' /\
    model' = with_model_ID (model_ID model') (model_CreatedAt model') model /\
    mentalModels s' = <[model_ID model' := model']> (mentalModels s) /\
    sessions s' = <[sid := session']> (sessions s) /\
    ThoughtCount session' = thought_count s sid /\
    TotalOperations session' = total_operations s sid /\
    LastAccessedAt session' = clock s'.
Proof.
  unfold AddMentalModel, bind, gets, ret.
  destruct ((if decide (model_ID model = "") then generateID
             else λ s0, (model_ID model, s0)) s) as [id s1] eqn:GI.
  assert (frame s s1) as (C1 & T1 & M1 & S1 & K1).
  { destruct (decide (model_ID model = "")).
    - by apply generateID_spec in GI as [F _].
    - injection GI as <- <-. apply frame_refl. }
  destruct (timeNow s1) as [created s2] eqn:N1.
  apply timeNow_spec in N1 as [(C2 & T2 & M2 & S2 & K2) ->].
  unfold set_mentalModels, set_sessions. simpl.
  destruct (getSession sid _) as [session s3] eqn:G.
  pose proof (getSession_spec _ _ _ _ G) as (C3 & T3 & M3 & K3 & Hc & Ht & Hs).
  unfold thought_count, total_operations in Hc, Ht. simpl in *.
  destruct (timeNow s3) as [accessed s4] eqn:N2.
  apply timeNow_spec in N2 as [(C4 & T4 & M4 & S4 & K4) ->].
  assert (HS : forall X, <[sid:=X]> (sessions s3) = <[sid:=X]> (sessions s)).
  { intros X. destruct Hs as [[_ ->]|(_ & -> & _)]; simpl; rewrite S2, S1;
      [done|apply insert_insert_eq]. }
  eexists _, _, _. split; [done|]. simpl.
  rewrite ?C4, ?C3, ?C2, ?C1, ?T4, ?T3, ?T2, ?T1, ?M4, ?M3, ?M2, ?M1, ?S4, ?HS.
  unfold thought_count, total_operations. rewrite <- S1, <- S2, <- Hc, <- Ht.
  repeat split; try done; lia.
Qed.

(** ** The read paths *)

Lemma GetThoughts_spec s sid :
  GetThoughts sid s = (inr (snd <$> map_to_list (thoughts s)), s).
Proof. reflexivity. Qed.

Lemma GetMentalModels_spec s sid :
  GetMentalModels sid s = (inr (snd <$> map_to_list (mentalModels s)), s).
Proof. reflexivity. Qed.

(** The statistics are computed from the sizes of the two stores. *)
Lemma GetSessionStats_spec s sid :
  exists stats session s',
    GetSessionStats sid s = (inr stats, s') /\
    getSession sid s = (session, s') /\
    stats_ThoughtCount stats = Z.of_nat (size (thoughts s)) /\
    stats_RemainingThoughts stats
      = int_sub (cap s) (Z.of_nat (size (thoughts s))) /\
    stats_TotalOperations stats
      = int_add (Z.of_nat (size (thoughts s))) (Z.of_nat (size (mentalModels s))) /\
    mental_models_count stats = Z.of_nat (size (mentalModels s)).
Proof.
  unfold GetSessionStats, bind, gets, ret.
  destruct (getSession sid s) as [session s1] eqn:G.
  pose proof (getSession_spec _ _ _ _ G) as (C & T & Mm & _).
  rewrite !GetThoughts_spec, !GetMentalModels_spec. simpl.
  eexists _, _, _. split; [done|]. split; [done|]. simpl.
  unfold len. rewrite !length_fmap, !length_map_to_list, T, Mm, C.
  repeat split; done.
Qed.

Lemma ExportSession_spec s sid :
  exists export s',
    ExportSession sid s = (inr export, s') /\ frame s s' /\
    Data export !! "thoughts" = Some (VThoughts (snd <$> map_to_list (thoughts s))) /\
    Data export !! "mental_models"
      = Some (VMentalModels (snd <$> map_to_list (mentalModels s))).
Proof.
  unfold ExportSession, bind, ret.
  rewrite !GetThoughts_spec, !GetMentalModels_spec.
  destruct (timeNow s) as [t1 s1] eqn:N1. destruct (timeNow s1) as [t2 s2] eqn:N2.
  apply timeNow_spec in N1 as [F1 _], N2 as [F2 _].
  eexists _, _. split; [done|]. split; [by eapply frame_trans|]. done.
Qed.

(** ** One step of a trace *)

(** What a step does to the session registry: the configuration stays,
    the clock does not go back, and every session is either untouched or
    holds a record stamped during the step whose counter is the old one or,
    after a successful [AddThought] below the cap, the old one plus one. *)
Lemma exec_sessions s op e s' :
  exec op s = (e, s') ->
  config s' = config s /\ clock s <= clock s' /\
  forall sid,
    sessions s' !! sid = sessions s !! sid \/
    exists b, sessions s' !! sid = Some b /\
      clock s <= LastAccessedAt b <= clock s' /\
      TotalOperations b = total_operations s sid /\
      (ThoughtCount b = thought_count s sid \/
       (thought_count s sid < cap s /\
        ThoughtCount b = int_add (thought_count s sid) 1)).
Proof.
  assert (GS : forall sid0 session s1, getSession sid0 s = (session, s1) ->
    config s1 = config s /\ clock s <= clock s1 /\
    forall sid,
      sessions s1 !! sid = sessions s !! sid \/
      exists b, sessions s1 !! sid = Some b /\
        clock s <= LastAccessedAt b <= clock s1 /\
        TotalOperations b = total_operations s sid /\
        (ThoughtCount b = thought_count s sid \/
         (thought_count s sid < cap s /\
          ThoughtCount b = int_add (thought_count s sid) 1))).
  { intros sid0 session s1 G.
    pose proof (getSession_spec _ _ _ _ G) as (C & _ & _ & K & Hc & Ht & Hs).
    repeat split; try done. intros sid.
    destruct Hs as [[_ ->]|(L & E & _ & _ & _ & Hcl & Hl)]; [by left|].
    destruct (decide (sid0 = sid)) as [<-|Hne].
    - right. exists session. rewrite E, lookup_insert_eq.
      repeat split; try done; try lia; try by left.
    - left. by rewrite E, lookup_insert_ne. }
  destruct op as [sid0 t|sid0 m|sid0|sid0|sid0|]; unfold exec, bind, ret.
  - destruct (Z.le_gt_cases (cap s) (thought_count s sid0)) as [Hc|Hc].
    + destruct (AddThought_limit s sid0 t Hc) as (session & s1 & G & ->).
      intros [= <- <-]. by eapply GS.
    + destruct (AddThought_ok s sid0 t Hc)
        as (t' & b & s1 & -> & C & _ & K & _ & _ & _ & _ & E & Hn & Ht & Hl & _).
      intros [= <- <-]. repeat split; [done|lia|]. intros sid.
      destruct (decide (sid0 = sid)) as [<-|Hne].
      * right. exists b. rewrite E, lookup_insert_eq.
        repeat split; try done; try lia; try by right.
      * left. by rewrite E, lookup_insert_ne.
  - destruct (AddMentalModel_spec s sid0 m)
      as (m' & b & s1 & -> & C & _ & K & _ & _ & E & Hn & Ht & Hl).
    intros [= <- <-]. repeat split; [done|lia|]. intros sid.
    destruct (decide (sid0 = sid)) as [<-|Hne].
    + right. exists b. rewrite E, lookup_insert_eq.
      repeat split; try done; try lia; try by left.
    + left. by rewrite E, lookup_insert_ne.
  - destruct (getSession sid0 s) as [session s1] eqn:G.
    intros [= <- <-]. by eapply GS.
  - destruct (GetSessionStats_spec s sid0) as (stats & session & s1 & -> & G & _).
    intros [= <- <-]. by eapply GS.
  - destruct (ExportSession_spec s sid0) as (x & s1 & -> & (C & _ & _ & S & K) & _).
    intros [= <- <-]. repeat split; [done|lia|]. intros sid. left. by rewrite S.
  - destruct (timeNow s) as [t s1] eqn:N.
    apply timeNow_spec in N as [(C & _ & _ & S & K) _].
    intros [= <- <-]. repeat split; [done|lia|]. intros sid. left. by rewrite S.
Qed.

(** ** Invariant of the session registry *)


Lemma thought_count_bounds s sid :
  sessions_ok s -> 0 <= thought_count s sid <= Z.max 0 (cap s).
Proof.
  intros Hok. unfold thought_count.
  destruct (sessions s !! sid) as [a|] eqn:L; [apply (Hok _ _ L)|lia].
Qed.

(** Below the cap the increment of the counter does not wrap. *)
Lemma increment_exact s sid :
  sessions_ok s -> thought_count s sid < cap s ->
  int_add (thought_count s sid) 1 = thought_count s sid + 1.
Proof.
  intros Hok Hlt. pose proof (thought_count_bounds s sid Hok).
  pose proof (cap_range (config s)).
  unfold int_add. apply int_wrap_id. unfold int_min, int_max in *. lia.
Qed.

Lemma New_ok cfg t0 env : sessions_ok (New cfg t0 env).
Proof. intros sid a L. simpl in L. by rewrite lookup_empty in L. Qed.

Lemma exec_ok s op e s' :
  sessions_ok s -> exec op s = (e, s') -> sessions_ok s'.
Proof.
  intros Hok H. apply exec_sessions in H as (C & K & Hs).
  intros sid b L. rewrite C.
  pose proof (thought_count_bounds s sid Hok) as Hb.
  destruct (Hs sid) as [E|(b' & L' & Hst & _ & Hc)].
  - rewrite E in L. destruct (Hok _ _ L). split; [done|lia].
  - assert (b' = b) as -> by congruence. split; [|lia].
    destruct Hc as [->|[Hlt ->]]; [done|].
    rewrite increment_exact by done. lia.
Qed.

Lemma run_cons op ops s :
  run (op :: ops) s =
  ((exec op s).1 :: (run ops (exec op s).2).1, (run ops (exec op s).2).2).
Proof.
  simpl. unfold bind, ret. destruct (exec op s) as [e s1]. simpl.
  by destruct (run ops s1).
Qed.

Lemma run_app ops1 ops2 s :
  (run (ops1 ++ ops2) s).2 = (run ops2 (run ops1 s).2).2.
Proof.
  revert s. induction ops1 as [|op ops1 IH]; intros s; [done|].
  rewrite <- app_comm_cons, !run_cons. simpl. apply IH.
Qed.

Lemma run_ok ops s : sessions_ok s -> sessions_ok (run ops s).2.
Proof.
  revert s. induction ops as [|op ops IH]; intros s Hok; [done|].
  rewrite run_cons. simpl. apply IH.
  destruct (exec op s) as [e s1] eqn:E. by eapply exec_ok.
Qed.

Lemma run_config ops s : config (run ops s).2 = config s.
Proof.
  revert s. induction ops as [|op ops IH]; intros s; [done|].
  rewrite run_cons. simpl. rewrite IH.
  destruct (exec op s) as [e s1] eqn:E. by apply exec_sessions in E as (C & _).
Qed.

Lemma reachable_ok s : reachable s -> sessions_ok s.
Proof. intros (cfg & t0 & env & ops & ->). apply run_ok, New_ok. Qed.

Lemma reachable_run ops s : reachable s -> reachable (run ops s).2.
Proof.
  intros (cfg & t0 & env & ops0 & ->). exists cfg, t0, env, (ops0 ++ ops).
  by rewrite run_app.
Qed.

(** A step never removes a session and never moves its last access
    back. *)
Lemma exec_last_access s op e s' sid a :
  sessions_ok s -> exec op s = (e, s') -> sessions s !! sid = Some a ->
  exists b, sessions s' !! sid = Some b /\ LastAccessedAt a <= LastAccessedAt b.
Proof.
  intros Hok H L. apply exec_sessions in H as (_ & _ & Hs).
  destruct (Hs sid) as [E|(b & L' & Hst & _)].
  - exists a. by rewrite E.
  - exists b. split; [done|]. destruct (Hok _ _ L). lia.
Qed.

Lemma run_last_access ops s sid a :
  sessions_ok s -> sessions s !! sid = Some a ->
  exists b, sessions (run ops s).2 !! sid = Some b /\
            LastAccessedAt a <= LastAccessedAt b.
Proof.
  revert s a. induction ops as [|op ops IH]; intros s a Hok L.
  - exists a. split; [done|lia].
  - rewrite run_cons. simpl. destruct (exec op s) as [e s1] eqn:E. simpl.
    destruct (exec_last_access _ _ _ _ _ _ Hok E L) as (b & L1 & Hle).
    destruct (IH s1 b (exec_ok _ _ _ _ Hok E) L1) as (c & L2 & Hle2).
    exists c. split; [done|lia].
Qed.

(** ** Counting the successful appends *)

Lemma thought_count_insert s s' sid sid' b :
  sessions s' = <[sid := b]> (sessions s) ->
  thought_count s' sid' =
  if decide (sid = sid') then ThoughtCount b else thought_count s sid'.
Proof.
  intros E. unfold thought_count. rewrite E.
  destruct (decide (sid = sid')) as [<-|Hne].
  - by rewrite lookup_insert_eq.
  - by rewrite lookup_insert_ne.
Qed.

Lemma exec_thought_count s op e s' sid :
  sessions_ok s -> exec op s = (e, s') ->
  thought_count s' sid = thought_count s sid + Z.of_nat (appended sid [op] [e]).
Proof.
  intros Hok.
  destruct op as [sid0 t|sid0 m|sid0|sid0|sid0|]; unfold exec, bind, ret.
  - destruct (Z.le_gt_cases (cap s) (thought_count s sid0)) as [Hc|Hc].
    + destruct (AddThought_limit_frame s sid0 t Hc) as (s1 & -> & _ & _ & _ & _ & Hcnt & _).
      intros [= <- <-]. simpl. rewrite (proj1 (Hcnt sid)). lia.
    + destruct (AddThought_ok s sid0 t Hc)
        as (t' & b & s1 & -> & _ & _ & _ & _ & _ & _ & _ & E & Hn & _).
      intros [= <- <-]. simpl. rewrite (thought_count_insert _ _ _ _ _ E).
      destruct (decide (sid0 = sid)) as [<-|Hne]; [|simpl; lia].
      rewrite Hn, increment_exact by done. simpl. lia.
  - destruct (AddMentalModel_spec s sid0 m)
      as (m' & b & s1 & -> & _ & _ & _ & _ & _ & E & Hn & _).
    intros [= <- <-]. simpl. rewrite (thought_count_insert _ _ _ _ _ E).
    destruct (decide (sid0 = sid)) as [<-|Hne]; lia.
  - destruct (getSession sid0 s) as [session s1] eqn:G.
    intros [= <- <-]. simpl. rewrite (proj1 (getSession_counts _ _ _ _ sid G)). lia.
  - destruct (GetSessionStats_spec s sid0) as (stats & session & s1 & -> & G & _).
    intros [= <- <-]. simpl. rewrite (proj1 (getSession_counts _ _ _ _ sid G)). lia.
  - destruct (ExportSession_spec s sid0) as (x & s1 & -> & (_ & _ & _ & S & _) & _).
    intros [= <- <-]. simpl. unfold thought_count. rewrite S. lia.
  - destruct (timeNow s) as [t s1] eqn:N.
    apply timeNow_spec in N as [(_ & _ & _ & S & _) _].
    intros [= <- <-]. simpl. unfold thought_count. rewrite S. lia.
Qed.

Lemma run_thought_count ops s sid :
  sessions_ok s ->
  thought_count (run ops s).2 sid
  = thought_count s sid + Z.of_nat (appended sid ops (run ops s).1).
Proof.
  revert s. induction ops as [|op ops IH]; intros s Hok.
  - simpl. lia.
  - rewrite run_cons. simpl fst. simpl snd.
    destruct (exec op s) as [e s1] eqn:E. simpl fst. simpl snd.
    rewrite (IH s1 (exec_ok _ _ _ _ Hok E)).
    rewrite (exec_thought_count _ _ _ _ sid Hok E).
    destruct op, e; simpl; try case_decide; lia.
Qed.


(** ** The tools stay within the traces *)

(** What a tool call does to the state is what a trace does: two clock
    readings, the append and, when it succeeded, the statistics. *)
Lemma handleSequentialThinking_trace
    s sid thought thoughtNumber totalThoughts next :
  exists ops,
    (handleSequentialThinking sid thought thoughtNumber totalThoughts next s).2
    = (run ops s).2.
Proof.
  unfold handleSequentialThinking, bind, ret.
  destruct (timeNow s) as [t1 s1] eqn:N1. destruct (timeNow s1) as [t2 s2] eqn:N2.
  set (thoughtData := mkThoughtData _ _ _ _ _ _ _ _ _ _ _).
  destruct (AddThought sid thoughtData s2) as [[err|t'] s3] eqn:A.
  - exists [OpNow; OpNow; OpAddThought sid thoughtData].
    simpl. unfold bind, ret. by rewrite N1, N2, A.
  - exists [OpNow; OpNow; OpAddThought sid thoughtData; OpGetSessionStats sid].
    simpl. unfold bind, ret. rewrite N1, N2, A.
    destruct (GetSessionStats sid s3) as [[err|stats] s4]; done.
Qed.

Lemma mentalModelTool_trace loadCustomModels s sid modelName problem steps :
  exists ops,
    (mentalModelTool loadCustomModels sid modelName problem steps s).2
    = (run ops s).2.
Proof.
  unfold mentalModelTool, bind, gets, ret.
  destruct (LoadMentalModels _ _) as [[err|models]|]; [by exists []| |by exists []].
  destruct (models !! modelName) as [model|]; [|by exists []].
  destruct (timeNow s) as [t1 s1] eqn:N1. destruct (timeNow s1) as [t2 s2] eqn:N2.
  set (modelData := mkMentalModelData _ _ _ _ _ _ _ _).
  destruct (AddMentalModel sid modelData s2) as [r3 s3] eqn:A.
  destruct (GetSessionStats sid s3) as [r4 s4] eqn:G.
  exists [OpNow; OpNow; OpAddMentalModel sid modelData; OpGetSessionStats sid].
  simpl. unfold bind, ret. by rewrite N1, N2, A, G.
Qed.

(** Hence a state reached through the tools is a reachable state. *)
Lemma tools_reachable loadCustomModels s :
  reachable s ->
  (forall sid thought n total next,
     reachable (handleSequentialThinking sid thought n total next s).2) /\
  (forall sid modelName problem steps,
     reachable (mentalModelTool loadCustomModels sid modelName problem steps s).2).
Proof.
  intros Hs. split.
  - intros sid thought n total next.
    destruct (handleSequentialThinking_trace s sid thought n total next) as (ops & ->).
    by apply reachable_run.
  - intros sid modelName problem steps.
    destruct (mentalModelTool_trace loadCustomModels s sid modelName problem steps)
      as (ops & ->).
    by apply reachable_run.
Qed.

Lemma thought_count_New cfg t0 env sid : thought_count (New cfg t0 env) sid = 0.
Proof. unfold thought_count. simpl. by rewrite lookup_empty. Qed.

(** ** C1: counting appends, and the limit *)

(** C1.  From a fresh store under any configured cap and after any trace of
    operations, the thought count of a session equals the number N of
    [AddThought] calls on that session that returned [nil].  A further
    [AddThought] on the session returns the thought-limit error exactly
    when that count is at or above the cap, and succeeds exactly when it
    is below; in particular it fails once N equals the cap.  When it
    fails, the thought and mental-model stores are unchanged and no
    session's thought count or total-operation count changes. *)
Theorem thought_count_after_appends cfg t0 env ops sid thought :
  let s := (run ops (New cfg t0 env)).2 in
  let N := appended sid ops (run ops (New cfg t0 env)).1 in
  let r := AddThought sid thought s in
  thought_count s sid = Z.of_nat N /\
  (r.1 = inl (ErrThoughtLimit sid) <-> MaxThoughtsPerSession cfg <= thought_count s sid) /\
  (err_of r.1 = None <-> thought_count s sid < MaxThoughtsPerSession cfg) /\
  (Z.of_nat N = MaxThoughtsPerSession cfg -> r.1 = inl (ErrThoughtLimit sid)) /\
  (forall e, r.1 = inl e ->
     thoughts r.2 = thoughts s /\ mentalModels r.2 = mentalModels s /\
     forall sid', thought_count r.2 sid' = thought_count s sid' /\
                  total_operations r.2 sid' = total_operations s sid').
Proof.
  intros s N r.
  assert (Hok : sessions_ok (New cfg t0 env)) by apply New_ok.
  assert (HN : thought_count s sid = Z.of_nat N).
  { unfold s, N. rewrite run_thought_count by done.
    rewrite thought_count_New. lia. }
  assert (Hcfg : config s = cfg) by apply run_config.
  assert (Hfail : MaxThoughtsPerSession cfg <= thought_count s sid ->
                  r.1 = inl (ErrThoughtLimit sid) /\
                  thoughts r.2 = thoughts s /\ mentalModels r.2 = mentalModels s /\
                  forall sid', thought_count r.2 sid' = thought_count s sid' /\
                               total_operations r.2 sid' = total_operations s sid').
  { intros Hc. rewrite <- Hcfg in Hc.
    destruct (AddThought_limit_frame s sid thought Hc)
      as (s' & E & _ & T & Mm & _ & Hcnt & _).
    unfold r. rewrite E. simpl. done. }
  assert (Hsucc : thought_count s sid < MaxThoughtsPerSession cfg ->
                  exists t', r.1 = inr t').
  { intros Hc. rewrite <- Hcfg in Hc.
    destruct (AddThought_ok s sid thought Hc) as (t' & b & s' & E & _).
    exists t'. unfold r. by rewrite E. }
  split; [done|]. split; [|split; [|split]].
  - split; [|apply Hfail].
    intros E. destruct (Z.le_gt_cases (MaxThoughtsPerSession cfg) (thought_count s sid))
      as [?|Hlt]; [done|].
    destruct (Hsucc Hlt) as (t' & E'). congruence.
  - split.
    + intros E. destruct (Z.le_gt_cases (MaxThoughtsPerSession cfg) (thought_count s sid))
        as [Hle|?]; [|done].
      destruct (Hfail Hle) as (E' & _). rewrite E' in E. discriminate.
    + intros Hlt. destruct (Hsucc Hlt) as (t' & ->). done.
  - intros E. apply Hfail. lia.
  - intros e E.
    destruct (Z.le_gt_cases (MaxThoughtsPerSession cfg) (thought_count s sid))
      as [Hle|Hlt]; [by apply Hfail|].
    destruct (Hsucc Hlt) as (t' & E'). congruence.
Qed.

(** Under a cap of 2, two appends on ["s"] succeed and the third fails and
    changes nothing. *)
Lemma thought_count_after_appends_witness :
  let ops := [ OpAddThought "s" (sample_thought "t1" "one" 1 2);
               OpAddThought "s" (sample_thought "t2" "two" 2 2) ] in
  let s := (run ops (New (cap_config 2 eq_refl) 0 [])).2 in
  let r := AddThought "s" (sample_thought "t3" "three" 3 2) s in
  thought_count s "s" = 2 /\
  r.1 = inl (ErrThoughtLimit "s") /\
  thoughts r.2 = thoughts s.
Proof.
  intros ops s r.
  destruct (thought_count_after_appends (cap_config 2 eq_refl) 0 [] ops "s"
              (sample_thought "t3" "three" 3 2)) as (H1 & H2 & H3 & H4 & H5).
  assert (E : r.1 = inl (ErrThoughtLimit "s")).
  { apply H4. vm_compute. reflexivity. }
  split; [|split].
  - etrans; [exact H1|]. vm_compute. reflexivity.
  - exact E.
  - exact (proj1 (H5 _ E)).
Defined.

(** [CreateSession], which no tool or handler calls, starts the session
    anew: its counter is 0 again.  It is not among the operations of a
    trace. *)
Lemma CreateSession_resets s sid :
  thought_count (CreateSession sid s).2 sid = 0.
Proof.
  unfold CreateSession, bind, gets, ret, set_sessions, thought_count.
  destruct (timeNow s) as [t1 s1]. destruct (timeNow s1) as [t2 s2]. simpl.
  by rewrite lookup_insert_eq.
Qed.

(** ** C2: listing the thoughts of a session *)

(** [GetThoughts] returns the same thoughts whatever session is asked
    for, in an order that the range over the map leaves open. *)
Lemma GetThoughts_any_session s sid1 sid2 :
  exists l1 l2,
    (GetThoughts sid1 s).1 = inr l1 /\ (GetThoughts sid2 s).1 = inr l2 /\
    l1 ≡ₚ l2.
Proof. by eexists _, _. Qed.

(** It lists every stored thought, each once. *)
Lemma GetThoughts_all s sid :
  exists l, (GetThoughts sid s).1 = inr l /\
    length l = size (thoughts s) /\
    forall t, t ∈ l <-> exists id, thoughts s !! id = Some t.
Proof.
  exists (snd <$> map_to_list (thoughts s)). split; [done|]. split.
  - by rewrite length_fmap, length_map_to_list.
  - intros t. rewrite list_elem_of_fmap. split.
    + intros ([id t'] & -> & Hin). exists id. by apply elem_of_map_to_list.
    + intros (id & L). exists (id, t). split; [done|]. by apply elem_of_map_to_list.
Qed.

(** C2.  The code at the failing input: the sequential-thinking tool
    stores one thought for session ["a"]; session ["b"] has never been
    used, yet [GetThoughts "b"] returns the thought of ["a"], where the
    claim requires the empty list. *)
Theorem GetThoughts_other_session :
  let s1 := (handleSequentialThinking "a" "of a" 1 1 false
               (New DefaultConfig 0 [])).2 in
  thought_count s1 "a" = 1 /\ sessions s1 !! "b" = None /\
  exists t,
    (GetThoughts "b" s1).1 = inr [t] /\ Thought t = "of a" /\
    (GetThoughts "b" s1).1 = (GetThoughts "a" s1).1.
Proof.
  split; [vm_compute; reflexivity|]. split; [vm_compute; reflexivity|].
  eexists. split; [vm_compute; reflexivity|]. vm_compute. done.
Qed.

(** ** C3: the session invariants *)

(** C3 as stated, at a cap of -1 (a configuration file may hold it), after
    the statistics of ["s"] were asked for: the session that [getSession]
    created has count 0, above the cap. *)
Lemma thought_count_above_negative_cap :
  let s := (run [OpGetSessionStats "s"] (New (cap_config (-1) eq_refl) 0 [])).2 in
  exists a, sessions s !! "s" = Some a /\
    ~ ThoughtCount a <= MaxThoughtsPerSession (config s).
Proof.
  eexists. split; [vm_compute; reflexivity|]. vm_compute. intros H. by apply H.
Qed.

(** C3 (amended).  In every state reached from a fresh store by thought
    appends, mental-model appends, get-or-create, statistics and export
    calls (and clock readings of the callers), the stored thought count of
    every session is at most the configured cap whenever that cap is not
    negative (and is 0 under a negative cap); and whatever operations
    follow, the session is still there and its last-access time has not
    gone back. *)
Theorem thought_count_within_cap_last_access_monotone
    cfg t0 env ops1 ops2 sid a :
  let s1 := (run ops1 (New cfg t0 env)).2 in
  let s2 := (run ops2 s1).2 in
  sessions s1 !! sid = Some a ->
  (0 <= MaxThoughtsPerSession cfg -> ThoughtCount a <= MaxThoughtsPerSession cfg) /\
  (MaxThoughtsPerSession cfg < 0 -> ThoughtCount a = 0) /\
  exists b, sessions s2 !! sid = Some b /\
            LastAccessedAt a <= LastAccessedAt b.
Proof.
  intros s1 s2 L.
  assert (Hok : sessions_ok s1) by apply run_ok, New_ok.
  destruct (Hok _ _ L) as [Hb _].
  assert (config s1 = cfg) as C by apply run_config. rewrite C in Hb.
  split; [lia|]. split; [lia|]. by apply run_last_access.
Qed.

(** Two appends under the default cap of 100: the count seen after the
    first is within the cap, and the second moves the last access from 6
    to 10. *)
Lemma thought_count_within_cap_last_access_monotone_witness :
  let t1 := sample_thought "t1" "one" 1 2 in
  let t2 := sample_thought "t2" "two" 2 2 in
  let s1 := (run [OpAddThought "s" t1] (New DefaultConfig 1 [1; 2; 1; 1; 1; 3]%N)).2 in
  let s2 := (run [OpAddThought "s" t2] s1).2 in
  exists a b,
    sessions s1 !! "s" = Some a /\ sessions s2 !! "s" = Some b /\
    ThoughtCount a <= 100 /\ LastAccessedAt a = 6 /\ LastAccessedAt b = 10.
Proof.
  intros t1 t2 s1 s2.
  assert (L : sessions s1 !! "s"
              = Some (mkSessionData "s" 2 6 1 [] 0 true 100)) by (vm_compute; reflexivity).
  destruct (thought_count_within_cap_last_access_monotone DefaultConfig 1
              [1; 2; 1; 1; 1; 3]%N [OpAddThought "s" t1] [OpAddThought "s" t2] "s" _ L)
    as (H1 & _ & b & L2 & _).
  eexists _, b. split; [exact L|]. split; [exact L2|].
  split; [apply H1; vm_compute; discriminate|].
  split; [reflexivity|].
  assert (L3 : Some b = Some (mkSessionData "s" 2 10 2 [] 0 true 100))
    by (rewrite <- L2; vm_compute; reflexivity).
  by injection L3 as ->.
Defined.

(** ** C4: the statistics *)

(** Ranging over a map collects exactly its keys. *)
Lemma elem_of_keys {A} (m : gmap string A) (k : string) :
  k ∈ fst <$> map_to_list m <-> is_Some (m !! k).
Proof.
  rewrite list_elem_of_fmap. split.
  - intros ([k' v] & -> & H). apply elem_of_map_to_list in H. by exists v.
  - intros [v H]. exists (k, v). split; [done|]. by apply elem_of_map_to_list.
Qed.

(** The figures of [GetSessionStats] are those of the whole store: its
    thought count is the number of stored thoughts, whatever their
    session. *)
Lemma GetSessionStats_figures s sid :
  exists stats,
    (GetSessionStats sid s).1 = inr stats /\
    stats_ThoughtCount stats = Z.of_nat (size (thoughts s)) /\
    stats_RemainingThoughts stats = int_sub (cap s) (stats_ThoughtCount stats) /\
    stats_TotalOperations stats
      = int_add (stats_ThoughtCount stats) (mental_models_count stats) /\
    mental_models_count stats = Z.of_nat (size (mentalModels s)) /\
    ("sequential-thinking" ∈ stats_ToolsUsed stats <-> 0 < stats_ThoughtCount stats) /\
    ("mental-model" ∈ stats_ToolsUsed stats <-> 0 < mental_models_count stats).
Proof.
  unfold GetSessionStats, bind, gets, ret.
  destruct (getSession sid s) as [session s1] eqn:G.
  pose proof (getSession_spec _ _ _ _ G) as (C & T & Mm & _).
  rewrite !GetThoughts_spec, !GetMentalModels_spec. simpl.
  eexists. split; [done|]. simpl.
  unfold len, mental_models_count. simpl.
  rewrite !length_fmap, !length_map_to_list, T, Mm, C.
  repeat split; try done.
  all: rewrite ?elem_of_keys;
       destruct (Z.ltb_spec 0 (Z.of_nat (size (thoughts s))));
       destruct (Z.ltb_spec 0 (Z.of_nat (size (mentalModels s))));
       unfold id; simplify_map_eq; try lia; try done.
  all: try (intros [? ?]; simplify_map_eq).
Qed.

(** C4.  The code at the failing input: the sequential-thinking tool
    stores one thought for session ["a"], then the statistics of ["b"]
    are asked for.  ["b"] has thought count 0 (it is created by the call,
    with a zero counter), but its statistics count the thought of ["a"]:
    thought count 1, 99 remaining instead of 100, one operation instead of
    none, and ["sequential-thinking"] among its tools. *)
Theorem GetSessionStats_other_session :
  let s1 := (handleSequentialThinking "a" "of a" 1 1 false
               (New DefaultConfig 0 [])).2 in
  let r := GetSessionStats "b" s1 in
  thought_count s1 "b" = 0 /\ thought_count r.2 "b" = 0 /\
  exists stats, r.1 = inr stats /\
    stats_ThoughtCount stats = 1 /\
    stats_RemainingThoughts stats = 99 /\
    stats_TotalOperations stats = 1 /\
    stats_ToolsUsed stats = ["sequential-thinking"].
Proof.
  split; [vm_compute; reflexivity|]. split; [vm_compute; reflexivity|].
  eexists. split; [vm_compute; reflexivity|]. vm_compute. done.
Qed.

(** ** C5: export *)

(** The export holds the two listings, whatever the session. *)
Lemma ExportSession_any_session s sid1 sid2 :
  exists e1 e2,
    (ExportSession sid1 s).1 = inr e1 /\ (ExportSession sid2 s).1 = inr e2 /\
    same_records (Data e1) (Data e2).
Proof.
  unfold ExportSession, bind, ret.
  rewrite !GetThoughts_spec, !GetMentalModels_spec.
  destruct (timeNow s) as [t1 s1]. destruct (timeNow s1) as [t2 s2].
  eexists _, _. split; [done|]. split; [done|]. by eexists _, _, _, _.
Qed.

(** C5.  The code at the failing input: the sequential-thinking tool
    stores one thought for session ["a"] and then one for session ["b"]
    (the clock advances by 1 at each reading), and the export of ["b"] is
    taken, after K = 1 thought and M = 0 mental-model applications of
    ["b"].  The export of ["b"] holds two thought records, one of them the
    thought of ["a"]. *)
Theorem ExportSession_other_session :
  let s0 := New DefaultConfig 0 (replicate 20 1%N) in
  let s1 := (handleSequentialThinking "a" "of a" 1 1 false s0).2 in
  let s2 := (handleSequentialThinking "b" "of b" 1 1 false s1).2 in
  thought_count s2 "b" = 1 /\
  exists export l t,
    (ExportSession "b" s2).1 = inr export /\
    Data export !! "thoughts" = Some (VThoughts l) /\
    length l = 2%nat /\ t ∈ l /\ Thought t = "of a" /\
    Data export !! "mental_models" = Some (VMentalModels []).
Proof.
  split; [vm_compute; reflexivity|].
  eexists _, _, _. split; [vm_compute; reflexivity|].
  split; [vm_compute; reflexivity|]. split; [reflexivity|].
  split; [apply list_elem_of_further, list_elem_of_here|]. vm_compute. done.
Qed.

(** A successful append adds one record to the store when the identifier
    of the thought is new, and replaces the record stored under that
    identifier otherwise; the session's counter goes up in both cases. *)
Lemma AddThought_store_size s sid thought thought' s' :
  AddThought sid thought s = (inr thought', s') ->
  size (thoughts s') =
  match thoughts s !! thought_ID thought' with
  | Some _ => size (thoughts s)
  | None => S (size (thoughts s))
  end.
Proof.
  intros E.
  destruct (Z.le_gt_cases (cap s) (thought_count s sid)) as [Hc|Hc].
  { destruct (AddThought_limit s sid thought Hc) as (a & s1 & _ & E1). congruence. }
  destruct (AddThought_ok s sid thought Hc)
    as (t' & b & s1 & E1 & _ & _ & _ & _ & _ & _ & T & _).
  rewrite E1 in E. injection E as <- <-. rewrite T, map_size_insert.
  by destruct (thoughts s !! thought_ID t').
Qed.

(** Two appends on one session under one identifier: both succeed, the
    counter is 2 and the store, hence the export, holds one record. *)
Lemma AddThought_same_identifier :
  let s1 := (AddThought "s" (sample_thought "t1" "one" 1 2)
               (New DefaultConfig 0 [])).2 in
  let r := AddThought "s" (sample_thought "t1" "two" 2 2) s1 in
  err_of r.1 = None /\ thought_count r.2 "s" = 2 /\ size (thoughts r.2) = 1%nat.
Proof. vm_compute. done. Qed.

(** ** C6: the effects of a successful append *)

(** C6 as stated, at a second append on ["s"]: it succeeds and the session's
    total-operation count is what it was, not one more. *)
Lemma AddThought_keeps_TotalOperations :
  let s1 := (AddThought "s" (sample_thought "t1" "one" 1 2)
               (New DefaultConfig 0 [])).2 in
  let r := AddThought "s" (sample_thought "t2" "two" 2 2) s1 in
  err_of r.1 = None /\
  total_operations s1 "s" = 0 /\
  total_operations r.2 "s" <> total_operations s1 "s" + 1.
Proof.
  split; [vm_compute; reflexivity|]. split; [vm_compute; reflexivity|].
  vm_compute. discriminate.
Qed.

(** C6 (amended).  In every reachable state, a thought append that
    succeeds keeps the caller's identifier when there is one and otherwise
    assigns one (the stored identifier is never empty), stamps the
    creation time with a clock reading taken during the call, leaves the
    other fields of the thought as submitted, stores the thought under its
    identifier (in place of any thought stored there), increments the
    session's thought count by exactly one and sets the session's last
    access to the last clock reading of the call, which is not before the
    creation stamp.  The session's total-operation count is left as it
    was, and no other session changes. *)
Theorem AddThought_effects s sid thought :
  reachable s ->
  err_of (AddThought sid thought s).1 = None ->
  exists thought' session',
    let s' := (AddThought sid thought s).2 in
    (AddThought sid thought s).1 = inr thought' /\
    thought_ID thought' <> "" /\
    (thought_ID thought <> "" -> thought_ID thought' = thought_ID thought) /\
    clock s <= thought_CreatedAt thought' <= clock s' /\
    thought' = with_ID (thought_ID thought') (thought_CreatedAt thought') thought /\
    thoughts s' = <[thought_ID thought' := thought']> (thoughts s) /\
    sessions s' !! sid = Some session' /\
    ThoughtCount session' = thought_count s sid + 1 /\
    LastAccessedAt session' = clock s' /\
    TotalOperations session' = total_operations s sid /\
    (forall sid', sid' <> sid -> sessions s' !! sid' = sessions s !! sid').
Proof.
  intros Hreach Hsucc. apply reachable_ok in Hreach.
  destruct (Z.le_gt_cases (cap s) (thought_count s sid)) as [Hc|Hc].
  { destruct (AddThought_limit s sid thought Hc) as (a & s' & _ & E).
    rewrite E in Hsucc. discriminate. }
  destruct (AddThought_ok s sid thought Hc)
    as (t' & b & s' & E & _ & _ & K & Hw & Hid & Hkeep & T & S & Hn & Ht & Hl & _).
  exists t', b. rewrite E. simpl.
  rewrite increment_exact in Hn by done.
  repeat split; try done; try lia.
  - by rewrite S, lookup_insert_eq.
  - intros sid' Hne. by rewrite S, lookup_insert_ne.
Qed.

(** A first append without identifier, clock at 5 and advancing by 1 at
    each reading: the identifier is generated, the thought is stamped at
    10, the count goes from 0 to 1 and the last access is 11. *)
Lemma AddThought_effects_witness :
  let s := New DefaultConfig 5 [1; 1; 1; 1; 1; 1]%N in
  let r := AddThought "s" (sample_thought "" "one" 1 2) s in
  exists thought' session',
    r.1 = inr thought' /\ thought_ID thought' <> "" /\
    thought_CreatedAt thought' = 10 /\
    sessions r.2 !! "s" = Some session' /\
    ThoughtCount session' = 1 /\ LastAccessedAt session' = 11 /\
    TotalOperations session' = 0.
Proof.
  intros s r.
  assert (Hreach : reachable s) by (exists DefaultConfig, 5, [1; 1; 1; 1; 1; 1]%N, []; done).
  assert (Hsucc : err_of r.1 = None) by (vm_compute; reflexivity).
  destruct (AddThought_effects s "s" (sample_thought "" "one" 1 2) Hreach Hsucc)
    as (t' & b & E & Hid & _ & _ & _ & _ & L & Hn & Hl & Ht & _).
  exists t', b. split; [exact E|]. split; [exact Hid|].
  split.
  { assert (E' : inr t' = r.1) by (symmetry; exact E).
    vm_compute in E'. by injection E' as ->. }
  split; [exact L|]. split; [exact Hn|]. split; [|exact Ht].
  etrans; [exact Hl|]. vm_compute. reflexivity.
Defined.

(** ** C7: statistics and export never fail; who creates the session *)

(** C7 as stated, at a fresh store: after an export of the never-seen session
    ["s"], the strict lookup of ["s"] still fails. *)
Lemma ExportSession_creates_no_session :
  let s := New DefaultConfig 0 [] in
  let r := ExportSession "s" s in
  err_of r.1 = None /\
  (GetSession "s" r.2).1 = inl (ErrSessionNotFound "s").
Proof. split; vm_compute; reflexivity. Qed.

(** C7 (amended).  For every state and session identifier,
    [GetSessionStats] and [ExportSession] return no error.
    [GetSessionStats] leaves the session in the registry, so that the
    strict lookup [GetSession] succeeds after it even for a never-seen
    identifier.  [ExportSession] does not touch the registry: after it the
    strict lookup gives what it gave before, and fails for a never-seen
    identifier. *)
Theorem stats_export_never_fail s sid :
  err_of (GetSessionStats sid s).1 = None /\
  err_of (ExportSession sid s).1 = None /\
  err_of (GetSession sid (GetSessionStats sid s).2).1 = None /\
  sessions (ExportSession sid s).2 = sessions s /\
  (GetSession sid (ExportSession sid s).2).1 = (GetSession sid s).1 /\
  (sessions s !! sid = None ->
   (GetSession sid (ExportSession sid s).2).1 = inl (ErrSessionNotFound sid)).
Proof.
  destruct (GetSessionStats_spec s sid) as (stats & session & s1 & E1 & G & _).
  destruct (ExportSession_spec s sid) as (x & s2 & E2 & (_ & _ & _ & S & _) & _).
  rewrite E1, E2. simpl.
  apply getSession_lookup in G.
  unfold GetSession, bind, gets, ret. rewrite G, S. simpl.
  do 4 (split; [done|]).
  split; [by destruct (sessions s !! sid)|]. by intros ->.
Qed.

(** On a fresh store the strict lookup of ["s"] fails, succeeds after the
    statistics of ["s"] were asked for, and still fails after an export. *)
Lemma stats_export_never_fail_witness :
  let s := New DefaultConfig 0 [] in
  (GetSession "s" s).1 = inl (ErrSessionNotFound "s") /\
  err_of (GetSession "s" (GetSessionStats "s" s).2).1 = None /\
  (GetSession "s" (ExportSession "s" s).2).1 = inl (ErrSessionNotFound "s").
Proof.
  intros s.
  destruct (stats_export_never_fail s "s") as (_ & _ & H3 & _ & _ & H6).
  split; [reflexivity|]. split; [exact H3|]. apply H6. reflexivity.
Defined.

(** ** C8: the mental-model tool on [first_principles] *)


(** [LoadMentalModels] returns exactly when the load of the custom models
    does not panic, and never returns an error. *)
Lemma LoadMentalModels_returns loadCustomModels path :
  (load_returns loadCustomModels path <->
   exists models, LoadMentalModels loadCustomModels path = Some (inr models)) /\
  (~ load_returns loadCustomModels path <->
   LoadMentalModels loadCustomModels path = None).
Proof.
  unfold LoadMentalModels, load_returns.
  destruct (decide (path = "")) as [->|Hpath].
  { split; split; try done.
    - intros _. by eexists.
    - by intros _; left.
    - intros H. destruct H. by left. }
  destruct (loadCustomModels path) as [[err|custom]|].
  - split; split; try done.
    + intros _. by eexists.
    + intros _. by right.
    + intros H. destruct H. by right.
  - split; split; try done.
    + intros _. by eexists.
    + intros _. by right.
    + intros H. destruct H. by right.
  - split; split; try done.
    + intros [?|[? ?]]; done.
    + by intros [? ?].
    + intros _ [?|[? ?]]; done.
Qed.

(** [first_principles] is in every loaded catalog; it is the built-in
    definition unless a custom one replaces it. *)
Lemma LoadMentalModels_first_principles loadCustomModels path models :
  LoadMentalModels loadCustomModels path = Some (inr models) ->
  exists model,
    models !! "first_principles" = Some model /\
    (not_overridden loadCustomModels path -> model = builtin_first_principles).
Proof.
  unfold LoadMentalModels.
  match goal with |- context [ ?f <$> MentalModels ] => set (core := f <$> MentalModels) end.
  assert (Hcore : core !! "first_principles" = Some builtin_first_principles)
    by (vm_compute; reflexivity).
  destruct (decide (path = "")) as [->|Hpath].
  { intros [= <-]. by exists builtin_first_principles. }
  destruct (loadCustomModels path) as [[err|custom]|] eqn:L; [| |done].
  { intros [= <-]. by exists builtin_first_principles. }
  intros [= <-].
  destruct (custom !! "first_principles") as [model|] eqn:Hc.
  - exists model. split.
    + by apply lookup_union_Some_l.
    + intros [?|Hno]; [done|]. specialize (Hno _ L). congruence.
  - exists builtin_first_principles. split; [|done].
    by rewrite lookup_union_r.
Qed.

(** C8 as stated, under a custom catalog that redefines [first_principles]:
    the response carries the custom step and category. *)
Lemma mentalModelTool_custom_first_principles :
  let custom : gmap string MentalModel :=
    {[ "first_principles" :=
         {| Name := "First principles, house style";
            Description := "House variant";
            model_Steps := ["Ask why five times"];
            Category := "custom";
            Priority := 10 |} ]} in
  let cfg := {| MaxThoughtsPerSession := 100; MentalModelsPath := "models.yaml";
                MaxThoughtsPerSession_int := eq_refl |} in
  exists resp,
    (mentalModelTool (fun _ => Some (inr custom)) "s1" "first_principles" "X" []
       (New cfg 0 [])).1 = ToolResultText resp /\
    steps_used resp = ["Ask why five times"] /\
    info_category (model_info resp) = "custom" /\
    steps_used resp <> model_Steps builtin_first_principles /\
    info_category (model_info resp) <> "analytical".
Proof.
  eexists. split; [vm_compute; reflexivity|]. vm_compute.
  repeat split; discriminate.
Qed.

(** C8 (amended).  Provided the load of the custom models does not
    panic, a call of the mental-model tool with model name
    [first_principles] and no explicit steps succeeds, and the steps and
    the category of its response are those of the catalog entry in effect
    for [first_principles].  When no custom definition replaces that
    entry, the steps are the four built-in ones and the category is
    ["analytical"]. *)
Theorem mentalModelTool_first_principles
    loadCustomModels s sessionID problem :
  load_returns loadCustomModels (MentalModelsPath (config s)) ->
  exists models model resp,
    LoadMentalModels loadCustomModels (MentalModelsPath (config s))
    = Some (inr models) /\
    models !! "first_principles" = Some model /\
    (mentalModelTool loadCustomModels sessionID "first_principles" problem [] s).1
      = ToolResultText resp /\
    mm_status resp = "success" /\
    steps_used resp = model_Steps model /\
    info_category (model_info resp) = Category model /\
    (not_overridden loadCustomModels (MentalModelsPath (config s)) ->
     steps_used resp = [ "Identify the problem clearly";
                         "Break it down into basic components";
                         "Question assumptions";
                         "Build up from the basics" ] /\
     info_category (model_info resp) = "analytical").
Proof.
  intros Hload.
  apply LoadMentalModels_returns in Hload as [models EL].
  destruct (LoadMentalModels_first_principles _ _ _ EL) as (model & Lk & Hb).
  exists models, model.
  unfold mentalModelTool, bind, gets, ret. rewrite EL, Lk. simpl.
  destruct (timeNow s) as [t1 s1]. destruct (timeNow s1) as [t2 s2].
  destruct (AddMentalModel _ _ s2) as [r3 s3].
  destruct (GetSessionStats sessionID s3) as [r4 s4].
  eexists. split; [done|]. split; [done|]. split; [done|]. simpl.
  do 3 (split; [done|]).
  intros Hno. rewrite (Hb Hno). done.
Qed.

(** The scenario of the specification, on a fresh store under the default
    configuration, which names no path. *)
Lemma mentalModelTool_first_principles_witness :
  exists resp,
    (mentalModelTool (fun _ => Some (inl "no custom models")) "s1"
       "first_principles" "X" []
       (New DefaultConfig 0 [])).1 = ToolResultText resp /\
    steps_used resp = [ "Identify the problem clearly";
                        "Break it down into basic components";
                        "Question assumptions";
                        "Build up from the basics" ] /\
    info_category (model_info resp) = "analytical".
Proof.
  destruct (mentalModelTool_first_principles
              (fun _ => Some (inl "no custom models"))
              (New DefaultConfig 0 []) "s1" "X")
    as (models & model & resp & _ & _ & E & _ & _ & _ & H).
  { left. reflexivity. }
  exists resp. split; [exact E|]. apply H. left. reflexivity.
Defined.

(** ** C9: sequence numbers are not validated *)

(** C9.  Whenever the session is below its cap, [AddThought] accepts the
    thought whatever its [ThoughtNumber] and [TotalThoughts] are (the
    statement is for every thought, so also when the number exceeds the
    total or does not follow the numbers submitted before), and stores it
    with these numbers as submitted. *)
Theorem AddThought_accepts_any_numbers s sid thought :
  thought_count s sid < MaxThoughtsPerSession (config s) ->
  exists thought',
    (AddThought sid thought s).1 = inr thought' /\
    thoughts (AddThought sid thought s).2 !! thought_ID thought' = Some thought' /\
    ThoughtNumber thought' = ThoughtNumber thought /\
    TotalThoughts thought' = TotalThoughts thought /\
    Thought thought' = Thought thought.
Proof.
  intros Hc.
  destruct (AddThought_ok s sid thought Hc)
    as (t' & b & s' & E & _ & _ & _ & Hw & _ & _ & T & _).
  exists t'. rewrite E. simpl. split; [done|]. split.
  - by rewrite T, lookup_insert_eq.
  - rewrite Hw. done.
Qed.

(** Thought number 7 of 3 is accepted on a fresh store, and thought
    number 2 of 3 after it. *)
Lemma AddThought_accepts_any_numbers_witness :
  let s := New DefaultConfig 0 [] in
  let r1 := AddThought "s" (sample_thought "t7" "seventh of three" 7 3) s in
  let r2 := AddThought "s" (sample_thought "t2" "second, afterwards" 2 3) r1.2 in
  (exists t1, r1.1 = inr t1 /\ ThoughtNumber t1 = 7 /\ TotalThoughts t1 = 3) /\
  (exists t2, r2.1 = inr t2 /\ ThoughtNumber t2 = 2 /\
              thoughts r2.2 !! thought_ID t2 = Some t2).
Proof.
  intros s r1 r2. split.
  - destruct (AddThought_accepts_any_numbers s "s"
                (sample_thought "t7" "seventh of three" 7 3))
      as (t1 & E & _ & Hn & Ht & _); [vm_compute; reflexivity|].
    exists t1. split; [exact E|]. split; [exact Hn|exact Ht].
  - destruct (AddThought_accepts_any_numbers r1.2 "s"
                (sample_thought "t2" "second, afterwards" 2 3))
      as (t2 & E & L & Hn & _); [vm_compute; reflexivity|].
    exists t2. split; [exact E|]. split; [exact Hn|exact L].
Defined.

(** ** C10: the remaining thoughts reported by the sequential-thinking tool *)

(** Asking for the statistics of a session that exists changes nothing. *)
Lemma GetSessionStats_existing s sid a :
  sessions s !! sid = Some a -> (GetSessionStats sid s).2 = s.
Proof.
  intros L. unfold GetSessionStats, getSession, bind, gets, ret. by rewrite L.
Qed.

(** Two numbers that differ stay different after subtracting the same
    count, in machine arithmetic and against exact arithmetic. *)
Lemma int_sub_differs a b n :
  int_min <= a <= int_max -> int_min <= b <= int_max -> a <> b ->
  int_sub a n <> int_sub b n /\ int_sub a n <> b - n.
Proof.
  intros Ha Hb Hne. split.
  - intros E. apply Hne. by eapply int_wrap_inj.
  - unfold int_sub, int_wrap, int_min, int_max in *. intros E.
    pose proof (Z.div_mod (a - n + 2 ^ 63) (2 ^ 64) ltac:(lia)) as D. nia.
Qed.

(** C10.  [handleSequentialThinking] fails with the thought-limit error
    when the session is at or above its cap.  Otherwise it succeeds, and
    in its response [total_thoughts] is the thought count of the
    statistics of the resulting state and [remaining_thoughts] is 100
    minus that count, whatever the configured cap: whenever the cap is not
    100, the reported value differs from the [RemainingThoughts] of
    [GetSessionStats] and from the cap minus the thought count. *)
Theorem handleSequentialThinking_remaining
    s sid thought thoughtNumber totalThoughts next :
  let r := handleSequentialThinking sid thought thoughtNumber totalThoughts next s in
  (MaxThoughtsPerSession (config s) <= thought_count s sid ->
     r.1 = inl (ErrThoughtLimit sid)) /\
  (thought_count s sid < MaxThoughtsPerSession (config s) ->
     exists resp stats,
       r.1 = inr resp /\
       (GetSessionStats sid r.2).1 = inr stats /\
       total_thoughts (session_context resp) = stats_ThoughtCount stats /\
       remaining_thoughts (session_context resp)
         = int_sub 100 (stats_ThoughtCount stats) /\
       stats_RemainingThoughts stats
         = int_sub (MaxThoughtsPerSession (config s)) (stats_ThoughtCount stats) /\
       (MaxThoughtsPerSession (config s) <> 100 ->
          remaining_thoughts (session_context resp) <> stats_RemainingThoughts stats /\
          remaining_thoughts (session_context resp)
            <> MaxThoughtsPerSession (config s) - stats_ThoughtCount stats)).
Proof.
  intros r. unfold r, handleSequentialThinking, bind, ret.
  destruct (timeNow s) as [t1 s1] eqn:N1. destruct (timeNow s1) as [t2 s2] eqn:N2.
  apply timeNow_spec in N1 as [(C1 & _ & _ & S1 & _) _].
  apply timeNow_spec in N2 as [(C2 & _ & _ & S2 & _) _].
  assert (Hcnt : thought_count s2 sid = thought_count s sid)
    by (unfold thought_count; by rewrite S2, S1).
  assert (Hcap : cap s2 = cap s) by (by rewrite C2, C1).
  set (thoughtData := mkThoughtData _ _ _ _ _ _ _ _ _ _ _).
  split.
  - intros Hc. rewrite <- Hcnt, <- Hcap in Hc.
    destruct (AddThought_limit s2 sid thoughtData Hc) as (a & s3 & _ & ->). done.
  - intros Hc. rewrite <- Hcnt, <- Hcap in Hc.
    destruct (AddThought_ok s2 sid thoughtData Hc)
      as (t' & b & s3 & -> & C3 & _ & _ & _ & _ & _ & _ & S3 & _).
    assert (L : sessions s3 !! sid = Some b) by (by rewrite S3, lookup_insert_eq).
    pose proof (GetSessionStats_existing s3 sid b L) as Hsame.
    destruct (GetSessionStats_figures s3 sid) as (stats & E & _ & Hrem & _).
    destruct (GetSessionStats sid s3) as [r4 s4] eqn:E4. simpl in E, Hsame.
    subst r4 s4. simpl. eexists _, stats. split; [done|]. rewrite E4. simpl.
    rewrite C3, Hcap in Hrem.
    do 4 (split; [done|]).
    intros Hne. rewrite Hrem.
    pose proof (cap_range (config s)).
    apply int_sub_differs; [unfold int_min, int_max; lia|done|congruence].
Qed.

(** Under a cap of 5 the first thought of a session is answered with 99
    remaining thoughts, where the statistics say 4. *)
Lemma handleSequentialThinking_remaining_witness :
  let s := New (cap_config 5 eq_refl) 0 [] in
  let r := handleSequentialThinking "s" "first" 1 3 true s in
  exists resp stats,
    r.1 = inr resp /\ (GetSessionStats "s" r.2).1 = inr stats /\
    remaining_thoughts (session_context resp) = 99 /\
    stats_RemainingThoughts stats = 4.
Proof.
  intros s r.
  destruct (handleSequentialThinking_remaining s "s" "first" 1 3 true) as [_ H].
  destruct H as (resp & stats & E & Es & _ & Hr & Hs & _); [vm_compute; reflexivity|].
  exists resp, stats. split; [exact E|]. split; [exact Es|].
  assert (Ec : stats_ThoughtCount stats = 1).
  { assert (E2 : inr stats = (GetSessionStats "s" r.2).1) by (symmetry; exact Es).
    vm_compute in E2. by injection E2 as ->. }
  split.
  - rewrite Hr, Ec. reflexivity.
  - rewrite Hs, Ec. reflexivity.
Defined.

(** * Further properties of the storage *)

(** ** [AddMentalModel] *)

(** What a call of [AddMentalModel] returns and stores. *)
Lemma AddMentalModel_stored s sid model :
  exists model',
    let s' := (AddMentalModel sid model s).2 in
    (AddMentalModel sid model s).1 = inr model' /\
    model_ID model' <> "" /\
    (model_ID model <> "" -> model_ID model' = model_ID model) /\
    model' = with_model_ID (model_ID model') (model_CreatedAt model') model /\
    mentalModels s' = <[model_ID model' := model']> (mentalModels s) /\
    model' ∈ value (GetMentalModels sid s').1 /\
    is_Some (sessions s' !! sid) /\
    thoughts s' = thoughts s /\
    (forall sid', thought_count s' sid' = thought_count s sid').
Proof.
  unfold AddMentalModel, bind, gets, ret.
  destruct ((if decide (model_ID model = "") then generateID
             else λ s0, (model_ID model, s0)) s) as [id s1] eqn:GI.
  assert (frame s s1 /\ id <> "" /\ (model_ID model <> "" -> id = model_ID model))
    as ((C1 & T1 & M1 & S1 & K1) & Hid & Hkeep).
  { destruct (decide (model_ID model = "")).
    - apply generateID_spec in GI as [F N]. done.
    - injection GI as <- <-. split; [apply frame_refl|done]. }
  destruct (timeNow s1) as [created s2] eqn:N1.
  apply timeNow_spec in N1 as [(C2 & T2 & M2 & S2 & K2) ->].
  unfold set_mentalModels, set_sessions. simpl.
  destruct (getSession sid _) as [session s3] eqn:G.
  pose proof (getSession_spec _ _ _ _ G) as (C3 & T3 & M3 & K3 & Hc & _ & Hs).
  pose proof (fun sid' => proj1 (getSession_counts _ _ _ _ sid' G)) as Hcnt.
  unfold thought_count in Hc, Hcnt. simpl in *.
  destruct (timeNow s3) as [accessed s4] eqn:N2.
  apply timeNow_spec in N2 as [(C4 & T4 & M4 & S4 & K4) ->].
  eexists. simpl. split; [done|].
  rewrite ?GetMentalModels_spec. simpl. rewrite M4, M3, M2, M1, T4, T3, T2, T1.
  do 4 (split; [done|]). split.
  { apply list_elem_of_fmap. eexists (_, _). split; [done|].
    apply elem_of_map_to_list, lookup_insert_eq. }
  split; [by rewrite lookup_insert_eq|]. split; [done|].
  intros sid'. unfold thought_count. simpl. rewrite S4.
  destruct (decide (sid = sid')) as [<-|Hne].
  - rewrite lookup_insert_eq. simpl. by rewrite Hc, S2, S1.
  - rewrite lookup_insert_ne by done. by rewrite Hcnt, S2, S1.
Qed.

(** X1.  [AddMentalModel] never fails and knows no cap: whatever the
    state (also for a session at its thought cap) it stores the record
    under its identifier, which is the caller's when there is one and a
    generated, non-empty one otherwise; the content is as submitted,
    [GetMentalModels] lists the record, the session exists afterwards, and
    the thought store and every session's thought count are unchanged. *)
Theorem AddMentalModel_uncapped s sid model :
  exists model',
    let s' := (AddMentalModel sid model s).2 in
    (AddMentalModel sid model s).1 = inr model' /\
    model_ID model' <> "" /\
    (model_ID model <> "" -> model_ID model' = model_ID model) /\
    model' = with_model_ID (model_ID model') (model_CreatedAt model') model /\
    mentalModels s' = <[model_ID model' := model']> (mentalModels s) /\
    model' ∈ value (GetMentalModels sid s').1 /\
    is_Some (sessions s' !! sid) /\
    thoughts s' = thoughts s /\
    (forall sid', thought_count s' sid' = thought_count s sid').
Proof. apply AddMentalModel_stored. Qed.

(** ** The session registry *)

(** X2.  The strict lookup [GetSession] never changes the state and fails
    exactly for the identifiers that have no session.  The get-or-create
    [getSession] is idempotent, and a strict lookup after it returns the
    very record it returned. *)
Theorem GetSession_after_getSession s sid :
  let r := getSession sid s in
  (GetSession sid s).2 = s /\
  ((GetSession sid s).1 = inl (ErrSessionNotFound sid) <-> sessions s !! sid = None) /\
  (GetSession sid r.2).1 = inr r.1 /\
  getSession sid r.2 = (r.1, r.2).
Proof.
  intros r. destruct (getSession sid s) as [session s1] eqn:G. subst r. simpl.
  apply getSession_lookup in G.
  unfold GetSession, getSession, bind, gets, ret. rewrite G.
  destruct (sessions s !! sid); repeat split; try done.
Qed.

(** X3.  [CreateSession] always succeeds.  It puts a new record with zero
    counters, the configured cap as remaining thoughts and the active flag
    under the identifier, in place of any session stored there; stored
    thoughts, mental models and the other sessions stay.  So a session
    that had reached its cap accepts thoughts again afterwards (when the
    cap is positive), while the thoughts it had stored are still there. *)
Theorem CreateSession_fresh s sid thought :
  exists session,
    let s' := (CreateSession sid s).2 in
    (CreateSession sid s).1 = inr session /\
    (GetSession sid s').1 = inr session /\
    ID session = sid /\ ThoughtCount session = 0 /\ TotalOperations session = 0 /\
    IsActive session = true /\ ToolsUsed session = [] /\
    RemainingThoughts session = MaxThoughtsPerSession (config s) /\
    clock s <= CreatedAt session <= LastAccessedAt session /\
    thoughts s' = thoughts s /\ mentalModels s' = mentalModels s /\
    (forall sid', sid' <> sid -> sessions s' !! sid' = sessions s !! sid') /\
    (0 < MaxThoughtsPerSession (config s) ->
     err_of (AddThought sid thought s').1 = None).
Proof.
  unfold CreateSession, bind, gets, ret, set_sessions.
  destruct (timeNow s) as [t1 s1] eqn:N1. destruct (timeNow s1) as [t2 s2] eqn:N2.
  apply timeNow_spec in N1 as [(C1 & T1 & M1 & S1 & K1) ->].
  apply timeNow_spec in N2 as [(C2 & T2 & M2 & S2 & K2) ->].
  simpl. eexists. split; [done|]. simpl.
  split. { unfold GetSession, bind, gets, ret. simpl. by rewrite lookup_insert_eq. }
  rewrite C2, C1, T2, T1, M2, M1.
  do 6 (split; [done|]). split; [lia|]. do 2 (split; [done|]).
  split. { intros sid' Hne. by rewrite lookup_insert_ne, S2, S1. }
  intros Hcap.
  match goal with |- context [ AddThought sid thought ?st ] => set (s' := st) end.
  assert (Hlt : thought_count s' sid < cap s').
  { unfold thought_count, s'. simpl. rewrite lookup_insert_eq, ?C2, ?C1. simpl. lia. }
  destruct (AddThought_ok s' sid thought Hlt) as (t' & b & s'' & -> & _). done.
Qed.

(** A session at its cap of 1, created anew: the next append succeeds and
    the store then holds both thoughts. *)
Lemma CreateSession_fresh_witness :
  let s0 := New (cap_config 1 eq_refl) 0 [] in
  let s1 := (AddThought "s" (sample_thought "t1" "one" 1 1) s0).2 in
  let s2 := (CreateSession "s" s1).2 in
  let r := AddThought "s" (sample_thought "t2" "two" 1 1) s2 in
  err_of (AddThought "s" (sample_thought "t2" "two" 1 1) s1).1
    = Some (ErrThoughtLimit "s") /\
  err_of r.1 = None /\ size (thoughts r.2) = 2%nat.
Proof.
  intros s0 s1 s2 r.
  destruct (CreateSession_fresh s1 "s" (sample_thought "t2" "two" 1 1))
    as (session & _ & _ & _ & _ & _ & _ & _ & _ & _ & _ & _ & _ & H).
  split; [vm_compute; reflexivity|]. split.
  - apply H. vm_compute. reflexivity.
  - vm_compute. reflexivity.
Defined.

(** ** What a trace does to the stores *)

(** The shape of a step.  It leaves the three maps as they are; or it
    writes one session record whose counter is the session's count; or it
    writes one mental model and such a session record; or, for an append
    below the cap, it writes one thought and a session record whose
    counter is the count plus one. *)
Lemma exec_shape s op e s' :
  exec op s = (e, s') ->
  (thoughts s' = thoughts s /\ mentalModels s' = mentalModels s /\
   sessions s' = sessions s) \/
  (exists sid b,
     thoughts s' = thoughts s /\ mentalModels s' = mentalModels s /\
     sessions s' = <[sid := b]> (sessions s) /\
     ThoughtCount b = thought_count s sid) \/
  (exists sid b id m,
     thoughts s' = thoughts s /\ mentalModels s' = <[id := m]> (mentalModels s) /\
     sessions s' = <[sid := b]> (sessions s) /\
     ThoughtCount b = thought_count s sid) \/
  (exists sid b id t,
     thoughts s' = <[id := t]> (thoughts s) /\ mentalModels s' = mentalModels s /\
     sessions s' = <[sid := b]> (sessions s) /\
     thought_count s sid < cap s /\
     ThoughtCount b = int_add (thought_count s sid) 1).
Proof.
  assert (GS : forall sid0 session s1, getSession sid0 s = (session, s1) ->
    (thoughts s1 = thoughts s /\ mentalModels s1 = mentalModels s /\
     sessions s1 = sessions s) \/
    (exists sid b,
       thoughts s1 = thoughts s /\ mentalModels s1 = mentalModels s /\
       sessions s1 = <[sid := b]> (sessions s) /\
       ThoughtCount b = thought_count s sid)).
  { intros sid0 session s1 G.
    pose proof (getSession_spec _ _ _ _ G) as (_ & T & Mm & _ & Hc & _ & Hs).
    destruct Hs as [[_ ->]|(_ & E & _)]; [by left|]. right. by exists sid0, session. }
  assert (FR : forall s1, frame s s1 ->
    thoughts s1 = thoughts s /\ mentalModels s1 = mentalModels s /\
    sessions s1 = sessions s).
  { by intros s1 (_ & T & Mm & S & _). }
  destruct op as [sid0 t|sid0 m|sid0|sid0|sid0|]; unfold exec, bind, ret.
  - destruct (Z.le_gt_cases (cap s) (thought_count s sid0)) as [Hc|Hc].
    + destruct (AddThought_limit s sid0 t Hc) as (session & s1 & G & ->).
      intros [= <- <-]. destruct (GS _ _ _ G) as [H|H]; [by left|by right; left].
    + destruct (AddThought_ok s sid0 t Hc)
        as (t' & b & s1 & -> & _ & Mm & _ & _ & _ & _ & T & S & Hn & _).
      intros [= <- <-]. do 3 right. by exists sid0, b, (thought_ID t'), t'.
  - destruct (AddMentalModel_spec s sid0 m)
      as (m' & b & s1 & -> & _ & T & _ & _ & Mm & S & Hn & _).
    intros [= <- <-]. do 2 right. left. by exists sid0, b, (model_ID m'), m'.
  - destruct (getSession sid0 s) as [session s1] eqn:G.
    intros [= <- <-]. destruct (GS _ _ _ G) as [H|H]; [by left|by right; left].
  - destruct (GetSessionStats_spec s sid0) as (stats & session & s1 & -> & G & _).
    intros [= <- <-]. destruct (GS _ _ _ G) as [H|H]; [by left|by right; left].
  - destruct (ExportSession_spec s sid0) as (x & s1 & -> & F & _).
    intros [= <- <-]. left. by apply FR.
  - destruct (timeNow s) as [t s1] eqn:N. apply timeNow_spec in N as [F _].
    intros [= <- <-]. left. by apply FR.
Qed.

(** X4.  The stores are append-only: whatever operations run, no thought,
    mental model or session that is stored disappears (its identifier
    stays a key of its map), and the configuration stays the same. *)
Theorem stores_append_only ops s :
  let s' := (run ops s).2 in
  dom (thoughts s) ⊆ dom (thoughts s') /\
  dom (mentalModels s) ⊆ dom (mentalModels s') /\
  dom (sessions s) ⊆ dom (sessions s') /\
  config s' = config s.
Proof.
  simpl. split; [|split; [|split; [|apply run_config]]].
  all: revert s; induction ops as [|op ops IH]; intros s; [done|];
       rewrite run_cons; simpl; destruct (exec op s) as [e s1] eqn:E; simpl;
       (etrans; [|apply IH]); apply exec_shape in E.
  all: destruct E as [(T & Mm & S)|[(sid & b & T & Mm & S & _)|
         [(sid & b & id & m & T & Mm & S & _)|(sid & b & id & t & T & Mm & S & _)]]].
  all: rewrite ?T, ?Mm, ?S, ?dom_insert_L; set_solver.
Qed.

(** ** Stored thoughts against the counters *)

Lemma total_insert (m : gmap string SessionData) sid b :
  map_fold (fun _ session acc => ThoughtCount session + acc) 0 (<[sid := b]> m)
  = map_fold (fun _ session acc => ThoughtCount session + acc) 0 m
    - match m !! sid with Some a => ThoughtCount a | None => 0 end
    + ThoughtCount b.
Proof.
  assert (Hfresh : forall (m0 : gmap string SessionData) k v, m0 !! k = None ->
    map_fold (fun _ session acc => ThoughtCount session + acc) 0 (<[k := v]> m0)
    = ThoughtCount v + map_fold (fun _ session acc => ThoughtCount session + acc) 0 m0).
  { intros m0 k v Hk. rewrite map_fold_insert_L; [done| |done].
    intros. lia. }
  destruct (m !! sid) as [a|] eqn:L.
  - rewrite <- (insert_delete_eq m sid b).
    rewrite <- (insert_id m sid a L) at 2. rewrite <- (insert_delete_eq m sid a).
    rewrite !Hfresh by apply lookup_delete_eq. lia.
  - rewrite Hfresh by done. lia.
Qed.

Lemma total_bound (m : gmap string SessionData) c :
  (forall k v, m !! k = Some v -> ThoughtCount v <= c) ->
  map_fold (fun _ session acc => ThoughtCount session + acc) 0 m
  <= c * Z.of_nat (size m).
Proof.
  induction m as [|k v m Hk IH] using map_ind; intros Hb.
  - rewrite map_fold_empty, map_size_empty. lia.
  - rewrite total_insert, Hk, map_size_insert_None by done.
    assert (ThoughtCount v <= c) by (apply (Hb k); apply lookup_insert_eq).
    assert (map_fold (fun _ session acc => ThoughtCount session + acc) 0 m
            <= c * Z.of_nat (size m)).
    { apply IH. intros k' v' L. apply (Hb k').
      rewrite lookup_insert_ne; [done|]. intros <-. congruence. }
    lia.
Qed.

Lemma exec_total s op e s' :
  sessions_ok s -> exec op s = (e, s') ->
  Z.of_nat (size (thoughts s)) <= total_thought_count s ->
  Z.of_nat (size (thoughts s')) <= total_thought_count s'.
Proof.
  intros Hok E Hinv. apply exec_shape in E. unfold total_thought_count in *.
  destruct E as [(T & Mm & S)|[(sid & b & T & Mm & S & Hb)|
    [(sid & b & id & m & T & Mm & S & Hb)|(sid & b & id & t & T & Mm & S & Hlt & Hb)]]].
  - by rewrite T, S.
  - rewrite T, S, total_insert, Hb. unfold thought_count. lia.
  - rewrite T, S, total_insert, Hb. unfold thought_count. lia.
  - rewrite T, S, total_insert, Hb, increment_exact by done.
    rewrite map_size_insert. unfold thought_count.
    destruct (thoughts s !! id); simpl; lia.
Qed.

(** X5.  In every state reached from a fresh store by the storage
    operations that the tools and handlers invoke, the number of stored
    thoughts is at most the sum of the thought counts of the sessions
    (it is less when an identifier was reused), and therefore, under a
    cap that is not negative, at most the cap times the number of
    sessions. *)
Theorem stored_thoughts_bounded cfg t0 env ops :
  let s := (run ops (New cfg t0 env)).2 in
  Z.of_nat (size (thoughts s)) <= total_thought_count s /\
  (0 <= MaxThoughtsPerSession cfg ->
   Z.of_nat (size (thoughts s))
   <= MaxThoughtsPerSession cfg * Z.of_nat (size (sessions s))).
Proof.
  intros s.
  assert (H : forall ops0 s0, sessions_ok s0 ->
            Z.of_nat (size (thoughts s0)) <= total_thought_count s0 ->
            Z.of_nat (size (thoughts (run ops0 s0).2))
            <= total_thought_count (run ops0 s0).2).
  { induction ops0 as [|op ops0 IH]; intros s0 Hok Hinv; [done|].
    rewrite run_cons. simpl. destruct (exec op s0) as [e s1] eqn:E. simpl.
    apply IH; [by eapply exec_ok|by eapply exec_total]. }
  assert (Hs : Z.of_nat (size (thoughts s)) <= total_thought_count s).
  { apply H; [apply New_ok|]. unfold total_thought_count. simpl.
    rewrite map_fold_empty, map_size_empty. lia. }
  split; [done|]. intros Hcap. etrans; [exact Hs|].
  apply total_bound. intros k v L.
  assert (Hok : sessions_ok s) by apply run_ok, New_ok.
  destruct (Hok _ _ L) as [Hb _].
  assert (config s = cfg) as C by apply run_config. rewrite C in Hb. lia.
Qed.

(** Under a cap of 1, three appends on two sessions leave two thoughts. *)
Lemma stored_thoughts_bounded_witness :
  let ops := [ OpAddThought "a" (sample_thought "t1" "one" 1 1);
               OpAddThought "a" (sample_thought "t2" "two" 2 1);
               OpAddThought "b" (sample_thought "t3" "three" 1 1) ] in
  let s := (run ops (New (cap_config 1 eq_refl) 0 [])).2 in
  size (thoughts s) = 2%nat /\ size (sessions s) = 2%nat /\
  Z.of_nat (size (thoughts s)) <= 1 * Z.of_nat (size (sessions s)).
Proof.
  intros ops s.
  destruct (stored_thoughts_bounded (cap_config 1 eq_refl) 0 [] ops) as [_ H].
  split; [vm_compute; reflexivity|]. split; [vm_compute; reflexivity|].
  apply H. vm_compute. discriminate.
Defined.

(** ** Reading twice *)

(** X6.  [GetSessionStats] is idempotent: a second call right after the
    first returns the same statistics, time stamps included, with the
    same tools in [ToolsUsed] (their order is that of a range over a Go
    map, so the two lists agree up to order), and changes nothing; the
    first call may have created the session, but it does not touch a
    session that exists. *)
Theorem GetSessionStats_idempotent s sid :
  let r1 := GetSessionStats sid s in
  let r2 := GetSessionStats sid r1.2 in
  exists stats1 stats2,
    r1.1 = inr stats1 /\ r2.1 = inr stats2 /\
    stats_SessionID stats2 = stats_SessionID stats1 /\
    stats_CreatedAt stats2 = stats_CreatedAt stats1 /\
    stats_LastAccessedAt stats2 = stats_LastAccessedAt stats1 /\
    stats_ThoughtCount stats2 = stats_ThoughtCount stats1 /\
    stats_ToolsUsed stats2 ≡ₚ stats_ToolsUsed stats1 /\
    stats_TotalOperations stats2 = stats_TotalOperations stats1 /\
    stats_IsActive stats2 = stats_IsActive stats1 /\
    stats_RemainingThoughts stats2 = stats_RemainingThoughts stats1 /\
    Stores stats2 = Stores stats1 /\
    r2.2 = r1.2 /\
    (is_Some (sessions s !! sid) -> r1.2 = s).
Proof.
  intros r1 r2. subst r1 r2.
  unfold GetSessionStats, bind, gets, ret.
  destruct (getSession sid s) as [session s1] eqn:G.
  pose proof (getSession_lookup _ _ _ _ G) as L.
  pose proof (getSession_spec _ _ _ _ G) as (_ & _ & _ & _ & _ & _ & Hs).
  rewrite !GetThoughts_spec, !GetMentalModels_spec. simpl.
  unfold getSession at 1 2, bind, gets, ret. rewrite L. simpl.
  eexists _, _. split; [reflexivity|]. split; [reflexivity|]. simpl.
  do 9 (split; [done|]). split; [done|].
  intros [a La]. destruct Hs as [[_ ->]|(Hn & _)]; [done|congruence].
Qed.

(** The statistics of a session with one thought, asked twice. *)
Lemma GetSessionStats_idempotent_witness :
  let s := (AddThought "s" (sample_thought "t1" "one" 1 1)
              (New DefaultConfig 0 [1; 1; 1; 1]%N)).2 in
  exists stats1 stats2,
    (GetSessionStats "s" s).1 = inr stats1 /\
    (GetSessionStats "s" (GetSessionStats "s" s).2).1 = inr stats2 /\
    stats_ThoughtCount stats2 = stats_ThoughtCount stats1 /\
    stats_ToolsUsed stats2 ≡ₚ stats_ToolsUsed stats1 /\
    (GetSessionStats "s" s).2 = s.
Proof.
  intros s.
  destruct (GetSessionStats_idempotent s "s")
    as (stats1 & stats2 & E1 & E2 & _ & _ & _ & Hc & Ht & _ & _ & _ & _ & _ & H3).
  exists stats1, stats2. split; [exact E1|]. split; [exact E2|].
  split; [exact Hc|]. split; [exact Ht|].
  apply H3. vm_compute. eexists. reflexivity.
Defined.

(** X7.  [ExportSession] is repeatable: it changes nothing but the clock,
    and two exports in a row carry the same records (each listing up to
    its order), version, session identifier and session type; only their
    time stamps can differ, and the later export is not stamped
    earlier. *)
Theorem ExportSession_repeatable s sid :
  exists e1 e2,
    let r1 := ExportSession sid s in
    let r2 := ExportSession sid r1.2 in
    r1.1 = inr e1 /\ r2.1 = inr e2 /\
    frame s r1.2 /\ frame r1.2 r2.2 /\
    same_records (Data e1) (Data e2) /\ Version e2 = Version e1 /\
    export_SessionID e2 = export_SessionID e1 /\ SessionType e2 = SessionType e1 /\
    Metadata e2 !! "version" = Metadata e1 !! "version" /\
    Timestamp e1 <= Timestamp e2.
Proof.
  unfold ExportSession, bind, ret.
  rewrite !GetThoughts_spec, !GetMentalModels_spec.
  destruct (timeNow s) as [t1 s1] eqn:N1. destruct (timeNow s1) as [t2 s2] eqn:N2.
  simpl. rewrite ?GetThoughts_spec, ?GetMentalModels_spec. simpl.
  destruct (timeNow s2) as [t3 s3] eqn:N3. destruct (timeNow s3) as [t4 s4] eqn:N4.
  apply timeNow_spec in N1 as [F1 ->], N2 as [F2 ->], N3 as [F3 ->], N4 as [F4 ->].
  eexists _, _. simpl. split; [done|]. split; [done|].
  split; [by eapply frame_trans|]. split; [by eapply frame_trans|].
  destruct F1 as (_ & T1 & M1 & _ & K1), F2 as (_ & T2 & M2 & _ & K2),
           F3 as (_ & _ & _ & _ & K3).
  rewrite T2, T1, M2, M1. simpl.
  split; [by eexists _, _, _, _|]. do 3 (split; [done|]).
  split; [by simplify_map_eq|lia].
Qed.

(** * Properties of the HTTP handlers *)

(** The statistics count the two stores as they are after the call. *)
Lemma GetSessionStats_sizes s sid :
  exists stats,
    (GetSessionStats sid s).1 = inr stats /\
    thoughts (GetSessionStats sid s).2 = thoughts s /\
    mentalModels (GetSessionStats sid s).2 = mentalModels s /\
    config (GetSessionStats sid s).2 = config s /\
    (forall sid', thought_count (GetSessionStats sid s).2 sid' = thought_count s sid') /\
    stats_ThoughtCount stats = Z.of_nat (size (thoughts s)) /\
    stats_RemainingThoughts stats = int_sub (cap s) (stats_ThoughtCount stats) /\
    mental_models_count stats = Z.of_nat (size (mentalModels s)).
Proof.
  destruct (GetSessionStats_spec s sid) as (stats & session & s1 & E & G & H1 & H2 & _ & H4).
  pose proof (getSession_spec _ _ _ _ G) as (C & T & Mm & _).
  exists stats. rewrite E. simpl. rewrite H1. repeat split; try done.
  intros sid'. apply (getSession_counts _ _ _ _ sid' G).
Qed.

(** X8.  [ThinkingHandler.SequentialThinking] on a decoded request.  When
    the session is at or above its cap it answers 500 and stores nothing.
    Otherwise it answers 200: the thought is in the store under the
    identifier of the reply, which is generated and not empty, with every
    field of the request (the revision and branch markers included);
    [total_thoughts] is the size of the thought store and
    [remaining_thoughts] is the configured cap minus [total_thoughts]. *)
Theorem SequentialThinking_reply s request :
  let sid := st_SessionID request in
  let r := ThinkingHandler_SequentialThinking (Some request) s in
  (MaxThoughtsPerSession (config s) <= thought_count s sid ->
     r.1 = respondWithError "Failed to add thought" StatusInternalServerError /\
     thoughts r.2 = thoughts s /\ mentalModels r.2 = mentalModels s) /\
  (thought_count s sid < MaxThoughtsPerSession (config s) ->
     exists reply t,
       r.1 = respondWithJSON reply /\
       reply_thought_id reply <> "" /\
       thoughts r.2 = <[reply_thought_id reply := t]> (thoughts s) /\
       thought_ID t = reply_thought_id reply /\
       Thought t = st_Thought request /\
       ThoughtNumber t = st_ThoughtNumber request /\
       TotalThoughts t = st_TotalThoughts request /\
       NextThoughtNeeded t = st_NextThoughtNeeded request /\
       IsRevision t = st_IsRevision request /\
       RevisesThought t = st_RevisesThought request /\
       BranchFromThought t = st_BranchFromThought request /\
       BranchID t = st_BranchID request /\
       NeedsMoreThoughts t = st_NeedsMoreThoughts request /\
       reply_status reply = "success" /\
       reply_total_thoughts reply = Z.of_nat (size (thoughts r.2)) /\
       reply_remaining_thoughts reply
         = int_sub (MaxThoughtsPerSession (config s)) (reply_total_thoughts reply)).
Proof.
  intros sid r. subst r. unfold ThinkingHandler_SequentialThinking, bind, ret.
  set (sid' := st_SessionID request). assert (sid' = sid) as -> by done.
  destruct (timeNow s) as [now s1] eqn:N1.
  apply timeNow_spec in N1 as [(C1 & T1 & M1 & S1 & _) _].
  assert (Hcnt : thought_count s1 sid = thought_count s sid)
    by (unfold thought_count; by rewrite S1).
  set (thought := mkThoughtData _ _ _ _ _ _ _ _ _ _ _).
  split; intros Hc; rewrite <- Hcnt, <- C1 in Hc.
  - destruct (AddThought_limit_frame s1 sid thought Hc)
      as (s2 & -> & _ & T & Mm & _). simpl. by rewrite T, Mm, T1, M1.
  - destruct (AddThought_ok s1 sid thought Hc)
      as (t' & b & s2 & -> & C2 & _ & _ & Hw & Hid & _ & T & _).
    destruct (GetSessionStats_sizes s2 sid) as (stats & E & T3 & _ & _ & _ & Hn & Hr & _).
    destruct (GetSessionStats sid s2) as [r3 s3]. simpl in E, T3. subst r3. simpl.
    eexists _, t'. split; [done|]. simpl.
    rewrite T3, T, T1, Hr, Hn, T, T1, C2, C1. rewrite Hw. simpl.
    repeat split; try done.
Qed.

(** On a fresh store under the default cap, a request that revises
    thought 1 on branch ["b"] is answered with 99 remaining thoughts. *)
Lemma SequentialThinking_reply_witness :
  let request := mkSequentialThinkingRequest "s" "again" 2 3 true true (Some 1)
                   (Some 1) "b" false in
  let r := ThinkingHandler_SequentialThinking (Some request)
             (New DefaultConfig 0 [1; 1; 1; 1; 1; 1; 1]%N) in
  exists reply t,
    r.1 = respondWithJSON reply /\
    thoughts r.2 !! reply_thought_id reply = Some t /\
    RevisesThought t = Some 1 /\ BranchID t = "b" /\
    reply_remaining_thoughts reply = 99.
Proof.
  intros request r.
  destruct (SequentialThinking_reply (New DefaultConfig 0 [1; 1; 1; 1; 1; 1; 1]%N) request)
    as [_ H].
  destruct H as (reply & t & E & _ & T & _ & _ & _ & _ & _ & _ & Hrev & _ & Hb & _ & _ & Hn & Hr);
    [vm_compute; reflexivity|].
  exists reply, t. split; [exact E|].
  split. { etrans; [apply (f_equal (fun m => m !! reply_thought_id reply) T)|].
           apply lookup_insert_eq. }
  split; [exact Hrev|]. split; [exact Hb|].
  etrans; [exact Hr|]. rewrite Hn.
  etrans; [apply (f_equal (fun m => int_sub _ (Z.of_nat (size m))) T)|].
  rewrite map_size_insert. reflexivity.
Defined.

(** The built-in table has exactly four keys. *)
Lemma MentalModels_keys (name : string) :
  is_Some (MentalModels !! name) <->
  name ∈ [ "first_principles"; "opportunity_cost"; "bayesian_thinking";
           "systems_thinking" ].
Proof.
  rewrite !elem_of_cons, elem_of_nil. split.
  - intros H.
    destruct (decide (name = "first_principles")); [by left|].
    destruct (decide (name = "opportunity_cost")); [by right; left|].
    destruct (decide (name = "bayesian_thinking")); [by do 2 right; left|].
    destruct (decide (name = "systems_thinking")); [by do 3 right; left|].
    unfold MentalModels in H.
    rewrite !lookup_insert_ne, lookup_empty in H by done. by destruct H.
  - intros [->|[->|[->|[->|[]]]]]; vm_compute; by eexists.
Qed.

Lemma len_positive {A} (l : list A) : (0 <? len l) = true <-> l <> [].
Proof. destruct l; unfold len; simpl; [|rewrite Z.ltb_lt]; split; try done; lia. Qed.

Lemma nonempty_string (x : string) : negb (bool_decide (x = "")) = true <-> x <> "".
Proof. rewrite negb_true_iff, bool_decide_eq_false. done. Qed.

(** X9.  [ThinkingHandler.MentalModel] on a decoded request.  A model name
    outside the four built-in ones is answered with 400 and nothing
    changes, not even the clock: the custom catalog is never consulted.
    For a built-in name the answer is 200; the application is stored under
    the generated identifier of the reply with the request's steps as they
    are (nothing is taken from the catalog when they are missing), its
    problem, reasoning, conclusion and confidence; the thought store is
    untouched and [total_mental_models] is the size of the mental-model
    store. *)
Theorem MentalModel_reply s request :
  let r := ThinkingHandler_MentalModel (Some request) s in
  (mr_ModelName request ∉ [ "first_principles"; "opportunity_cost";
                            "bayesian_thinking"; "systems_thinking" ] ->
     r = (respondWithError "Invalid mental model" StatusBadRequest, s)) /\
  (mr_ModelName request ∈ [ "first_principles"; "opportunity_cost";
                            "bayesian_thinking"; "systems_thinking" ] ->
     exists reply m,
       r.1 = respondWithJSON reply /\
       reply_model_id reply <> "" /\
       mentalModels r.2 = <[reply_model_id reply := m]> (mentalModels s) /\
       model_ID m = reply_model_id reply /\
       ModelName m = mr_ModelName request /\
       Problem m = mr_Problem request /\
       Steps m = mr_Steps request /\
       Reasoning m = mr_Reasoning request /\
       Conclusion m = mr_Conclusion request /\
       Confidence m = mr_Confidence request /\
       thoughts r.2 = thoughts s /\
       (reply_has_steps reply = true <-> mr_Steps request <> []) /\
       (reply_has_conclusion reply = true <-> mr_Conclusion request <> "") /\
       reply_total_mental_models reply = Z.of_nat (size (mentalModels r.2))).
Proof.
  intros r. subst r. unfold ThinkingHandler_MentalModel, bind, ret.
  split; intros Hname.
  - rewrite <- MentalModels_keys in Hname.
    destruct (MentalModels !! mr_ModelName request) as [c|]; [|done].
    exfalso. apply Hname. by exists c.
  - apply MentalModels_keys in Hname as [c ->].
    destruct (timeNow s) as [now s1] eqn:N1.
    apply timeNow_spec in N1 as [(C1 & T1 & M1 & S1 & _) _].
    set (model := mkMentalModelData _ _ _ _ _ _ _ _).
    destruct (AddMentalModel_stored s1 (mr_SessionID request) model)
      as (m' & E & Hid & _ & Hw & Mm & _ & _ & T & _).
    destruct (AddMentalModel (mr_SessionID request) model s1) as [r2 s2].
    simpl in E, Hw, Mm, T. subst r2.
    destruct (GetSessionStats_sizes s2 (mr_SessionID request))
      as (stats & E3 & T3 & M3 & _ & _ & _ & _ & Hn).
    destruct (GetSessionStats (mr_SessionID request) s2) as [r3 s3].
    simpl in E3, T3, M3. subst r3. simpl.
    eexists _, m'. split; [done|]. simpl.
    rewrite M3, Mm, M1, T3, T, T1, Hn, Mm, M1. rewrite Hw. simpl.
    rewrite len_positive, nonempty_string. done.
Qed.

(** A custom model name is refused; [first_principles] without steps is
    stored without steps. *)
Lemma MentalModel_reply_witness :
  let s := New DefaultConfig 0 [1; 1; 1; 1; 1; 1]%N in
  let custom := mkMentalModelRequest "s" "custom_model_1" "X" [] "" "" 0 in
  let builtin := mkMentalModelRequest "s" "first_principles" "X" [] "" "" 0 in
  ThinkingHandler_MentalModel (Some custom) s
    = (respondWithError "Invalid mental model" StatusBadRequest, s) /\
  exists reply m,
    (ThinkingHandler_MentalModel (Some builtin) s).1 = respondWithJSON reply /\
    mentalModels (ThinkingHandler_MentalModel (Some builtin) s).2
      !! reply_model_id reply = Some m /\
    Steps m = [] /\ reply_has_steps reply = false.
Proof.
  intros s custom builtin. split.
  - apply (MentalModel_reply s custom). vm_compute.
    intros H. repeat (apply elem_of_cons in H as [H|H]; [discriminate H|]).
    by apply elem_of_nil in H.
  - destruct (MentalModel_reply s builtin) as [_ H].
    destruct H as (reply & m & E & _ & Mm & _ & _ & _ & Hs & _ & _ & _ & _ & Hh & _);
      [apply list_elem_of_here|].
    exists reply, m. split; [exact E|].
    split. { etrans; [apply (f_equal (fun x => x !! reply_model_id reply) Mm)|].
             apply lookup_insert_eq. }
    split; [exact Hs|].
    destruct (reply_has_steps reply); [|done]. by destruct (proj1 Hh eq_refl).
Defined.

(** X10.  [ThinkingHandler.DebuggingApproach] never refuses a decoded
    request.  It stores the approach as a mental-model application named
    ["debugging_"] followed by the approach name, with the issue as
    problem, the findings as reasoning and the resolution as conclusion,
    under the generated identifier of the reply; thoughts and thought
    counts are untouched, and the statistics of the session then list
    ["mental-model"] among the tools used. *)
Theorem DebuggingApproach_stored s request :
  let r := ThinkingHandler_DebuggingApproach (Some request) s in
  exists reply m stats,
    r.1 = respondWithJSON reply /\
    reply_approach_id reply <> "" /\
    mentalModels r.2 = <[reply_approach_id reply := m]> (mentalModels s) /\
    ModelName m = "debugging_" +:+ dr_ApproachName request /\
    Problem m = dr_Issue request /\
    Steps m = dr_Steps request /\
    Reasoning m = dr_Findings request /\
    Conclusion m = dr_Resolution request /\
    (reply_has_findings reply = true <-> dr_Findings request <> "") /\
    (reply_has_resolution reply = true <-> dr_Resolution request <> "") /\
    thoughts r.2 = thoughts s /\
    (forall sid, thought_count r.2 sid = thought_count s sid) /\
    (GetSessionStats (dr_SessionID request) r.2).1 = inr stats /\
    "mental-model" ∈ stats_ToolsUsed stats.
Proof.
  intros r. subst r. unfold ThinkingHandler_DebuggingApproach, bind, ret.
  destruct (timeNow s) as [now s1] eqn:N1.
  apply timeNow_spec in N1 as [(C1 & T1 & M1 & S1 & _) _].
  set (model := mkMentalModelData _ _ _ _ _ _ _ _).
  destruct (AddMentalModel_stored s1 (dr_SessionID request) model)
    as (m' & E & Hid & _ & Hw & Mm & _ & _ & T & Hcnt).
  destruct (AddMentalModel (dr_SessionID request) model s1) as [r2 s2].
  simpl in E, Hw, Mm, T, Hcnt. subst r2. simpl.
  destruct (GetSessionStats_figures s2 (dr_SessionID request))
    as (stats & E3 & _ & _ & _ & Hn & _ & Htool).
  eexists _, m', stats. split; [done|]. simpl. rewrite Mm, M1, T, T1.
  rewrite Hw. simpl.
  do 7 (split; [done|]).
  rewrite !nonempty_string. do 3 (split; [done|]).
  split. { intros sid. rewrite Hcnt. unfold thought_count. by rewrite S1. }
  split; [done|]. apply Htool. rewrite Hn, Mm.
  assert (size (<[model_ID m' := m']> (mentalModels s1)) <> 0%nat); [|lia].
  apply map_size_ne_0_lookup_2 with (model_ID m'). rewrite lookup_insert_eq. by eexists.
Qed.

(** X11.  [SessionHandler.GetStats] and [SessionHandler.Export] answer
    400 exactly for the empty session identifier, and then change
    nothing (no session named [""] is created).  For any other identifier
    they answer 200 with what [GetSessionStats] and [ExportSession]
    return; they never answer 500. *)
Theorem SessionHandler_status s session_id :
  let rs := SessionHandler_GetStats session_id s in
  let re := SessionHandler_Export session_id s in
  (session_id = "" ->
     rs = (respondWithError "Session ID required" StatusBadRequest, s) /\
     re = (respondWithError "Session ID required" StatusBadRequest, s)) /\
  (session_id <> "" ->
     (exists stats,
        rs.1 = respondWithJSON stats /\
        GetSessionStats session_id s = (inr stats, rs.2)) /\
     (exists export,
        re.1 = respondWithJSON export /\
        ExportSession session_id s = (inr export, re.2))) /\
  (StatusCode rs.1 = Some StatusBadRequest <-> session_id = "") /\
  (StatusCode rs.1 = Some StatusOK <-> session_id <> "") /\
  (StatusCode re.1 = Some StatusBadRequest <-> session_id = "") /\
  (StatusCode re.1 = Some StatusOK <-> session_id <> "").
Proof.
  intros rs re. subst rs re.
  unfold SessionHandler_GetStats, SessionHandler_Export, bind, ret.
  destruct (GetSessionStats_spec s session_id) as (stats & a & s1 & E1 & _).
  destruct (ExportSession_spec s session_id) as (x & s2 & E2 & _).
  unfold StatusBadRequest, StatusOK.
  destruct (decide (session_id = "")) as [->|Hne]; simpl; rewrite ?E1, ?E2; simpl.
  - split; [done|]. split; [intros H; by destruct H|].
    repeat split; try done; try discriminate; by intros [].
  - split; [done|]. split.
    { intros _. split; [by exists stats|by exists x]. }
    repeat split; try done; try discriminate.
Qed.

(** The statistics handler without and with a session identifier. *)
Lemma SessionHandler_status_witness :
  let s := New DefaultConfig 0 [] in
  StatusCode (SessionHandler_GetStats "" s).1 = Some 400 /\
  (SessionHandler_GetStats "" s).2 = s /\
  StatusCode (SessionHandler_GetStats "s" s).1 = Some 200 /\
  StatusCode (SessionHandler_Export "s" s).1 = Some 200.
Proof.
  intros s.
  destruct (SessionHandler_status s "") as ([H1 _] & _); [reflexivity|].
  destruct (SessionHandler_status s "s") as (_ & _ & _ & H2 & _ & H3).
  split; [by rewrite H1|]. split; [by rewrite H1|].
  split; [by apply H2|by apply H3].
Defined.

(** * Properties of the tools *)

(** X12.  The [debugging_approach] tool records nothing.  After a call
    the thoughts, the mental models and the sessions are exactly what
    they were (the session it was called for is not even created), so an
    export after the call holds the same records as one before it; the
    response says success, and says that there are steps exactly when
    some were given. *)
Theorem debuggingApproachTool_records_nothing
    s sessionID approachName issue steps sid :
  let r := debuggingApproachTool sessionID approachName issue steps s in
  exists resp e1 e2,
    r.1 = ToolResultText resp /\
    frame s r.2 /\
    (ExportSession sid s).1 = inr e1 /\ (ExportSession sid r.2).1 = inr e2 /\
    same_records (Data e1) (Data e2) /\
    dbg_status resp = "success" /\ dbg_session_id resp = sessionID /\
    (dbg_has_steps resp = true <-> steps <> []) /\
    dbg_has_findings resp = false /\ dbg_has_resolution resp = false.
Proof.
  intros r. subst r. unfold debuggingApproachTool, bind, ret.
  destruct (timeNow s) as [t s1] eqn:N. apply timeNow_spec in N as [F _].
  destruct (ExportSession_spec s sid) as (e1 & s2 & E1 & _ & _).
  destruct (ExportSession_spec s1 sid) as (e2 & s3 & E2 & _ & _).
  eexists _, e1, e2. simpl. rewrite E1, E2. simpl.
  split; [done|]. split; [done|]. split; [done|]. split; [done|].
  split.
  { revert E1 E2. unfold ExportSession, bind, ret.
    rewrite !GetThoughts_spec, !GetMentalModels_spec.
    destruct (timeNow s) as [? ?], (timeNow s1) as [? ?]. simpl.
    destruct (timeNow s0) as [? ?], (timeNow s4) as [? ?]. simpl.
    intros [= <- _] [= <- _]. simpl.
    destruct F as (_ & -> & -> & _). by eexists _, _, _, _. }
  simpl. rewrite len_positive. done.
Qed.
(** X13.  The [mental_model] tool when it stores nothing.  When the load
    of the catalog panics, so does the tool, with the state as it was.
    When the catalog is loaded and the model name is not in it, the tool
    returns an error result and changes nothing, not even the clock; the
    error text names the model and lists the available ones, one entry
    [key: name] for each model of the catalog (in the order of a range
    over the catalog), which holds the built-in [first_principles]. *)
Theorem mentalModelTool_not_found
    loadCustomModels s sessionID modelName problem steps :
  (LoadMentalModels loadCustomModels (MentalModelsPath (config s)) = None ->
   mentalModelTool loadCustomModels sessionID modelName problem steps s
   = (ToolPanic, s)) /\
  (forall models,
     LoadMentalModels loadCustomModels (MentalModelsPath (config s))
     = Some (inr models) ->
     is_Some (models !! "first_principles") /\
     (forall key model, models !! key = Some model ->
        key +:+ ": " +:+ Name model ∈ GetAvailableModels models) /\
     length (GetAvailableModels models) = size models /\
     (models !! modelName = None ->
      exists available,
        available ≡ₚ GetAvailableModels models /\
        mentalModelTool loadCustomModels sessionID modelName problem steps s
        = (ToolResultError
             ("Mental model '" +:+ modelName +:+ "' not found. Available models: "
                +:+ sprint_strings available), s))).
Proof.
  split.
  { intros EL. unfold mentalModelTool, bind, gets, ret. by rewrite EL. }
  intros models EL.
  destruct (LoadMentalModels_first_principles _ _ _ EL) as (model & Lk & _).
  split; [by exists model|].
  split.
  { intros key m L. unfold GetAvailableModels. apply list_elem_of_fmap.
    exists (key, m). split; [done|]. by apply elem_of_map_to_list. }
  split. { unfold GetAvailableModels. by rewrite length_fmap, length_map_to_list. }
  intros Hn. exists (GetAvailableModels models). split; [done|].
  unfold mentalModelTool, bind, gets, ret. by rewrite EL, Hn.
Qed.

(** The scenario of an unknown model under the default configuration, and
    that of a configured path that [os.Stat] cannot read. *)
Lemma mentalModelTool_not_found_witness :
  let s := New DefaultConfig 0 [] in
  let cfg := {| MaxThoughtsPerSession := 100; MentalModelsPath := "locked";
                MaxThoughtsPerSession_int := eq_refl |} in
  (exists msg,
     mentalModelTool (fun _ => Some (inl "none")) "s1" "no_such_model" "X" [] s
     = (ToolResultError msg, s)) /\
  mentalModelTool (fun _ => None) "s1" "first_principles" "X" [] (New cfg 0 [])
  = (ToolPanic, New cfg 0 []).
Proof.
  intros s cfg. split.
  - destruct (mentalModelTool_not_found (fun _ => Some (inl "none")) s "s1"
                "no_such_model" "X" []) as [_ H].
    destruct (H (from_core <$> MentalModels) eq_refl) as (_ & _ & _ & Hn).
    destruct Hn as (available & _ & E); [vm_compute; reflexivity|].
    eexists. exact E.
  - apply (proj1 (mentalModelTool_not_found (fun _ => None) (New cfg 0 []) "s1"
                    "first_principles" "X" [])).
    reflexivity.
Defined.

(** X14.  The [mental_model] tool on a model of the catalog always
    succeeds.  The steps it uses are the caller's when there are any and
    the catalog's otherwise; the application is stored under the
    identifier of the response with these steps, the model name and the
    problem; [model_info] is the catalog entry; [total_mental_models] is
    the size of the mental-model store afterwards; the thought store and
    the thought counts are untouched. *)
Theorem mentalModelTool_stores
    loadCustomModels s sessionID modelName problem steps models model :
  LoadMentalModels loadCustomModels (MentalModelsPath (config s))
  = Some (inr models) ->
  models !! modelName = Some model ->
  let r := mentalModelTool loadCustomModels sessionID modelName problem steps s in
  exists resp m,
    r.1 = ToolResultText resp /\
    mm_status resp = "success" /\
    steps_used resp = (if decide (steps = []) then model_Steps model else steps) /\
    (has_steps resp = true <-> steps_used resp <> []) /\
    model_info resp = {| info_name := Name model;
                         info_description := Description model;
                         info_category := Category model;
                         info_priority := Priority model |} /\
    mentalModels r.2 = <[model_id resp := m]> (mentalModels s) /\
    model_ID m = model_id resp /\
    ModelName m = modelName /\ Problem m = problem /\ Steps m = steps_used resp /\
    total_mental_models resp = Z.of_nat (size (mentalModels r.2)) /\
    thoughts r.2 = thoughts s /\
    (forall sid, thought_count r.2 sid = thought_count s sid).
Proof.
  intros EL Lk r. subst r. unfold mentalModelTool, bind, gets, ret. rewrite EL, Lk.
  assert (Hsteps : (if decide (len steps = 0) then model_Steps model else steps)
                   = (if decide (steps = []) then model_Steps model else steps)).
  { destruct steps as [|x l]; [done|].
    destruct (decide (len (x :: l) = 0)) as [H|_]; [|done].
    unfold len in H. simpl in H. lia. }
  rewrite Hsteps. clear Hsteps.
  set (used := if decide (steps = []) then model_Steps model else steps).
  destruct (timeNow s) as [t1 s1] eqn:N1. destruct (timeNow s1) as [t2 s2] eqn:N2.
  apply timeNow_spec in N1 as [(C1 & T1 & M1 & S1 & _) _].
  apply timeNow_spec in N2 as [(C2 & T2 & M2 & S2 & _) _].
  set (modelData := mkMentalModelData _ _ _ _ _ _ _ _).
  assert (Hidne : model_ID modelData <> "") by (by apply string_app_nonempty).
  destruct (AddMentalModel_stored s2 sessionID modelData)
    as (m' & E & _ & Hkeep & Hw & Mm & _ & _ & T & Hcnt).
  specialize (Hkeep Hidne).
  destruct (AddMentalModel sessionID modelData s2) as [r3 s3].
  simpl in E, Hw, Mm, T, Hcnt, Hkeep. subst r3.
  destruct (GetSessionStats_sizes s3 sessionID)
    as (stats & E4 & T4 & M4 & _ & Hcnt4 & _ & _ & Hn).
  destruct (GetSessionStats sessionID s3) as [r4 s4].
  simpl in E4, T4, M4, Hcnt4. subst r4. simpl.
  eexists _, m'. split; [done|]. simpl.
  rewrite len_positive, M4, Mm, M2, M1, T4, T, T2, T1, Hn, Mm, M2, M1.
  rewrite <- Hkeep. rewrite Hw. simpl.
  do 11 (split; [done|]).
  intros sid. rewrite Hcnt4, Hcnt. unfold thought_count. by rewrite S2, S1.
Qed.

(** [opportunity_cost] with two steps of the caller's, on a fresh store. *)
Lemma mentalModelTool_stores_witness :
  let s := New DefaultConfig 0 [1; 1; 1; 1; 1; 1]%N in
  let r := mentalModelTool (fun _ => Some (inl "none")) "s1" "opportunity_cost" "X"
             ["list options"; "compare"] s in
  exists resp m,
    r.1 = ToolResultText resp /\
    steps_used resp = ["list options"; "compare"] /\
    mentalModels r.2 !! model_id resp = Some m /\
    Steps m = ["list options"; "compare"] /\
    total_mental_models resp = 1.
Proof.
  intros s r.
  assert (EL : LoadMentalModels (fun _ => Some (inl "none"))
                 (MentalModelsPath (config s))
               = Some (inr (from_core <$> MentalModels))) by reflexivity.
  assert (Lk : is_Some ((from_core <$> MentalModels) !! "opportunity_cost"))
    by (vm_compute; by eexists).
  destruct Lk as [model Lk].
  destruct (mentalModelTool_stores (fun _ => Some (inl "none")) s "s1"
              "opportunity_cost" "X"
              ["list options"; "compare"] (from_core <$> MentalModels) model EL Lk)
    as (resp & m & E & _ & Hs & _ & _ & Mm & _ & _ & _ & Hm & Hn & _).
  exists resp, m. split; [exact E|]. split; [exact Hs|].
  split. { etrans; [apply (f_equal (fun x => x !! model_id resp) Mm)|].
           apply lookup_insert_eq. }
  split; [by rewrite Hm, Hs|].
  etrans; [exact Hn|].
  etrans; [apply (f_equal (fun x => Z.of_nat (size x)) Mm)|].
  rewrite map_size_insert. reflexivity.
Defined.

(** * Properties of the catalog listings *)

(** ** The order of [less] *)

Lemma string_ltb_lt (x y : string) : String.ltb x y = true <-> OrderedTypeEx.String_as_OT.lt x y.
Proof.
  unfold String.ltb. rewrite <- OrderedTypeEx.String_as_OT.cmp_lt. unfold OrderedTypeEx.String_as_OT.cmp.
  destruct (String.compare x y); split; congruence.
Qed.

Lemma string_ltb_false (x y : string) :
  String.ltb y x = false <-> x = y \/ String.ltb x y = true.
Proof.
  unfold String.ltb. rewrite (String.compare_antisym x y).
  destruct (String.compare y x) eqn:E; simpl; split; try tauto; try congruence.
  - intros _. left. symmetry. by apply String.compare_eq_iff.
  - intros [->|H]; [|done].
    assert (String.compare y y = Eq) by (by apply OrderedTypeEx.String_as_OT.cmp_eq). congruence.
Qed.

Lemma string_ltb_trans (x y z : string) :
  String.ltb x y = true -> String.ltb y z = true -> String.ltb x z = true.
Proof. rewrite !string_ltb_lt. apply OrderedTypeEx.String_as_OT.lt_trans. Qed.

(** [less b a = false] spelled out: [a] has the higher priority, or the
    same priority and a name that is not after [b]'s. *)
Lemma not_after_spec a b :
  not_after a b <->
  Priority (Model b) < Priority (Model a) \/
  (Priority (Model a) = Priority (Model b) /\
   String.ltb (Name (Model b)) (Name (Model a)) = false).
Proof.
  unfold not_after, less.
  destruct (decide (Priority (Model b) <> Priority (Model a))) as [Hne|Heq].
  - rewrite Z.ltb_ge. split; [intros; left; lia|intros [?|[? _]]; lia].
  - assert (Priority (Model b) = Priority (Model a)) by lia.
    split; [intros; right; by split|intros [?|[_ ?]]; [lia|done]].
Qed.

#[global] Instance not_after_total : Total not_after.
Proof.
  intros a b. rewrite !not_after_spec.
  destruct (Z.lt_trichotomy (Priority (Model a)) (Priority (Model b))) as [?|[E|?]];
    [right; by left| |left; by left].
  destruct (String.ltb (Name (Model b)) (Name (Model a))) eqn:L.
  - right. right. split; [done|]. apply string_ltb_false. by right.
  - left. right. by split.
Qed.

#[global] Instance not_after_trans : Transitive not_after.
Proof.
  intros a b c. rewrite !not_after_spec.
  intros [Hab|[Eab Lab]] [Hbc|[Ebc Lbc]]; try (left; lia).
  right. split; [lia|].
  apply string_ltb_false in Lab as [Eq1|L1], Lbc as [Eq2|L2];
    apply string_ltb_false.
  - left. congruence.
  - right. by rewrite Eq1.
  - right. by rewrite <- Eq2.
  - right. by eapply string_ltb_trans.
Qed.

Lemma StronglySorted_lookup {A} (R : relation A) (l : list A) i j a b :
  StronglySorted R l -> l !! i = Some a -> l !! j = Some b -> (i < j)%nat -> R a b.
Proof.
  intros Hs. revert i j a b.
  induction Hs as [|x l Hs IH Hall]; intros i j a b Hi Hj Hlt.
  - done.
  - destruct j as [|j]; [lia|]. simpl in Hj. destruct i as [|i].
    + injection Hi as <-. rewrite Forall_forall in Hall. apply Hall.
      by eapply list_elem_of_lookup_2.
    + simpl in Hi. apply (IH i j); [done|done|lia].
Qed.

Lemma sort_Slice_spec (l : list MentalModelWithKey) :
  sort_Slice l ≡ₚ l /\ StronglySorted not_after (sort_Slice l).
Proof.
  split; [apply merge_sort_Permutation|apply StronglySorted_merge_sort; apply _].
Qed.

(** X15.  [GetModelsByPriority] lists every model of the catalog exactly
    once, with its key, and in order: a model never stands after one of
    lower priority, nor after one of the same priority whose name is
    greater. *)
Theorem GetModelsByPriority_sorted (models : gmap string MentalModel) :
  let l := GetModelsByPriority models in
  length l = size models /\
  NoDup (Key <$> l) /\
  (forall key model,
     {| Key := key; Model := model |} ∈ l <-> models !! key = Some model) /\
  (forall i j a b,
     l !! i = Some a -> l !! j = Some b -> (i < j)%nat ->
     Priority (Model b) <= Priority (Model a) /\
     (Priority (Model a) = Priority (Model b) ->
      String.ltb (Name (Model b)) (Name (Model a)) = false)).
Proof.
  intros l. subst l. unfold GetModelsByPriority.
  set (entries := (fun kv : string * MentalModel => {| Key := kv.1; Model := kv.2 |})
                    <$> map_to_list models).
  destruct (sort_Slice_spec entries) as [Hp Hs].
  split. { rewrite Hp. unfold entries. by rewrite length_fmap, length_map_to_list. }
  split.
  { rewrite Hp. unfold entries. rewrite <- list_fmap_compose.
    apply (NoDup_fst_map_to_list models). }
  split.
  { intros key model. rewrite Hp. unfold entries. rewrite list_elem_of_fmap. split.
    - intros ([k m] & [= -> ->] & Hin). by apply elem_of_map_to_list.
    - intros L. exists (key, model). split; [done|]. by apply elem_of_map_to_list. }
  intros i j a b Hi Hj Hlt.
  pose proof (StronglySorted_lookup _ _ _ _ _ _ Hs Hi Hj Hlt) as H.
  apply not_after_spec in H as [?|[E L]]; split; try lia; try done.
Qed.

(** The catalog of the loader's test: priorities 1, 10, 5, 3 and 3. *)
Lemma GetModelsByPriority_sorted_witness :
  let model name priority := mkMentalModel name "" [] "" priority in
  let models : gmap string MentalModel :=
    <["low_priority" := model "Low Priority Model" 1]>
    (<["high_priority" := model "High Priority Model" 10]>
    (<["medium_priority" := model "Medium Priority Model" 5]>
    (<["same_priority_1" := model "Same Priority A" 3]>
    (<["same_priority_2" := model "Same Priority B" 3]> ∅)))) in
  Key <$> GetModelsByPriority models
  = ["high_priority"; "medium_priority"; "same_priority_1"; "same_priority_2";
     "low_priority"] /\
  forall a b, GetModelsByPriority models !! 2%nat = Some a ->
              GetModelsByPriority models !! 3%nat = Some b ->
              Priority (Model b) <= Priority (Model a).
Proof.
  intros model models. split; [vm_compute; reflexivity|].
  intros a b Ha Hb.
  destruct (GetModelsByPriority_sorted models) as (_ & _ & _ & H).
  apply (H 2%nat 3%nat a b Ha Hb). lia.
Defined.

(** * Properties of the loader of custom models *)

Section LoaderProperties.

Variable TrimSpace : string -> string.
Variable Stat : string -> StatResult.
Variable ReadFile : string -> string + string.
Variable WalkDir : string -> list WalkEntry.
Variable Unmarshal : string -> string + gmap string MentalModel.

Lemma first_blank_step_None i steps :
  first_blank_step TrimSpace i steps = None <->
  Forall (fun step => TrimSpace step <> "") steps.
Proof using Type.
  revert i. induction steps as [|step rest IH]; intros i; simpl.
  - split; [constructor|done].
  - destruct (decide (TrimSpace step = "")) as [E|E].
    + split; [done|]. intros H. by inversion H.
    + rewrite IH. split; [by constructor|]. intros H. by inversion H.
Qed.

Lemma validate_entry_None key model :
  validate_entry TrimSpace key model = None <-> well_formed TrimSpace model.
Proof using Type.
  clear Stat ReadFile WalkDir Unmarshal.
  unfold validate_entry, well_formed, len.
  destruct (decide (TrimSpace (Name model) = "")); [split; [done|tauto]|].
  destruct (decide (TrimSpace (Description model) = "")); [split; [done|tauto]|].
  destruct (decide (Z.of_nat (length (model_Steps model)) = 0)) as [E|E].
  { split; [done|]. intros (_ & _ & H & _). destruct (model_Steps model); done. }
  destruct (decide (TrimSpace (Category model) = "")); [split; [done|tauto]|].
  destruct (first_blank_step TrimSpace 0 (model_Steps model)) eqn:F.
  - split; [done|]. intros (_ & _ & _ & _ & H).
    apply first_blank_step_None with (i := 0%nat) in H. congruence.
  - apply first_blank_step_None in F. split; [|done]. intros _.
    repeat split; try done. intros H. by rewrite H in E.
Qed.

Lemma with_default_priority_spec model :
  Name (with_default_priority model) = Name model /\
  Description (with_default_priority model) = Description model /\
  model_Steps (with_default_priority model) = model_Steps model /\
  Category (with_default_priority model) = Category model /\
  Priority (with_default_priority model)
  = (if decide (Priority model = 0) then 1 else Priority model) /\
  Priority (with_default_priority model) <> 0.
Proof using Type.
  unfold with_default_priority.
  destruct (decide (Priority model = 0)); simpl; repeat split; done.
Qed.

Lemma with_default_priority_well_formed model :
  well_formed TrimSpace (with_default_priority model) <->
  well_formed TrimSpace model.
Proof using Type.
  unfold well_formed.
  destruct (with_default_priority_spec model) as (-> & -> & -> & -> & _). done.
Qed.

(** The loop of [validateModels] over distinct keys. *)
Lemma validate_range_spec entries models :
  NoDup entries.*1 ->
  match validate_range TrimSpace entries models with
  | (None, models') =>
      Forall (fun kv => well_formed TrimSpace kv.2) entries /\
      (forall key, key ∉ entries.*1 -> models' !! key = models !! key) /\
      (forall key model, (key, model) ∈ entries ->
         models' !! key
         = if decide (Priority model = 0) then Some (with_default_priority model)
           else models !! key)
  | (Some err, _) =>
      exists key model, (key, model) ∈ entries /\
        validate_entry TrimSpace key model = Some err
  end.
Proof using Type.
  revert models. induction entries as [|[key model] rest IH]; intros models Hnd.
  - simpl. split; [constructor|]. split; [done|]. intros ?? H. by inversion H.
  - simpl. apply NoDup_cons in Hnd as [Hnotin Hnd].
    destruct (validate_entry TrimSpace key model) as [err|] eqn:V.
    { exists key, model. split; [left|done]. }
    apply validate_entry_None in V.
    specialize (IH (if decide (Priority model = 0)
                    then <[key := with_default_priority model]> models
                    else models) Hnd).
    destruct (validate_range TrimSpace rest _) as [[err|] models'].
    { destruct IH as (k & m & Hin & E). exists k, m. split; [by right|done]. }
    destruct IH as (Hall & Hout & Hin). split; [by constructor|]. split.
    + intros k Hk. apply not_elem_of_cons in Hk as [Hne Hk].
      rewrite (Hout k Hk). destruct (decide (Priority model = 0)); [|done].
      by rewrite lookup_insert_ne.
    + intros k m Hkm. apply elem_of_cons in Hkm as [[= -> ->]|Hkm].
      * rewrite (Hout key Hnotin).
        destruct (decide (Priority model = 0)); [|done].
        by rewrite lookup_insert_eq.
      * rewrite (Hin k m Hkm).
        destruct (decide (Priority m = 0)); [done|].
        destruct (decide (Priority model = 0)); [|done].
        rewrite lookup_insert_ne; [done|]. intros ->. apply Hnotin.
        apply list_elem_of_fmap. by exists (k, m).
Qed.

(** [validateModels] by its result. *)
Lemma validateModels_cases (models : gmap string MentalModel) :
  match validateModels TrimSpace models with
  | (None, models') =>
      (forall key model, models !! key = Some model -> well_formed TrimSpace model) /\
      models' = with_default_priority <$> models
  | (Some err, _) =>
      (exists key model, models !! key = Some model /\
         validate_entry TrimSpace key model = Some err)
  end.
Proof using Type.
  unfold validateModels.
  pose proof (validate_range_spec (map_to_list models) models
                (NoDup_fst_map_to_list models)) as H.
  destruct (validate_range TrimSpace (map_to_list models) models)
    as [[err|] models'].
  - destruct H as (key & model & Hin & E). apply elem_of_map_to_list in Hin.
    by exists key, model.
  - destruct H as (Hall & Hout & Hin). split.
    + intros key model L. rewrite Forall_forall in Hall.
      apply (Hall (key, model)). by apply elem_of_map_to_list.
    + apply map_eq. intros key. rewrite lookup_fmap.
      destruct (models !! key) as [model|] eqn:L; simpl.
      * rewrite (Hin key model) by (by apply elem_of_map_to_list).
        destruct (decide (Priority model = 0)) as [E|E]; [done|].
        rewrite L. f_equal. unfold with_default_priority.
        by rewrite decide_False.
      * rewrite Hout; [done|]. intros Hk.
        apply list_elem_of_fmap in Hk as ([k m] & -> & Hk).
        apply elem_of_map_to_list in Hk. simpl in L. congruence.
Qed.

(** X16.  [validateModels] accepts a map exactly when every model in it
    is well formed, whatever the order of the range; it then leaves the
    map with the same keys and models, each with priority 0 replaced by
    1.  An error it returns is the error of one of the entries. *)
Theorem validateModels_spec (models : gmap string MentalModel) :
  ((validateModels TrimSpace models).1 = None <->
   forall key model, models !! key = Some model -> well_formed TrimSpace model) /\
  ((validateModels TrimSpace models).1 = None ->
   (validateModels TrimSpace models).2 = with_default_priority <$> models) /\
  (forall err, (validateModels TrimSpace models).1 = Some err ->
     exists key model, models !! key = Some model /\
       validate_entry TrimSpace key model = Some err).
Proof using Type.
  pose proof (validateModels_cases models) as H.
  destruct (validateModels TrimSpace models) as [[err|] models']; simpl.
  - destruct H as (key & model & L & E). split; [|split; [done|]].
    + split; [done|]. intros Hall.
      pose proof (proj2 (validate_entry_None key model) (Hall _ _ L)).
      congruence.
    + intros ? [= <-]. by exists key, model.
  - destruct H as [Hall ->]. split; [|split; done]. by split.
Qed.

Lemma loadModelsFromFile_inr (filePath : string) models :
  loadModelsFromFile TrimSpace ReadFile Unmarshal filePath = inr models <->
  exists data parsed,
    ReadFile filePath = inr data /\ Unmarshal data = inr parsed /\
    (forall key model, parsed !! key = Some model -> well_formed TrimSpace model) /\
    models = with_default_priority <$> parsed.
Proof using Type.
  unfold loadModelsFromFile.
  destruct (ReadFile filePath) as [err|data] eqn:HR.
  { split; [done|]. by intros (? & ? & ? & _). }
  destruct (Unmarshal data) as [err|parsed] eqn:HU.
  { split; [done|]. intros (? & ? & [= <-] & ? & _). congruence. }
  pose proof (validateModels_cases parsed) as V.
  destruct (validateModels TrimSpace parsed) as [[err|] models'].
  - split; [done|]. intros (? & p & [= <-] & HU' & Hall & _).
    assert (p = parsed) as -> by congruence.
    destruct V as (key & model & L & E).
    pose proof (proj2 (validate_entry_None key model) (Hall _ _ L)). congruence.
  - destruct V as [Hall ->]. split.
    + intros [= <-]. by exists data, parsed.
    + intros (? & p & [= <-] & HU' & _ & ->).
      assert (p = parsed) as -> by congruence. done.
Qed.

Lemma loadModelsFromFile_models (filePath : string) models :
  loadModelsFromFile TrimSpace ReadFile Unmarshal filePath = inr models ->
  forall key model, models !! key = Some model ->
    well_formed TrimSpace model /\ Priority model <> 0.
Proof using Type.
  intros H key model L.
  apply loadModelsFromFile_inr in H as (data & parsed & _ & _ & Hall & ->).
  rewrite lookup_fmap in L.
  destruct (parsed !! key) as [m|] eqn:Lp; [|done]. injection L as <-. split.
  - apply with_default_priority_well_formed. by eapply Hall.
  - apply with_default_priority_spec.
Qed.

(** X17.  [loadModelsFromFile] returns models exactly when the file can
    be read and parsed and every model in it is well formed; it then
    returns the parsed models with priority 0 replaced by 1, so that no
    model it returns has priority 0. *)
Theorem loadModelsFromFile_spec (filePath : string) models :
  (loadModelsFromFile TrimSpace ReadFile Unmarshal filePath = inr models <->
   exists data parsed,
     ReadFile filePath = inr data /\ Unmarshal data = inr parsed /\
     (forall key model, parsed !! key = Some model -> well_formed TrimSpace model) /\
     models = with_default_priority <$> parsed) /\
  (loadModelsFromFile TrimSpace ReadFile Unmarshal filePath = inr models ->
   forall key model, models !! key = Some model ->
     well_formed TrimSpace model /\ Priority model <> 0).
Proof using Type.
  split; [apply loadModelsFromFile_inr|apply loadModelsFromFile_models].
Qed.

Lemma yaml_file_spec entry :
  negb (walk_isDir entry)
  && (HasSuffix (walk_path entry) ".yaml" || HasSuffix (walk_path entry) ".yml")
  = true <-> yaml_file entry.
Proof using Type.
  unfold yaml_file. rewrite andb_true_iff, orb_true_iff, negb_true_iff. done.
Qed.

(** The walk of [loadCustomModels], started with the models [acc]. *)
Lemma walk_spec entries acc :
  match walk TrimSpace ReadFile Unmarshal entries acc with
  | inl err => exists entry, entry ∈ entries /\ walk_err entry = Some err
  | inr models =>
      (forall entry, entry ∈ entries -> walk_err entry = None) /\
      (forall key model, models !! key = Some model ->
         acc !! key = Some model \/
         exists entry fileModels,
           entry ∈ entries /\ yaml_file entry /\
           loadModelsFromFile TrimSpace ReadFile Unmarshal (walk_path entry)
           = inr fileModels /\
           fileModels !! key = Some model) /\
      (forall key, is_Some (acc !! key) -> is_Some (models !! key)) /\
      (forall entry fileModels key,
         entry ∈ entries -> yaml_file entry ->
         loadModelsFromFile TrimSpace ReadFile Unmarshal (walk_path entry)
         = inr fileModels ->
         is_Some (fileModels !! key) -> is_Some (models !! key))
  end.
Proof using Type.
  revert acc. induction entries as [|entry rest IH]; intros acc; simpl.
  - split; [by intros ? ?%elem_of_nil|]. split; [by left|]. split; [done|].
    by intros ??? ?%elem_of_nil.
  - destruct (walk_err entry) as [err|] eqn:Herr.
    { exists entry. split; [left|done]. }
    pose proof (yaml_file_spec entry) as Hy.
    destruct (negb (walk_isDir entry) && _) eqn:Hb.
    + destruct (loadModelsFromFile TrimSpace ReadFile Unmarshal (walk_path entry))
        as [e|fileModels] eqn:Hload.
      * specialize (IH acc).
        destruct (walk TrimSpace ReadFile Unmarshal rest acc) as [e'|models].
        { destruct IH as (x & Hx & E). exists x. split; [by right|done]. }
        destruct IH as (Hno & Hfrom & Hacc & Hall).
        split; [by intros x [->|?]%elem_of_cons; [|apply Hno]|].
        split.
        { intros key model L. destruct (Hfrom key model L) as [?|(x & fm & ? & ?)];
            [by left|]. right. exists x, fm. split; [by right|done]. }
        split; [done|].
        intros x fm key [->|Hx]%elem_of_cons Hyx Hl Hk; [congruence|].
        by eapply Hall.
      * specialize (IH (fileModels ∪ acc)).
        destruct (walk TrimSpace ReadFile Unmarshal rest (fileModels ∪ acc))
          as [e'|models].
        { destruct IH as (x & Hx & E). exists x. split; [by right|done]. }
        destruct IH as (Hno & Hfrom & Hacc & Hall).
        split; [by intros x [->|?]%elem_of_cons; [|apply Hno]|].
        split.
        { intros key model L.
          destruct (Hfrom key model L) as [Hu|(x & fm & ? & ?)].
          - apply lookup_union_Some_raw in Hu as [Hf|[_ Ha]]; [|by left].
            right. exists entry, fileModels. split; [left|].
            split; [by apply Hy|done].
          - right. exists x, fm. split; [by right|done]. }
        split.
        { intros key Hk. apply Hacc. rewrite lookup_union_is_Some. by right. }
        intros x fm key [->|Hx]%elem_of_cons Hyx Hl Hk.
        -- apply Hacc. rewrite lookup_union_is_Some. left. congruence.
        -- by eapply Hall.
    + specialize (IH acc).
      destruct (walk TrimSpace ReadFile Unmarshal rest acc) as [e'|models].
      { destruct IH as (x & Hx & E). exists x. split; [by right|done]. }
      destruct IH as (Hno & Hfrom & Hacc & Hall).
      split; [by intros x [->|?]%elem_of_cons; [|apply Hno]|].
      split.
      { intros key model L. destruct (Hfrom key model L) as [?|(x & fm & ? & ?)];
          [by left|]. right. exists x, fm. split; [by right|done]. }
      split; [done|].
      intros x fm key [->|Hx]%elem_of_cons Hyx Hl Hk; [|by eapply Hall].
      apply Hy in Hyx. congruence.
Qed.

Lemma loadCustomModels_from_file (path : string) models :
  loadCustomModels TrimSpace Stat ReadFile WalkDir Unmarshal path
  = Some (inr models) ->
  forall key model, models !! key = Some model ->
    exists file fileModels,
      loadModelsFromFile TrimSpace ReadFile Unmarshal file = inr fileModels /\
      fileModels !! key = Some model.
Proof using Type.
  unfold loadCustomModels. intros H key model L.
  destruct (Stat path) as [| |[|]]; try done.
  - pose proof (walk_spec (WalkDir path) ∅) as W.
    destruct (walk TrimSpace ReadFile Unmarshal (WalkDir path) ∅)
      as [err|models']; [done|]. injection H as ->.
    destruct W as (_ & Hfrom & _).
    destruct (Hfrom key model L) as [?|(x & fm & _ & _ & ? & ?)]; [done|].
    by exists (walk_path x), fm.
  - injection H as H. by exists path, models.
Qed.

(** X18.  Every model that [loadCustomModels] returns, from a file or
    from a directory, is well formed, has a priority other than 0, and
    is a model of a file that [loadModelsFromFile] accepts. *)
Theorem loadCustomModels_models (path : string) models :
  loadCustomModels TrimSpace Stat ReadFile WalkDir Unmarshal path
  = Some (inr models) ->
  forall key model, models !! key = Some model ->
    well_formed TrimSpace model /\ Priority model <> 0 /\
    exists file fileModels,
      loadModelsFromFile TrimSpace ReadFile Unmarshal file = inr fileModels /\
      fileModels !! key = Some model.
Proof using Type.
  intros H key model L.
  destruct (loadCustomModels_from_file path models H key model L)
    as (file & fm & Hl & Hk).
  destruct (loadModelsFromFile_models file fm Hl key model Hk).
  split; [done|]. split; [done|]. by exists file, fm.
Qed.

(** X19.  Over a directory [loadCustomModels] fails only when the walk
    itself reports an error.  Files that cannot be read or parsed, or
    hold a model that is not well formed, are skipped: the call still
    succeeds, and every key of a file that loads is in the result. *)
Theorem loadCustomModels_directory (path : string) :
  Stat path = stat_info true ->
  ((forall entry, entry ∈ WalkDir path -> walk_err entry = None) ->
   exists models,
     loadCustomModels TrimSpace Stat ReadFile WalkDir Unmarshal path
     = Some (inr models) /\
     forall entry fileModels key,
       entry ∈ WalkDir path -> yaml_file entry ->
       loadModelsFromFile TrimSpace ReadFile Unmarshal (walk_path entry)
       = inr fileModels ->
       is_Some (fileModels !! key) -> is_Some (models !! key)) /\
  (forall entry, entry ∈ WalkDir path -> walk_err entry <> None ->
   exists err,
     loadCustomModels TrimSpace Stat ReadFile WalkDir Unmarshal path
     = Some (inl ("failed to walk directory: " +:+ err))).
Proof using Type.
  intros HS. unfold loadCustomModels. rewrite HS.
  pose proof (walk_spec (WalkDir path) ∅) as W.
  destruct (walk TrimSpace ReadFile Unmarshal (WalkDir path) ∅) as [err|models].
  - destruct W as (x & Hx & E). split.
    + intros Hno. rewrite (Hno x Hx) in E. done.
    + intros _ _ _. by exists err.
  - destruct W as (Hno & _ & _ & Hall). split.
    + intros _. exists models. split; [done|]. exact Hall.
    + intros x Hx Hne. by rewrite (Hno x Hx) in Hne.
Qed.

(** X20.  [loadCustomModels] panics, on [info.IsDir()] with a nil
    [FileInfo], exactly when [os.Stat] fails with an error other than
    "does not exist"; a path that does not exist is an error. *)
Theorem loadCustomModels_panic (path : string) :
  (loadCustomModels TrimSpace Stat ReadFile WalkDir Unmarshal path = None <->
   exists err, Stat path = stat_failed err) /\
  (Stat path = stat_not_exist <->
   loadCustomModels TrimSpace Stat ReadFile WalkDir Unmarshal path
   = Some (inl ("mental models path does not exist: " +:+ path))).
Proof using Type.
  unfold loadCustomModels.
  destruct (Stat path) as [|err|[|]] eqn:HS.
  - split; [split; [done|by intros [? ?]]|done].
  - split; [split; [by exists err|done]|done].
  - destruct (walk _ _ _ _ _) as [e|m];
      (split; [split; [done|by intros [? ?]]|done]).
  - split; [split; [done|by intros [? ?]]|]. split; [done|].
    intros [= H]. unfold loadModelsFromFile in H.
    destruct (ReadFile path); [discriminate H|].
    destruct (Unmarshal s); [discriminate H|].
    destruct (validateModels TrimSpace g) as [[?|] ?]; discriminate H.
Qed.

(** X21.  [LoadMentalModels] over the loader of custom models: in the
    catalog, priority 0 marks exactly the built-in entries that no
    custom model replaces; every other entry is a well-formed model
    that [loadCustomModels] returned for the configured path. *)
Theorem LoadMentalModels_priority (path : string) custom models :
  loadCustomModels TrimSpace Stat ReadFile WalkDir Unmarshal path = Some custom ->
  LoadMentalModels (fun _ => Some custom) path = Some (inr models) ->
  forall key model, models !! key = Some model ->
    (Priority model = 0 ->
     exists core, MentalModels !! key = Some core /\ model = from_core core) /\
    (Priority model <> 0 ->
     well_formed TrimSpace model /\
     exists customModels,
       custom = inr customModels /\ customModels !! key = Some model).
Proof using Type.
  intros Hc Hl key model L. unfold LoadMentalModels in Hl.
  change ((fun coreModel => _) <$> MentalModels) with (from_core <$> MentalModels) in Hl.
  assert (forall m, (from_core <$> MentalModels) !! key = Some m ->
            Priority m = 0 /\
            exists core, MentalModels !! key = Some core /\ m = from_core core)
    as Hcore.
  { intros m Hm. rewrite lookup_fmap in Hm.
    destruct (MentalModels !! key) as [core|]; [|done].
    injection Hm as <-. split; [done|]. by exists core. }
  destruct (decide (path = "")) as [->|Hpath].
  { injection Hl as <-. destruct (Hcore model L) as [P E]. by split. }
  destruct custom as [err|customModels].
  { injection Hl as <-. destruct (Hcore model L) as [P E]. by split. }
  injection Hl as <-.
  apply lookup_union_Some_raw in L as [L|[Hn L]].
  - destruct (loadCustomModels_from_file path customModels Hc key model L)
      as (file & fm & Hf & Hk).
    destruct (loadModelsFromFile_models file fm Hf key model Hk) as [Hw Hp].
    split; [done|]. intros _. split; [done|]. by exists customModels.
  - destruct (Hcore model L) as [P E]. by split.
Qed.

End LoaderProperties.


Lemma validateModels_spec_witness :
  let models : gmap string MentalModel :=
    <["custom" := sample_custom]> (<["first_principles" := sample_override]> ∅) in
  (validateModels sample_TrimSpace models).2 = with_default_priority <$> models.
Proof.
  intros models.
  apply (validateModels_spec sample_TrimSpace models).
  vm_compute. reflexivity.
Defined.

Lemma loadModelsFromFile_spec_witness :
  let models : gmap string MentalModel :=
    with_default_priority
      <$> (<["custom" := sample_custom]>
           (<["first_principles" := sample_override]> ∅)) in
  loadModelsFromFile sample_TrimSpace sample_ReadFile sample_Unmarshal "models/a.yaml"
  = inr models /\
  well_formed sample_TrimSpace (with_default_priority sample_custom) /\
  Priority (with_default_priority sample_custom) <> 0.
Proof.
  intros models.
  assert (loadModelsFromFile sample_TrimSpace sample_ReadFile sample_Unmarshal
            "models/a.yaml" = inr models) as H by (vm_compute; reflexivity).
  split; [exact H|].
  apply (proj2 (loadModelsFromFile_spec sample_TrimSpace sample_ReadFile
                  sample_Unmarshal "models/a.yaml" models) H "custom").
  vm_compute. reflexivity.
Defined.

Lemma loadCustomModels_models_witness :
  let models : gmap string MentalModel :=
    with_default_priority
      <$> (<["custom" := sample_custom]>
           (<["first_principles" := sample_override]> ∅)) in
  loadCustomModels sample_TrimSpace sample_Stat sample_ReadFile sample_WalkDir
    sample_Unmarshal "models" = Some (inr models) /\
  Priority (with_default_priority sample_custom) <> 0 /\
  Priority sample_custom = 0.
Proof.
  intros models.
  assert (loadCustomModels sample_TrimSpace sample_Stat sample_ReadFile
            sample_WalkDir sample_Unmarshal "models" = Some (inr models)) as H
    by (vm_compute; reflexivity).
  split; [exact H|]. split; [|reflexivity].
  apply (loadCustomModels_models sample_TrimSpace sample_Stat sample_ReadFile
           sample_WalkDir sample_Unmarshal "models" models H "custom").
  vm_compute. reflexivity.
Defined.

Lemma loadCustomModels_directory_witness :
  (exists err,
     loadModelsFromFile sample_TrimSpace sample_ReadFile sample_Unmarshal
       "models/b.yml" = inl err) /\
  exists models,
    loadCustomModels sample_TrimSpace sample_Stat sample_ReadFile sample_WalkDir
      sample_Unmarshal "models" = Some (inr models) /\
    is_Some (models !! "custom").
Proof.
  split; [eexists; vm_compute; reflexivity|].
  destruct (loadCustomModels_directory sample_TrimSpace sample_Stat sample_ReadFile
              sample_WalkDir sample_Unmarshal "models" eq_refl) as [H _].
  destruct H as (models & Hm & Hkeys).
  { assert (Forall (fun entry => walk_err entry = None) (sample_WalkDir "models"))
      as HF by (vm_compute; repeat constructor).
    rewrite Forall_forall in HF. exact HF. }
  exists models. split; [exact Hm|].
  apply (Hkeys (mkWalkEntry "models/a.yaml" false None)
           (with_default_priority
              <$> (<["custom" := sample_custom]>
                   (<["first_principles" := sample_override]> ∅)))).
  - assert (sample_WalkDir "models"
            = [ mkWalkEntry "models" true None;
                mkWalkEntry "models/a.yaml" false None;
                mkWalkEntry "models/b.yml" false None;
                mkWalkEntry "models/notes.txt" false None ]) as ->
      by (vm_compute; reflexivity).
    apply list_elem_of_further, list_elem_of_here.
  - split; [reflexivity|]. left. vm_compute. reflexivity.
  - vm_compute. reflexivity.
  - eexists. vm_compute. reflexivity.
Defined.

Lemma LoadMentalModels_priority_witness :
  let customModels : gmap string MentalModel :=
    with_default_priority
      <$> (<["custom" := sample_custom]>
           (<["first_principles" := sample_override]> ∅)) in
  loadCustomModels sample_TrimSpace sample_Stat sample_ReadFile sample_WalkDir
    sample_Unmarshal "models" = Some (inr customModels) /\
  LoadMentalModels (fun _ => Some (inr customModels)) "models"
  = Some (inr (customModels ∪ (from_core <$> MentalModels))) /\
  well_formed sample_TrimSpace sample_override.
Proof.
  intros customModels.
  assert (loadCustomModels sample_TrimSpace sample_Stat sample_ReadFile
            sample_WalkDir sample_Unmarshal "models" = Some (inr customModels))
    as H1 by (vm_compute; reflexivity).
  assert (LoadMentalModels (fun _ => Some (inr customModels)) "models"
          = Some (inr (customModels ∪ (from_core <$> MentalModels))))
    as H2 by (vm_compute; reflexivity).
  split; [exact H1|]. split; [exact H2|].
  assert ((customModels ∪ (from_core <$> MentalModels)) !! "first_principles"
          = Some sample_override) as L by (vm_compute; reflexivity).
  apply (proj2 (LoadMentalModels_priority sample_TrimSpace sample_Stat
                  sample_ReadFile sample_WalkDir sample_Unmarshal "models"
                  (inr customModels) _ H1 H2 "first_principles" sample_override L)).
  vm_compute. discriminate.
Defined.

(** * Properties of the catalog *)

Lemma size_MentalModels : size MentalModels = 4%nat.
Proof. vm_compute. reflexivity. Qed.

Lemma size_from_core : size (from_core <$> MentalModels) = 4%nat.
Proof. by rewrite map_size_fmap, size_MentalModels. Qed.

Lemma size_custom_union (custom : gmap string MentalModel) :
  (4 <= size (custom ∪ (from_core <$> MentalModels)))%nat.
Proof.
  rewrite <- size_from_core, <- !size_dom, dom_union_L.
  apply subseteq_size, union_subseteq_r.
Qed.

Lemma LoadMentalModels_size loadCustomModels path models :
  LoadMentalModels loadCustomModels path = Some (inr models) ->
  (4 <= size models)%nat.
Proof.
  unfold LoadMentalModels.
  change ((fun coreModel => _) <$> MentalModels) with (from_core <$> MentalModels).
  destruct (decide (path = "")); [intros [= <-]; rewrite size_from_core; lia|].
  destruct (loadCustomModels path) as [[err|custom]|]; [| |done].
  - intros [= <-]. rewrite size_from_core. lia.
  - intros [= <-]. apply size_custom_union.
Qed.

(** X22.  [LoadMentalModels] never returns an error.  It panics exactly
    when a path is configured and [loadCustomModels] panics on it, and
    returns a catalog otherwise.  A catalog it returns has the four
    built-in keys; with no path, or when the custom models fail to load,
    it is the built-in one; otherwise every custom model is in it under
    its key, in place of a built-in model of that key. *)
Theorem LoadMentalModels_builtins
    (loadCustomModels : string -> option (string + gmap string MentalModel))
    (path : string) :
  (LoadMentalModels loadCustomModels path = None <->
   path <> "" /\ loadCustomModels path = None) /\
  (load_returns loadCustomModels path <->
   exists models, LoadMentalModels loadCustomModels path = Some (inr models)) /\
  (forall err, LoadMentalModels loadCustomModels path <> Some (inl err)) /\
  (forall models,
     LoadMentalModels loadCustomModels path = Some (inr models) ->
     (forall key core, MentalModels !! key = Some core ->
        exists model, models !! key = Some model /\
          (model = from_core core \/
           exists custom, path <> "" /\ loadCustomModels path = Some (inr custom) /\
                          custom !! key = Some model)) /\
     (4 <= size models)%nat /\
     ((path = "" \/ exists err, loadCustomModels path = Some (inl err)) ->
      models = from_core <$> MentalModels) /\
     (forall custom, path <> "" -> loadCustomModels path = Some (inr custom) ->
        forall key model, custom !! key = Some model -> models !! key = Some model)).
Proof.
  split; [|split; [apply LoadMentalModels_returns| split]].
  { unfold LoadMentalModels.
    destruct (decide (path = "")) as [->|Hpath]; [split; [done|by intros [? _]]|].
    destruct (loadCustomModels path) as [[err|custom]|].
    - split; [done|by intros [_ ?]].
    - split; [done|by intros [_ ?]].
    - split; [by intros _|done]. }
  { intros err. unfold LoadMentalModels.
    destruct (decide (path = "")); [done|].
    by destruct (loadCustomModels path) as [[?|?]|]. }
  intros models EL. split; [|split; [by eapply LoadMentalModels_size|]].
  - revert EL. unfold LoadMentalModels.
    change ((fun coreModel => _) <$> MentalModels) with (from_core <$> MentalModels).
    intros EL key core L.
    assert ((from_core <$> MentalModels) !! key = Some (from_core core)) as Hcore
      by (by rewrite lookup_fmap, L).
    destruct (decide (path = "")) as [->|Hpath].
    { injection EL as <-. exists (from_core core). split; [done|by left]. }
    destruct (loadCustomModels path) as [[err|custom]|] eqn:Hc; [| |done].
    { injection EL as <-. exists (from_core core). split; [done|by left]. }
    injection EL as <-. destruct (custom !! key) as [model|] eqn:Lc.
    + exists model. split; [by apply lookup_union_Some_l|]. right. by exists custom.
    + exists (from_core core). split; [|by left]. by rewrite lookup_union_r.
  - revert EL. unfold LoadMentalModels.
    change ((fun coreModel => _) <$> MentalModels) with (from_core <$> MentalModels).
    intros EL. split.
    + intros Hb. destruct (decide (path = "")) as [->|Hpath]; [by injection EL|].
      destruct Hb as [?|[err Hx]]; [done|]. rewrite Hx in EL. by injection EL.
    + intros custom Hpath Hx key model L.
      rewrite decide_False in EL by done. rewrite Hx in EL. injection EL as <-.
      by apply lookup_union_Some_l.
Qed.

(** ** The listings *)



Lemma sorted_pairs (l : list MentalModelWithKey) :
  StronglySorted not_after l ->
  forall i j a b,
    l !! i = Some a -> l !! j = Some b -> (i < j)%nat ->
    Priority (Model b) <= Priority (Model a) /\
    (Priority (Model a) = Priority (Model b) ->
     String.ltb (Name (Model b)) (Name (Model a)) = false).
Proof.
  intros Hs i j a b Hi Hj Hlt.
  pose proof (StronglySorted_lookup _ _ _ _ _ _ Hs Hi Hj Hlt) as H.
  apply not_after_spec in H as [?|[E L]]; split; try lia; try done.
Qed.

(** The grouping loop of [GetModelsByCategory], started with
    [categories]. *)
Lemma group_spec (entries : list (string * MentalModel))
    (categories : gmap string (list MentalModelWithKey)) (c : string) :
  let grouped :=
    foldl (fun categories kv =>
             <[Category kv.2 :=
                 default [] (categories !! Category kv.2)
                   ++ [{| Key := kv.1; Model := kv.2 |}]]> categories)
          categories entries in
  default [] (grouped !! c)
  = default [] (categories !! c)
      ++ (with_key <$> filter (fun kv => Category kv.2 = c) entries) /\
  (grouped !! c = None <->
   categories !! c = None /\ filter (fun kv => Category kv.2 = c) entries = []).
Proof.
  revert categories. induction entries as [|kv rest IH]; intros categories; simpl.
  - split; [by rewrite app_nil_r|]. split; [done|by intros [? _]].
  - specialize (IH (<[Category kv.2 :=
                        default [] (categories !! Category kv.2)
                          ++ [{| Key := kv.1; Model := kv.2 |}]]> categories)).
    simpl in IH. destruct IH as [IH1 IH2]. rewrite IH1, IH2. clear IH1 IH2.
    rewrite filter_cons.
    destruct (decide (Category kv.2 = c)) as [<-|Hne].
    + rewrite !lookup_insert_eq. simpl. split; [by rewrite <- app_assoc|].
      split; [by intros [? _]|by intros [_ ?]].
    + rewrite !lookup_insert_ne by done. done.
Qed.

Lemma GetModelsByCategory_lookup (models : gmap string MentalModel) c l :
  GetModelsByCategory models !! c = Some l <->
  l = sort_Slice (with_key <$> filter (fun kv => Category kv.2 = c) (map_to_list models))
  /\ l <> [].
Proof.
  unfold GetModelsByCategory.
  destruct (group_spec (map_to_list models) ∅ c) as [Hd Hn]. simpl in Hd, Hn.
  rewrite lookup_fmap. rewrite lookup_empty in Hd, Hn. simpl in Hd.
  destruct (foldl _ ∅ (map_to_list models) !! c) as [l0|] eqn:E; simpl in *.
  - subst l0.
    assert (sort_Slice (with_key <$> filter (fun kv => Category kv.2 = c)
                          (map_to_list models)) <> []) as Hne.
    { intros Hnil.
      pose proof (proj1 (sort_Slice_spec
                  (with_key <$> filter (fun kv => Category kv.2 = c)
                     (map_to_list models)))) as Hp.
      rewrite Hnil in Hp. symmetry in Hp. apply Permutation_nil_r in Hp.
      apply fmap_nil_inv in Hp.
      assert (Some (with_key <$> filter (fun kv => Category kv.2 = c)
                      (map_to_list models)) = None) as Habs
        by (apply Hn; by split). done. }
    split; [by intros [= <-]|by intros [-> _]].
  - split; [done|]. intros [-> Hne]. destruct Hn as [Hn _].
    destruct (Hn eq_refl) as [_ Hf]. rewrite Hf in Hne. by destruct Hne.
Qed.

(** X23.  [GetModelsByCategory] puts every model of the catalog, with its
    key, in the list of its own category and nowhere else; no list is
    empty or holds a key twice, and each is in the order of
    [GetModelsByPriority]. *)
Theorem GetModelsByCategory_spec (models : gmap string MentalModel) :
  let categories := GetModelsByCategory models in
  (forall key model,
     models !! key = Some model <->
     exists l, categories !! Category model = Some l /\
               {| Key := key; Model := model |} ∈ l) /\
  (forall c l, categories !! c = Some l ->
     l <> [] /\
     NoDup (Key <$> l) /\
     (forall a, a ∈ l ->
        Category (Model a) = c /\ models !! Key a = Some (Model a)) /\
     (forall i j a b,
        l !! i = Some a -> l !! j = Some b -> (i < j)%nat ->
        Priority (Model b) <= Priority (Model a) /\
        (Priority (Model a) = Priority (Model b) ->
         String.ltb (Name (Model b)) (Name (Model a)) = false))).
Proof.
  intros categories. subst categories.
  assert (forall c a,
            a ∈ with_key <$> filter (fun kv => Category kv.2 = c) (map_to_list models)
            <-> Category (Model a) = c /\ models !! Key a = Some (Model a)) as Hin.
  { intros c a. rewrite list_elem_of_fmap. split.
    - intros ([k m] & -> & [Hc Hkm]%list_elem_of_filter).
      split; [done|]. by apply elem_of_map_to_list.
    - intros [Hc L]. exists (Key a, Model a). split; [by destruct a|].
      apply list_elem_of_filter. split; [done|]. by apply elem_of_map_to_list. }
  split.
  - intros key model. split.
    + intros L.
      exists (sort_Slice (with_key <$> filter (fun kv => Category kv.2 = Category model)
                            (map_to_list models))).
      assert ({| Key := key; Model := model |}
              ∈ sort_Slice (with_key <$> filter (fun kv => Category kv.2 = Category model)
                              (map_to_list models))) as He.
      { rewrite (proj1 (sort_Slice_spec _)). by apply Hin. }
      split; [|done]. apply GetModelsByCategory_lookup. split; [done|].
      intros Hnil. rewrite Hnil in He. by apply elem_of_nil in He.
    + intros (l & [-> _]%GetModelsByCategory_lookup & He).
      rewrite (proj1 (sort_Slice_spec _)) in He. by apply Hin in He as [_ ?].
  - intros c l [-> Hne]%GetModelsByCategory_lookup.
    destruct (sort_Slice_spec
                (with_key <$> filter (fun kv => Category kv.2 = c) (map_to_list models)))
      as [Hp Hs].
    split; [done|]. split; [|split].
    + rewrite Hp, <- list_fmap_compose.
      apply (sublist_NoDup _ ((map_to_list models).*1));
        [apply NoDup_fst_map_to_list|].
      apply (fmap_sublist fst), sublist_filter.
    + intros a Ha. rewrite Hp in Ha. by apply Hin.
    + by apply sorted_pairs.
Qed.

